(** * The sequential-thinking server of [src/index.ts]

    A shallow embedding of the thought pipeline of [SequentialThinkingServer]
    ([processThought] and the private methods around it) and of the part of
    [GraphRenderer] it calls, followed by the properties of the specification
    that were checked against it.

    Conventions of the embedding.
    - A JavaScript number is a rational that binary64 represents; every
      arithmetic result is rounded by [Number.binary64] (round to nearest, ties
      to even, 53-bit significand).  Overflow, subnormals, NaN and the sign of
      zero are outside the model; the request fields that are numbers are
      integers, as the tool's [inputSchema] declares them.
    - A JavaScript string is a [string] whose characters are UTF-16 code units
      below 256.
    - A plain object used as a dictionary is a list of own properties in
      insertion order, read through [JSObject.entries] for the engine's
      enumeration order and through [JSObject.inherited] for what
      [Object.prototype] adds to every lookup.
    - An exception is a [Throw] completion; the server state is threaded
      through every step, so what was written before a [Throw] stays written. *)

From Stdlib Require Import ZArith QArith Qround Qpower Lia Lqa.
From Stdlib Require Import List String Ascii Bool DecimalString.
From Stdlib Require PrimFloat SpecFloat FloatOps.
From Stdlib Require Permutation Sorted DecimalZ DecimalPos.
Import ListNotations.

(** ** Numbers *)

Module Number.

Definition pow2 (e : Z) : Q := 2 ^ e.

(** The exponent of the binade of a positive rational:
    [pow2 (ilog2 q) <= q < pow2 (ilog2 q + 1)]. *)
Definition ilog2 (q : Q) : Z :=
  let e0 := (Z.log2 (Qnum q) - Z.log2 (Zpos (Qden q)))%Z in
  if Qle_bool (pow2 e0) q then e0 else (e0 - 1)%Z.

Definition roundTiesToEven (x : Q) : Z :=
  let f := Qfloor x in
  match Qcompare (x - inject_Z f) (1 # 2) with
  | Lt => f
  | Gt => (f + 1)%Z
  | Eq => if Z.even f then f else (f + 1)%Z
  end.

Definition round_pos (q : Q) : Q :=
  let e := ilog2 q in
  Qred (inject_Z (roundTiesToEven (q * pow2 (52 - e))) * pow2 (e - 52)).

(** The binary64 value nearest to [q]. *)
Definition binary64 (q : Q) : Q :=
  match Qcompare q 0 with
  | Eq => 0
  | Gt => round_pos q
  | Lt => Qred (- round_pos (- q))
  end.

(** The operators [/], [*] and [+] on numbers. *)
Definition fdiv (x y : Q) : Q := binary64 (x / y).
Definition fmul (x y : Q) : Q := binary64 (x * y).
Definition fadd (x y : Q) : Q := binary64 (x + y).

(** A decimal literal of the source, such as [0.4]. *)
Definition literal (q : Q) : Q := binary64 q.

(** [Math.round]: the nearest integer, a tie going up. *)
Definition Math_round (x : Q) : Z := Qfloor (x + (1 # 2)).

Definition Math_floor (x : Q) : Z := Qfloor x.

(** [String(n)] for an integral number of magnitude at most 2^53: its decimal
    digits.  Beyond that JavaScript prints the shortest digits that read back
    as the same number, and from 1e21 on exponent notation, while the model
    prints every digit; a statement about a text printed by [toString]
    speaks of the code within that range only. *)
Definition toString (z : Z) : string := NilZero.string_of_int (Z.to_int z).

End Number.

(** ** Strings *)

Module JSString.

Definition code (c : ascii) : N := N_of_ascii c.

Definition between (lo hi n : N) : bool := ((lo <=? n) && (n <=? hi))%N.

(** The class [\s] on code units below 256: TAB, LF, VT, FF, CR, SP, NBSP. *)
Definition isWhiteSpace (c : ascii) : bool :=
  let n := code c in between 9 13 n || (n =? 32)%N || (n =? 160)%N.

(** The class [\w]: [A-Za-z0-9_]. *)
Definition isWordChar (c : ascii) : bool :=
  let n := code c in
  between 48 57 n || between 65 90 n || (n =? 95)%N || between 97 122 n.

Definition isDigit (c : ascii) : bool := between 48 57 (code c).

(** [toLowerCase] on code units below 256: A-Z, and the Latin-1 capitals
    U+00C0..U+00DE except the multiplication sign U+00D7. *)
Definition toLowerChar (c : ascii) : ascii :=
  let n := code c in
  if between 65 90 n || (between 192 222 n && negb (n =? 215)%N)
  then ascii_of_N (n + 32) else c.

Fixpoint toLowerCase (s : string) : string :=
  match s with
  | EmptyString => EmptyString
  | String c r => String (toLowerChar c) (toLowerCase r)
  end.

(** [s.replace(/[^\w\s]/g, '')]. *)
Fixpoint stripPunctuation (s : string) : string :=
  match s with
  | EmptyString => EmptyString
  | String c r =>
      if isWordChar c || isWhiteSpace c then String c (stripPunctuation r)
      else stripPunctuation r
  end.

(** [s.split(/\s+/)]: the pieces between maximal runs of white space.  A
    leading or a trailing run leaves an empty piece, and the empty string
    splits into one empty piece.  [cur] is the piece being read and [inRun]
    tells that the previous code unit was white space. *)
Fixpoint splitFrom (cur : string) (inRun : bool) (s : string) : list string :=
  match s with
  | EmptyString => [cur]
  | String c r =>
      if isWhiteSpace c then
        if inRun then splitFrom EmptyString true r
        else cur :: splitFrom EmptyString true r
      else splitFrom (cur ++ String c EmptyString) false r
  end.

Definition splitWhiteSpace (s : string) : list string := splitFrom EmptyString false s.

(** [arr.includes(s)] on an array of strings. *)
Definition includes (arr : list string) (s : string) : bool :=
  existsb (String.eqb s) arr.

(** The double quote, for the template literals that print one. *)
Definition dquote : string := String (ascii_of_nat 34) EmptyString.

End JSString.

(** ** Plain objects used as dictionaries *)

Module JSObject.
Import JSString.

(** Own properties, in insertion order; keys are unique. *)
Definition obj (V : Type) : Type := list (string * V).

Definition empty {V} : obj V := [].

Fixpoint getOwn {V} (o : obj V) (k : string) : option V :=
  match o with
  | [] => None
  | (k', v) :: r => if String.eqb k k' then Some v else getOwn r k
  end.

(** [o[k] = v]: an own property keeps its place, a new one goes last. *)
Fixpoint setOwn {V} (o : obj V) (k : string) (v : V) : obj V :=
  match o with
  | [] => [(k, v)]
  | (k', v') :: r =>
      if String.eqb k k' then (k', v) :: r else (k', v') :: setOwn r k v
  end.

(** The properties every plain object inherits from [Object.prototype]; each
    of them reads as a truthy value (a function, or the prototype object for
    [__proto__]). *)
Definition inherited : list string :=
  [ "constructor"; "__defineGetter__"; "__defineSetter__"; "hasOwnProperty";
    "__lookupGetter__"; "__lookupSetter__"; "isPrototypeOf";
    "propertyIsEnumerable"; "toString"; "valueOf"; "__proto__";
    "toLocaleString" ]%string.

Definition isInherited (k : string) : bool := includes inherited k.

Fixpoint digitsValue (acc : N) (s : string) : option N :=
  match s with
  | EmptyString => Some acc
  | String c r =>
      if isDigit c then digitsValue (acc * 10 + (code c - 48)) r else None
  end.

(** A key is an array index when it is the canonical decimal numeral of an
    integer below 2^32 - 1. *)
Definition arrayIndex (k : string) : option N :=
  match k with
  | EmptyString => None
  | String c r =>
      if Ascii.eqb c "0" && negb (String.eqb r EmptyString) then None
      else match digitsValue 0 k with
           | Some n => if (n <? 4294967295)%N then Some n else None
           | None => None
           end
  end.

Definition isArrayIndex (k : string) : bool :=
  match arrayIndex k with Some _ => true | None => false end.

Fixpoint insertIndex {V} (x : N * (string * V)) (l : list (N * (string * V)))
  : list (N * (string * V)) :=
  match l with
  | [] => [x]
  | y :: r => if (fst x <=? fst y)%N then x :: y :: r else y :: insertIndex x r
  end.

Definition indexEntries {V} (o : obj V) : list (N * (string * V)) :=
  flat_map (fun kv => match arrayIndex (fst kv) with
                      | Some n => [(n, kv)]
                      | None => []
                      end) o.

(** [Object.entries(o)]: array-index keys first, in ascending numeric order,
    then the other keys in insertion order. *)
Definition entries {V} (o : obj V) : list (string * V) :=
  map snd (fold_right insertIndex [] (indexEntries o))
  ++ filter (fun kv => negb (isArrayIndex (fst kv))) o.

(** [Object.keys(o)]. *)
Definition keys {V} (o : obj V) : list string := map fst (entries o).

End JSObject.

(** ** Keyword extraction *)

Module Keywords.
Import JSString JSObject.

(** What a slot of [wordCounts] holds: a count, or the text that [+ 1] makes
    of an inherited function, which no arithmetic reads as a number. *)
Inductive CountValue : Type :=
| Count (n : nat)
| NotNumeric.

Definition stopwords : list string :=
  [ "about"; "above"; "across"; "after"; "again" ]%string.

(** The words the frequency count runs over. *)
Definition significantWords (text : string) : list string :=
  filter (fun word => negb (includes stopwords word))
    (filter (fun word => (4 <? String.length word)%nat)
       (splitWhiteSpace (stripPunctuation (toLowerCase text)))).

(** [wordCounts[word] = (wordCounts[word] || 0) + 1].  For a word that names
    an inherited property the read is truthy and [+ 1] concatenates; the
    write then creates an own property, except for [__proto__], whose setter
    drops a value that is not an object. *)
Definition countWord (wordCounts : obj CountValue) (word : string) : obj CountValue :=
  match getOwn wordCounts word with
  | Some (Count n) => setOwn wordCounts word (Count (n + 1))
  | Some NotNumeric => setOwn wordCounts word NotNumeric
  | None =>
      if String.eqb word "__proto__" then wordCounts
      else if isInherited word then setOwn wordCounts word NotNumeric
      else setOwn wordCounts word (Count 1)
  end.

(** The comparator [(a, b) => b[1] - a[1]]; [None] is [NaN]. *)
Definition compareFn (a b : string * CountValue) : option Z :=
  match snd a, snd b with
  | Count x, Count y => Some (Z.of_nat y - Z.of_nat x)%Z
  | _, _ => None
  end.

(** [a] sorts after [b] when the comparator is positive; [NaN] counts as 0. *)
Definition sortsAfter (a b : string * CountValue) : bool :=
  match compareFn a b with
  | Some d => (0 <? d)%Z
  | None => false
  end.

Fixpoint insertSorted (x : string * CountValue) (l : list (string * CountValue))
  : list (string * CountValue) :=
  match l with
  | [] => [x]
  | y :: r => if sortsAfter x y then y :: insertSorted x r else x :: y :: r
  end.

(** [Array.prototype.sort] with [compareFn], a stable sort.  When a count is
    [NotNumeric] the comparator is not consistent and ECMAScript leaves the
    order to the engine, which then also decides what [slice(0, 5)] keeps; the
    model gives the order of a stable insertion sort there.  A statement
    about the order, or about which keywords are kept, speaks of the code
    only when every count is numeric. *)
Definition sortEntries (l : list (string * CountValue)) : list (string * CountValue) :=
  fold_right insertSorted [] l.

Definition extractKeywords (text : string) : list string :=
  let words := significantWords text in
  let wordCounts := fold_left countWord words empty in
  map fst (firstn 5 (sortEntries (entries wordCounts))).

End Keywords.

(** ** The thought pipeline *)

Module Thinking.
Import Number JSString JSObject Keywords.

(** *** Values of a request *)

(** A value as [JSON.parse] delivers it. *)
#[warnings="-register-all"]
Inductive JSValue : Type :=
| JUndefined
| JNull
| JBoolean (b : bool)
| JNumber (n : Z)
| JString (s : string)
| JArray (items : list JSValue)
| JObject (fields : list (string * JSValue)).

Definition typeof (v : JSValue) : string :=
  match v with
  | JUndefined => "undefined"
  | JNull => "object"
  | JBoolean _ => "boolean"
  | JNumber _ => "number"
  | JString _ => "string"
  | JArray _ => "object"
  | JObject _ => "object"
  end.

(** [ToBoolean]. *)
Definition truthy (v : JSValue) : bool :=
  match v with
  | JUndefined => false
  | JNull => false
  | JBoolean b => b
  | JNumber n => negb (n =? 0)%Z
  | JString s => negb (String.eqb s EmptyString)
  | JArray _ => true
  | JObject _ => true
  end.

(** The narrowing of a checked value to its TypeScript type. *)
Definition asString (v : JSValue) : string :=
  match v with JString s => s | _ => EmptyString end.
Definition asNumber (v : JSValue) : Z :=
  match v with JNumber n => n | _ => 0%Z end.
Definition asBoolean (v : JSValue) : bool :=
  match v with JBoolean b => b | _ => false end.

(** Truthiness of the optional fields. *)
Definition truthyBool (v : option bool) : bool :=
  match v with Some b => b | None => false end.
Definition truthyNumber (v : option Z) : bool :=
  match v with Some n => negb (n =? 0)%Z | None => false end.
Definition truthyString (v : option string) : bool :=
  match v with Some s => negb (String.eqb s EmptyString) | None => false end.

Inductive Phase : Type := Planning | Analysis | Execution | Verification.
Inductive Complexity : Type := simple | medium | complex.
Inductive Status : Type := complete | in_progress | needs_revision.

Definition phase_eqb (a b : Phase) : bool :=
  match a, b with
  | Planning, Planning | Analysis, Analysis
  | Execution, Execution | Verification, Verification => true
  | _, _ => false
  end.

Record Quality : Type := mkQuality {
  coherence : Z;
  depth : Z;
  relevance : Z;
  qualityScore : Z;
  feedback : list string
}.

(** What the intelligence module recommends, as far as the server reads it. *)
Record Strategy : Type := mkStrategy {
  strategyName : string;
  strategyDescription : string
}.

Record ReasoningType : Type := mkReasoningType {
  reasoningType : string;
  reasoningDescription : string
}.

Record Recommendations : Type := mkRecommendations {
  strategies : list Strategy;
  reasoningTypes : list ReasoningType;
  focusAreas : list string
}.

(** The result of [analyzeThoughtAlignment]. *)
Record AlignmentData : Type := mkAlignmentData {
  ad_promptAlignment : Z;
  ad_promptRelevance : list (string * Q);
  ad_driftWarning : option string
}.

(** The result of [checkContradictions]. *)
Record ContradictionResult : Type := mkContradictionResult {
  hasContradictions : bool;
  details : list string
}.

(** The arguments of a call.  The four required fields arrive unchecked; the
    optional ones carry the types the [inputSchema] and the casts of
    [validateThoughtData] give them.  An absent field is [JUndefined] or
    [None]. *)
Record Input : Type := mkInput {
  in_thought : JSValue;
  in_thoughtNumber : JSValue;
  in_totalThoughts : JSValue;
  in_nextThoughtNeeded : JSValue;
  in_isRevision : option bool;
  in_revisesThought : option Z;
  in_branchFromThought : option Z;
  in_branchId : option string;
  in_needsMoreThoughts : option bool;
  in_phase : option Phase;
  in_dependencies : option (list Z);
  in_toolsUsed : option (list string);
  in_complexity : option Complexity;
  in_status : option Status;
  in_quality : option Quality;
  in_keywords : option (list string);
  in_insightValue : option Z;
  in_classification : option JSValue;
  in_confidenceScore : option JSValue;
  in_evidenceStrength : option JSValue
}.

Record ThoughtData : Type := mkThoughtData {
  thought : string;
  thoughtNumber : Z;
  totalThoughts : Z;
  nextThoughtNeeded : bool;
  isRevision : option bool;
  revisesThought : option Z;
  branchFromThought : option Z;
  branchId : option string;
  needsMoreThoughts : option bool;
  phase : option Phase;
  dependencies : option (list Z);
  toolsUsed : option (list string);
  complexity : option Complexity;
  status : option Status;
  quality : option Quality;
  keywords : option (list string);
  insightValue : option Z;
  classification : option JSValue;
  confidenceScore : option JSValue;
  evidenceStrength : option JSValue;
  contradictions : option (list string);
  promptAlignment : option Z;
  promptRelevance : option (list (string * Q));
  driftWarning : option string;
  intelligenceRecommendations : option Recommendations
}.

(** [t.totalThoughts = v]. *)
Definition set_totalThoughts (v : Z) (t : ThoughtData) : ThoughtData :=
  {|
    thought := thought t; thoughtNumber := thoughtNumber t;
    totalThoughts := v; nextThoughtNeeded := nextThoughtNeeded t;
    isRevision := isRevision t; revisesThought := revisesThought t;
    branchFromThought := branchFromThought t; branchId := branchId t;
    needsMoreThoughts := needsMoreThoughts t; phase := phase t;
    dependencies := dependencies t; toolsUsed := toolsUsed t;
    complexity := complexity t; status := status t; quality := quality t;
    keywords := keywords t; insightValue := insightValue t;
    classification := classification t; confidenceScore := confidenceScore t;
    evidenceStrength := evidenceStrength t;
    contradictions := contradictions t; promptAlignment := promptAlignment t;
    promptRelevance := promptRelevance t; driftWarning := driftWarning t;
    intelligenceRecommendations := intelligenceRecommendations t
  |}.

(** [t.phase = v]. *)
Definition set_phase (v : option Phase) (t : ThoughtData) : ThoughtData :=
  {|
    thought := thought t; thoughtNumber := thoughtNumber t;
    totalThoughts := totalThoughts t;
    nextThoughtNeeded := nextThoughtNeeded t; isRevision := isRevision t;
    revisesThought := revisesThought t;
    branchFromThought := branchFromThought t; branchId := branchId t;
    needsMoreThoughts := needsMoreThoughts t; phase := v;
    dependencies := dependencies t; toolsUsed := toolsUsed t;
    complexity := complexity t; status := status t; quality := quality t;
    keywords := keywords t; insightValue := insightValue t;
    classification := classification t; confidenceScore := confidenceScore t;
    evidenceStrength := evidenceStrength t;
    contradictions := contradictions t; promptAlignment := promptAlignment t;
    promptRelevance := promptRelevance t; driftWarning := driftWarning t;
    intelligenceRecommendations := intelligenceRecommendations t
  |}.

(** [t.keywords = v]. *)
Definition set_keywords (v : option (list string)) (t : ThoughtData) : ThoughtData :=
  {|
    thought := thought t; thoughtNumber := thoughtNumber t;
    totalThoughts := totalThoughts t;
    nextThoughtNeeded := nextThoughtNeeded t; isRevision := isRevision t;
    revisesThought := revisesThought t;
    branchFromThought := branchFromThought t; branchId := branchId t;
    needsMoreThoughts := needsMoreThoughts t; phase := phase t;
    dependencies := dependencies t; toolsUsed := toolsUsed t;
    complexity := complexity t; status := status t; quality := quality t;
    keywords := v; insightValue := insightValue t;
    classification := classification t; confidenceScore := confidenceScore t;
    evidenceStrength := evidenceStrength t;
    contradictions := contradictions t; promptAlignment := promptAlignment t;
    promptRelevance := promptRelevance t; driftWarning := driftWarning t;
    intelligenceRecommendations := intelligenceRecommendations t
  |}.

(** [t.contradictions = v]. *)
Definition set_contradictions (v : option (list string)) (t : ThoughtData) : ThoughtData :=
  {|
    thought := thought t; thoughtNumber := thoughtNumber t;
    totalThoughts := totalThoughts t;
    nextThoughtNeeded := nextThoughtNeeded t; isRevision := isRevision t;
    revisesThought := revisesThought t;
    branchFromThought := branchFromThought t; branchId := branchId t;
    needsMoreThoughts := needsMoreThoughts t; phase := phase t;
    dependencies := dependencies t; toolsUsed := toolsUsed t;
    complexity := complexity t; status := status t; quality := quality t;
    keywords := keywords t; insightValue := insightValue t;
    classification := classification t; confidenceScore := confidenceScore t;
    evidenceStrength := evidenceStrength t; contradictions := v;
    promptAlignment := promptAlignment t;
    promptRelevance := promptRelevance t; driftWarning := driftWarning t;
    intelligenceRecommendations := intelligenceRecommendations t
  |}.

(** The three assignments that copy [alignmentData] into the thought. *)
Definition set_alignment (a : AlignmentData) (t : ThoughtData) : ThoughtData :=
  {|
    thought := thought t; thoughtNumber := thoughtNumber t;
    totalThoughts := totalThoughts t;
    nextThoughtNeeded := nextThoughtNeeded t; isRevision := isRevision t;
    revisesThought := revisesThought t;
    branchFromThought := branchFromThought t; branchId := branchId t;
    needsMoreThoughts := needsMoreThoughts t; phase := phase t;
    dependencies := dependencies t; toolsUsed := toolsUsed t;
    complexity := complexity t; status := status t; quality := quality t;
    keywords := keywords t; insightValue := insightValue t;
    classification := classification t; confidenceScore := confidenceScore t;
    evidenceStrength := evidenceStrength t;
    contradictions := contradictions t;
    promptAlignment := Some (ad_promptAlignment a);
    promptRelevance := Some (ad_promptRelevance a);
    driftWarning := ad_driftWarning a;
    intelligenceRecommendations := intelligenceRecommendations t
  |}.

(** [t.intelligenceRecommendations = v]. *)
Definition set_intelligenceRecommendations (v : option Recommendations) (t : ThoughtData) : ThoughtData :=
  {|
    thought := thought t; thoughtNumber := thoughtNumber t;
    totalThoughts := totalThoughts t;
    nextThoughtNeeded := nextThoughtNeeded t; isRevision := isRevision t;
    revisesThought := revisesThought t;
    branchFromThought := branchFromThought t; branchId := branchId t;
    needsMoreThoughts := needsMoreThoughts t; phase := phase t;
    dependencies := dependencies t; toolsUsed := toolsUsed t;
    complexity := complexity t; status := status t; quality := quality t;
    keywords := keywords t; insightValue := insightValue t;
    classification := classification t; confidenceScore := confidenceScore t;
    evidenceStrength := evidenceStrength t;
    contradictions := contradictions t; promptAlignment := promptAlignment t;
    promptRelevance := promptRelevance t; driftWarning := driftWarning t;
    intelligenceRecommendations := v
  |}.

(** [t.quality = v]. *)
Definition set_quality (v : option Quality) (t : ThoughtData) : ThoughtData :=
  {|
    thought := thought t; thoughtNumber := thoughtNumber t;
    totalThoughts := totalThoughts t;
    nextThoughtNeeded := nextThoughtNeeded t; isRevision := isRevision t;
    revisesThought := revisesThought t;
    branchFromThought := branchFromThought t; branchId := branchId t;
    needsMoreThoughts := needsMoreThoughts t; phase := phase t;
    dependencies := dependencies t; toolsUsed := toolsUsed t;
    complexity := complexity t; status := status t; quality := v;
    keywords := keywords t; insightValue := insightValue t;
    classification := classification t; confidenceScore := confidenceScore t;
    evidenceStrength := evidenceStrength t;
    contradictions := contradictions t; promptAlignment := promptAlignment t;
    promptRelevance := promptRelevance t; driftWarning := driftWarning t;
    intelligenceRecommendations := intelligenceRecommendations t
  |}.

(** [t.insightValue = v]. *)
Definition set_insightValue (v : option Z) (t : ThoughtData) : ThoughtData :=
  {|
    thought := thought t; thoughtNumber := thoughtNumber t;
    totalThoughts := totalThoughts t;
    nextThoughtNeeded := nextThoughtNeeded t; isRevision := isRevision t;
    revisesThought := revisesThought t;
    branchFromThought := branchFromThought t; branchId := branchId t;
    needsMoreThoughts := needsMoreThoughts t; phase := phase t;
    dependencies := dependencies t; toolsUsed := toolsUsed t;
    complexity := complexity t; status := status t; quality := quality t;
    keywords := keywords t; insightValue := v;
    classification := classification t; confidenceScore := confidenceScore t;
    evidenceStrength := evidenceStrength t;
    contradictions := contradictions t; promptAlignment := promptAlignment t;
    promptRelevance := promptRelevance t; driftWarning := driftWarning t;
    intelligenceRecommendations := intelligenceRecommendations t
  |}.

(** [t.dependencies = v]. *)
Definition set_dependencies (v : option (list Z)) (t : ThoughtData) : ThoughtData :=
  {|
    thought := thought t; thoughtNumber := thoughtNumber t;
    totalThoughts := totalThoughts t;
    nextThoughtNeeded := nextThoughtNeeded t; isRevision := isRevision t;
    revisesThought := revisesThought t;
    branchFromThought := branchFromThought t; branchId := branchId t;
    needsMoreThoughts := needsMoreThoughts t; phase := phase t;
    dependencies := v; toolsUsed := toolsUsed t; complexity := complexity t;
    status := status t; quality := quality t; keywords := keywords t;
    insightValue := insightValue t; classification := classification t;
    confidenceScore := confidenceScore t;
    evidenceStrength := evidenceStrength t;
    contradictions := contradictions t; promptAlignment := promptAlignment t;
    promptRelevance := promptRelevance t; driftWarning := driftWarning t;
    intelligenceRecommendations := intelligenceRecommendations t
  |}.

(** *** Exceptions and the server state *)

Inductive Exn : Type :=
| JsError (message : string)
| TypeError (message : string)
| RangeError (message : string).

(** [error.message]. *)
Definition messageOf (e : Exn) : string :=
  match e with
  | JsError m => m
  | TypeError m => m
  | RangeError m => m
  end.

Inductive Completion (A : Type) : Type :=
| Normal (a : A)
| Throw (e : Exn).
Arguments Normal {A} a.
Arguments Throw {A} e.

(** The classes of [src/analytics], which are not among the sources: the
    server only calls them.  Each call returns or throws; none of them writes
    to the server's fields. *)
Class Collaborators : Type := {
  PromptMetadata : Type;
  checkContradictions : ThoughtData -> list ThoughtData -> Completion ContradictionResult;
  analyzeThoughtAlignment : string -> PromptMetadata -> Completion AlignmentData;
  generateRecommendations :
    PromptMetadata -> Z -> Z -> Phase -> Completion Recommendations
}.

Section Server.
Context {collaborators : Collaborators}.

(** [PromptContext], read through [isInitialized()] and [getMetadata()]. *)
Record PromptContext : Type := mkPromptContext {
  isInitialized : bool;
  getMetadata : option PromptMetadata
}.

Record Server : Type := mkServer {
  thoughtHistory : list ThoughtData;
  branches : obj (list ThoughtData);
  promptContext : PromptContext
}.

(** The state of [new SequentialThinkingServer()], for a fresh context. *)
Definition newServer (ctx : PromptContext) : Server :=
  {| thoughtHistory := []; branches := empty; promptContext := ctx |}.

(** A computation on the server: it ends normally or throws, and hands on the
    state as it then is. *)
Definition M (A : Type) : Type := Server -> Completion A * Server.

Definition ret {A} (a : A) : M A := fun s => (Normal a, s).

Definition bind {A B} (m : M A) (k : A -> M B) : M B :=
  fun s =>
    match m s with
    | (Normal a, s') => k a s'
    | (Throw e, s') => (Throw e, s')
    end.

Definition lift {A} (c : Completion A) : M A := fun s => (c, s).

Definition get : M Server := fun s => (Normal s, s).

Definition put (s : Server) : M unit := fun _ => (Normal tt, s).

Notation "x <- m ;; k" := (bind m (fun x => k))
  (at level 61, m at next level, right associativity).
Notation "m ;;; k" := (bind m (fun _ => k))
  (at level 61, right associativity).

(** *** validateThoughtData *)

Definition validateThoughtData (data : Input) : Completion ThoughtData :=
  if negb (truthy (in_thought data))
     || negb (String.eqb (typeof (in_thought data)) "string")
  then Throw (JsError "Invalid thought: must be a string")
  else if negb (truthy (in_thoughtNumber data))
          || negb (String.eqb (typeof (in_thoughtNumber data)) "number")
  then Throw (JsError "Invalid thoughtNumber: must be a number")
  else if negb (truthy (in_totalThoughts data))
          || negb (String.eqb (typeof (in_totalThoughts data)) "number")
  then Throw (JsError "Invalid totalThoughts: must be a number")
  else if negb (String.eqb (typeof (in_nextThoughtNeeded data)) "boolean")
  then Throw (JsError "Invalid nextThoughtNeeded: must be a boolean")
  else Normal {|
    thought := asString (in_thought data);
    thoughtNumber := asNumber (in_thoughtNumber data);
    totalThoughts := asNumber (in_totalThoughts data);
    nextThoughtNeeded := asBoolean (in_nextThoughtNeeded data);
    isRevision := in_isRevision data;
    revisesThought := in_revisesThought data;
    branchFromThought := in_branchFromThought data;
    branchId := in_branchId data;
    needsMoreThoughts := in_needsMoreThoughts data;
    phase := in_phase data;
    dependencies := in_dependencies data;
    toolsUsed := in_toolsUsed data;
    complexity := in_complexity data;
    status := in_status data;
    quality := in_quality data;
    keywords := in_keywords data;
    insightValue := in_insightValue data;
    classification := in_classification data;
    confidenceScore := in_confidenceScore data;
    evidenceStrength := in_evidenceStrength data;
    contradictions := None;
    promptAlignment := None;
    promptRelevance := None;
    driftWarning := None;
    intelligenceRecommendations := None
  |}.

(** *** assessThoughtQuality *)

Definition dependencyCount (t : ThoughtData) : Z :=
  match dependencies t with
  | Some deps => Z.of_nat (List.length deps)
  | None => 0
  end.

Definition wordCount (t : ThoughtData) : Z :=
  Z.of_nat (List.length (splitWhiteSpace (thought t))).

Definition assessThoughtQuality (t : ThoughtData) : ThoughtData :=
  (* Assess coherence based on connection to previous thoughts *)
  let '(coherence1, feedback1) :=
    if (0 <? dependencyCount t)%Z
    then (Z.min 8 (5 + dependencyCount t), [])
    else if (1 <? thoughtNumber t)%Z
    then (3%Z, ["Consider how this thought connects to previous thinking"%string])
    else (5%Z, []) in
  (* Assess depth based on length and complexity *)
  let '(depth1, feedback2) :=
    if (wordCount t <? 30)%Z
    then (3%Z, feedback1 ++ ["This thought could be explored in more depth"%string])
    else if (100 <? wordCount t)%Z
    then (8%Z, feedback1)
    else (5%Z, feedback1) in
  (* Assess relevance based on phase appropriateness *)
  let '(relevance1, feedback3) :=
    match phase t with
    | Some Planning =>
        if (3 <? thoughtNumber t)%Z
        then (4%Z, feedback2 ++ ["Consider moving from planning to execution"%string])
        else (5%Z, feedback2)
    | _ => (5%Z, feedback2)
    end in
  (* Calculate overall score *)
  let score :=
    Math_round (fdiv (inject_Z (coherence1 + depth1 + relevance1)) 3) in
  (* Set insight value based on quality metrics *)
  let weighted :=
    fadd (fadd (fmul (inject_Z depth1) (literal (4 # 10)))
               (fmul (inject_Z coherence1) (literal (3 # 10))))
         (fmul (inject_Z relevance1) (literal (3 # 10))) in
  let bonus := if (0 <? dependencyCount t)%Z then literal (12 # 10) else 1 in
  set_insightValue (Some (Math_round (fmul weighted bonus)))
    (set_quality
       (Some {| coherence := coherence1; depth := depth1;
                relevance := relevance1; qualityScore := score;
                feedback := feedback3 |})
       t).

(** *** provideStrategicGuidance *)

Definition provideStrategicGuidance (currentThought : ThoughtData) : list string :=
  let thoughtNumber := thoughtNumber currentThought in
  let totalThoughts := totalThoughts currentThought in
  (* [progress > 0.75]; over a zero total the quotient is [Infinity],
     [-Infinity] or [NaN] with the sign of [thoughtNumber] *)
  let advanced :=
    if (totalThoughts =? 0)%Z then (0 <? thoughtNumber)%Z
    else negb (Qle_bool (fdiv (inject_Z thoughtNumber) (inject_Z totalThoughts))
                 (3 # 4)) in
  (* Check for phase progression *)
  (if advanced
      && negb (match phase currentThought with
               | Some Verification => true
               | _ => false
               end)
   then ["Consider transitioning to the Verification phase to validate your solution"%string]
   else [])
  (* Check for prompt alignment *)
  ++ (match promptAlignment currentThought with
      | Some a =>
          if (a <? 5)%Z
          then ["This thought has low alignment with the original prompt. Consider revising to better address the prompt's goals"%string]
          else []
      | None => []
      end)
  (* Add intelligence maximization guidance if available *)
  ++ (match intelligenceRecommendations currentThought with
      | Some recs =>
          (match strategies recs with
           | topStrategy :: _ =>
               [("Try using the " ++ dquote ++ strategyName topStrategy ++ dquote
                 ++ " strategy: " ++ strategyDescription topStrategy)%string]
           | [] => []
           end)
          ++ (match reasoningTypes recs with
              | topReasoningType :: _ =>
                  [("Consider using " ++ reasoningType topReasoningType
                    ++ " reasoning: " ++ reasoningDescription topReasoningType)%string]
              | [] => []
              end)
      | None => []
      end).

(** *** createProgressBar *)

(** [String.prototype.repeat], as far as the sign of the count decides.  A
    count beyond the longest string of the engine also ends in a
    [RangeError], with another message; the model lets such a count
    through. *)
Definition repeatCount (count : Z) : Completion Z :=
  if (count <? 0)%Z
  then Throw (RangeError ("Invalid count value: " ++ Number.toString count)%string)
  else Normal count.

(** The bar goes to the console; the model keeps the two cell counts that
    are drawn and the two calls of [repeat], in the order of evaluation. *)
Definition createProgressBar (percentage : Q) : Completion (Z * Z) :=
  let width := 20%Z in
  let completed := Math_floor (fmul (inject_Z width) (fdiv percentage 100)) in
  let remaining := (width - completed)%Z in
  match repeatCount completed with
  | Throw e => Throw e
  | Normal full =>
      match repeatCount remaining with
      | Throw e => Throw e
      | Normal blank => Normal (full, blank)
      end
  end.

(** *** Branch buckets *)

(** [if (!branches[id]) branches[id] = []; branches[id].push(t)].  The read
    goes through the prototype: for an inherited name it is truthy, no bucket
    is created, and the value has no [push]. *)
Definition pushToBranch (receiver : string) (buckets : obj (list ThoughtData))
    (id : string) (t : ThoughtData) : Completion (obj (list ThoughtData)) :=
  match getOwn buckets id with
  | Some bucket => Normal (setOwn buckets id (bucket ++ [t]))
  | None =>
      if isInherited id
      then Throw (TypeError (receiver ++ ".push is not a function")%string)
      else Normal (setOwn buckets id [t])
  end.

(** *** GraphRenderer.generateDependencyGraph *)

Fixpoint groupThoughtsFrom (buckets : obj (list ThoughtData))
    (thoughts : list ThoughtData) : Completion (obj (list ThoughtData)) :=
  match thoughts with
  | [] => Normal buckets
  | t :: rest =>
      if truthyString (branchId t) then
        match pushToBranch "branches[thought.branchId]" buckets
                (match branchId t with Some id => id | None => EmptyString end) t with
        | Normal buckets' => groupThoughtsFrom buckets' rest
        | Throw e => Throw e
        end
      else groupThoughtsFrom buckets rest
  end.

Definition groupThoughtsByBranch (thoughts : list ThoughtData)
  : Completion (obj (list ThoughtData)) :=
  groupThoughtsFrom empty thoughts.

(** The graph is text for the console.  With the typed fields of
    [ThoughtData] the adjacency list and the node lines cannot fail; the
    grouping by branch can, and the model keeps that. *)
Definition generateDependencyGraph (thoughts : list ThoughtData) : Completion unit :=
  match groupThoughtsByBranch thoughts with
  | Normal _ => Normal tt
  | Throw e => Throw e
  end.

(** *** estimateComplexity *)

Definition estimateComplexity (s : Server) : Complexity :=
  let thoughtCount := List.length (thoughtHistory s) in
  let revisionCount :=
    List.length (filter (fun t => truthyBool (isRevision t)) (thoughtHistory s)) in
  let branchCount := List.length (keys (branches s)) in
  if (10 <? thoughtCount)%nat || (2 <? branchCount)%nat then complex
  else if (5 <? thoughtCount)%nat || (1 <? revisionCount)%nat
          || (0 <? branchCount)%nat then medium
  else simple.

(** *** detectSemanticRelationships *)

Definition semanticConnections (history : list ThoughtData)
    (newThought : ThoughtData) (keywords : list string) : list Z :=
  flat_map
    (fun previousThought =>
       match Thinking.keywords previousThought with
       | None => []
       | Some previousKeywords =>
           let overlap := filter (fun kw => includes keywords kw) previousKeywords in
           if (2 <=? List.length overlap)%nat
              && negb (match dependencies newThought with
                       | Some deps => existsb (Z.eqb (thoughtNumber previousThought)) deps
                       | None => false
                       end)
           then [thoughtNumber previousThought]
           else []
       end)
    history.

Definition detectSemanticRelationships (s : Server) (newThought : ThoughtData)
  : ThoughtData :=
  (* Skip if we have fewer than 2 thoughts *)
  if (List.length (thoughtHistory s) <? 2)%nat then newThought
  else
    let keywords := extractKeywords (thought newThought) in
    let newThought := set_keywords (Some keywords) newThought in
    let connections := semanticConnections (thoughtHistory s) newThought keywords in
    match connections with
    | [] => newThought
    | _ :: _ =>
        set_dependencies
          (Some ((match dependencies newThought with
                  | Some deps => deps
                  | None => []
                  end) ++ connections))
          newThought
    end.

(** *** processThought *)

(** The [recommendations] object of the response: the first element of each
    list. *)
Record TopRecommendations : Type := mkTopRecommendations {
  top_strategies : list Strategy;
  top_reasoningTypes : list ReasoningType;
  top_focusAreas : list string
}.

(** The object that [JSON.stringify] prints on success.  A field that is
    [undefined] is left out of the text; it is [None] here. *)
Record SuccessBody : Type := mkSuccessBody {
  r_thoughtNumber : Z;
  r_totalThoughts : Z;
  r_nextThoughtNeeded : bool;
  r_branches : list string;
  r_phase : Phase;
  r_complexity : Complexity;
  r_progress : string;
  r_strategicGuidance : list string;
  r_promptAlignment : option Z;
  r_driftWarning : option string;
  r_recommendations : option TopRecommendations
}.

(** The object printed by the [catch] clause. *)
Record ErrorBody : Type := mkErrorBody {
  e_error : string;
  e_status : string
}.

(** What [processThought] returns: the text of one of the two bodies, with
    [isError: true] beside the second. *)
Inductive ToolResult : Type :=
| Success (body : SuccessBody)
| Failure (body : ErrorBody).

Definition isError (r : ToolResult) : bool :=
  match r with Success _ => false | Failure _ => true end.

(** The statements of the [try] block up to the append to the history: they
    read the server and write nothing. *)
Definition enrich (input : Input) : M ThoughtData :=
  validatedInput <- lift (validateThoughtData input) ;;
  (* Auto-adjust totalThoughts if needed *)
  let validatedInput :=
    if (totalThoughts validatedInput <? thoughtNumber validatedInput)%Z
    then set_totalThoughts (thoughtNumber validatedInput) validatedInput
    else validatedInput in
  (* Set a default phase if not provided *)
  let validatedInput :=
    match phase validatedInput with
    | Some _ => validatedInput
    | None =>
        set_phase
          (Some (if (thoughtNumber validatedInput =? 1)%Z then Planning else Execution))
          validatedInput
    end in
  (* Enhance thought with semantic analysis *)
  let validatedInput :=
    set_keywords (Some (extractKeywords (thought validatedInput))) validatedInput in
  (* Check for contradictions *)
  this <- get ;;
  contradictions <- lift (checkContradictions validatedInput (thoughtHistory this)) ;;
  let validatedInput :=
    if hasContradictions contradictions
    then set_contradictions (Some (details contradictions)) validatedInput
    else validatedInput in
  (* Analyze prompt alignment if prompt context is initialized *)
  if isInitialized (promptContext this) then
    match getMetadata (promptContext this) with
    | Some promptMetadata =>
        alignmentData <-
          lift (analyzeThoughtAlignment (thought validatedInput) promptMetadata) ;;
        let validatedInput := set_alignment alignmentData validatedInput in
        recommendations <-
          lift (generateRecommendations promptMetadata
                  (thoughtNumber validatedInput) (totalThoughts validatedInput)
                  (match phase validatedInput with
                   | Some p => p
                   | None => Execution
                   end)) ;;
        ret (set_intelligenceRecommendations (Some recommendations) validatedInput)
    | None => ret validatedInput
    end
  else ret validatedInput.

(** [this.thoughtHistory.push(validatedInput)]. *)
Definition pushHistory (validatedInput : ThoughtData) : M unit :=
  this <- get ;;
  put {| thoughtHistory := thoughtHistory this ++ [validatedInput];
         branches := branches this;
         promptContext := promptContext this |}.

(** The branch bookkeeping of [processThought]. *)
Definition handleBranching (validatedInput : ThoughtData) : M unit :=
  if truthyNumber (branchFromThought validatedInput)
     && truthyString (branchId validatedInput)
  then
    this <- get ;;
    buckets <-
      lift (pushToBranch "this.branches[validatedInput.branchId]" (branches this)
              (match branchId validatedInput with
               | Some id => id
               | None => EmptyString
               end)
              validatedInput) ;;
    put {| thoughtHistory := thoughtHistory this;
           branches := buckets;
           promptContext := promptContext this |}
  else ret tt.

(** The object handed to [JSON.stringify] at the end of the [try] block. *)
Definition respond (validatedInput : ThoughtData) (progress : Q) (this : Server)
  : SuccessBody :=
  (* Generate strategic guidance *)
  let guidance := firstn 2 (provideStrategicGuidance validatedInput) in
  {|
    r_thoughtNumber := thoughtNumber validatedInput;
    r_totalThoughts := totalThoughts validatedInput;
    r_nextThoughtNeeded := nextThoughtNeeded validatedInput;
    r_branches := keys (branches this);
    r_phase := match phase validatedInput with Some p => p | None => Execution end;
    r_complexity :=
      match complexity validatedInput with
      | Some c => c
      | None => estimateComplexity this
      end;
    r_progress := (Number.toString (Math_round progress) ++ "%")%string;
    r_strategicGuidance := firstn 2 guidance;
    r_promptAlignment := promptAlignment validatedInput;
    r_driftWarning := driftWarning validatedInput;
    r_recommendations :=
      match intelligenceRecommendations validatedInput with
      | Some recs =>
          Some {| top_strategies := firstn 1 (strategies recs);
                  top_reasoningTypes := firstn 1 (reasoningTypes recs);
                  top_focusAreas := firstn 1 (focusAreas recs) |}
      | None => None
      end
  |}.

(** The statements of the [try] block from the append to the history on. *)
Definition store (validatedInput : ThoughtData) : M SuccessBody :=
  (* Add to thought history *)
  pushHistory validatedInput ;;;
  (* Handle branching *)
  handleBranching validatedInput ;;;
  (* Generate only essential visualizations *)
  this <- get ;;
  lift (generateDependencyGraph (thoughtHistory this)) ;;;
  (* Calculate progress *)
  let progress :=
    fmul (fdiv (inject_Z (thoughtNumber validatedInput))
               (inject_Z (totalThoughts validatedInput)))
         100 in
  lift (createProgressBar progress) ;;;
  ret (respond validatedInput progress this).

(** The body of the [try] block. *)
Definition tryBlock (input : Input) : M SuccessBody :=
  validatedInput <- enrich input ;;
  store validatedInput.

(** [processThought]: the [try] block, and the [catch] clause that turns an
    exception into the error body.  The state is the one the block left. *)
Definition processThought (input : Input) (this : Server) : ToolResult * Server :=
  match tryBlock input this with
  | (Normal body, this') => (Success body, this')
  | (Throw e, this') =>
      (Failure {| e_error := messageOf e; e_status := "failed" |}, this')
  end.

(** The server after a sequence of calls. *)
Definition runAll (inputs : list Input) (this : Server) : Server :=
  fold_left (fun s input => snd (processThought input s)) inputs this.

End Server.

End Thinking.

(** ** The other methods of the server and of the renderer *)

Module Methods.
Import Number JSString JSObject Keywords Thinking.

(** [[...new Set(arr)]]: the elements in the order of their first
    occurrence. *)
Definition spreadSet (arr : list string) : list string :=
  fold_left (fun seen x => if includes seen x then seen else seen ++ [x]) arr [].

(** [setAvailableTools]: the new value of [this.availableTools]. *)
Definition setAvailableTools (availableTools tools : list string) : list string :=
  spreadSet (availableTools ++ tools).

(** [arr.slice(start)] for an integral [start]. *)
Definition slice {A} (start : Z) (arr : list A) : list A :=
  let len := Z.of_nat (List.length arr) in
  let k := if (start <? 0)%Z then Z.max (len + start) 0 else Z.min start len in
  skipn (Z.to_nat k) arr.

(** [s.substring(0, stop)] for an integral [stop]. *)
Definition substringTo (stop : Z) (s : string) : string :=
  String.substring 0 (Z.to_nat stop) s.

(** [GraphRenderer.truncateText]. *)
Definition truncateText (text : string) (maxLength : Z) : string :=
  if (Z.of_nat (String.length text) <=? maxLength)%Z then text
  else (substringTo (maxLength - 3) text ++ "...")%string.

(** [suggestNextPhase].  [above threshold] is [progress > threshold]; over a
    zero [totalThoughts] the quotient is [Infinity], [-Infinity] or [NaN]
    with the sign of [thoughtNumber]. *)
Definition suggestNextPhase (currentThought : ThoughtData) : Phase :=
  let thoughtNumber := thoughtNumber currentThought in
  let totalThoughts := totalThoughts currentThought in
  let above (threshold : Q) :=
    if (totalThoughts =? 0)%Z then (0 <? thoughtNumber)%Z
    else negb (Qle_bool (fdiv (inject_Z thoughtNumber) (inject_Z totalThoughts))
                 (literal threshold)) in
  match phase currentThought with
  | Some Planning => if above (2 # 10) then Analysis else Planning
  | Some Analysis => if above (4 # 10) then Execution else Analysis
  | Some Execution => if above (8 # 10) then Verification else Execution
  | Some Verification => Verification
  | None => Execution
  end.

(** The adjacency list of [generateDependencyGraph]: for every declared
    dependency, the dependent thought under the key of the dependency. *)
Definition addEdge (adjacencyList : obj (list Z)) (thoughtNumber dep : Z)
  : obj (list Z) :=
  let key := Number.toString dep in
  match getOwn adjacencyList key with
  | Some dependents => setOwn adjacencyList key (dependents ++ [thoughtNumber])
  | None => setOwn adjacencyList key [thoughtNumber]
  end.

Definition addThought (adjacencyList : obj (list Z)) (thought : ThoughtData)
  : obj (list Z) :=
  match dependencies thought with
  | Some deps =>
      fold_left (fun a dep => addEdge a (thoughtNumber thought) dep)
        deps adjacencyList
  | None => adjacencyList
  end.

Definition buildAdjacencyList (thoughts : list ThoughtData) : obj (list Z) :=
  fold_left addThought thoughts empty.

(** [ToolUsageStats]; [phaseUsage] has the four phases as its keys. *)
Record ToolUsageStats : Type := mkToolUsageStats {
  usageCount : Z;
  thoughtsUsedIn : list Z;
  phaseUsage : Phase -> Z
}.

Definition newStats : ToolUsageStats :=
  {| usageCount := 0; thoughtsUsedIn := []; phaseUsage := fun _ => 0%Z |}.

(** One turn of the loop of [trackToolUsage].  For a tool named like an
    inherited property no entry is created, the counter is written on the
    inherited value, and [thoughtsUsedIn] is [undefined] there. *)
Definition trackTool (thought : ThoughtData)
    (toolUsageStats : obj ToolUsageStats) (tool : string)
  : Completion (obj ToolUsageStats) :=
  match
    match getOwn toolUsageStats tool with
    | Some stats => Normal stats
    | None =>
        if isInherited tool
        then Throw (TypeError "Cannot read properties of undefined (reading 'push')")
        else Normal newStats
    end
  with
  | Throw e => Throw e
  | Normal stats =>
      Normal
        (setOwn toolUsageStats tool
           {| usageCount := usageCount stats + 1;
              thoughtsUsedIn := thoughtsUsedIn stats ++ [thoughtNumber thought];
              phaseUsage :=
                match phase thought with
                | Some p =>
                    fun q => if phase_eqb p q then (phaseUsage stats q + 1)%Z
                             else phaseUsage stats q
                | None => phaseUsage stats
                end |})
  end.

Fixpoint trackTools (thought : ThoughtData) (toolUsageStats : obj ToolUsageStats)
    (tools : list string) : Completion (obj ToolUsageStats) * obj ToolUsageStats :=
  match tools with
  | [] => (Normal toolUsageStats, toolUsageStats)
  | tool :: rest =>
      match trackTool thought toolUsageStats tool with
      | Normal stats' => trackTools thought stats' rest
      | Throw e => (Throw e, toolUsageStats)
      end
  end.

(** [trackToolUsage]: the result and the value of [this.toolUsageStats]
    afterwards.  The statistics it prints go to the console. *)
Definition trackToolUsage (toolUsageStats : obj ToolUsageStats)
    (thought : ThoughtData) : Completion unit * obj ToolUsageStats :=
  match toolsUsed thought with
  | None => (Normal tt, toolUsageStats)
  | Some [] => (Normal tt, toolUsageStats)
  | Some tools =>
      match trackTools thought toolUsageStats tools with
      | (Normal _, stats') => (Normal tt, stats')
      | (Throw e, stats') => (Throw e, stats')
      end
  end.

(** [getRecentThoughts], over the value of [this.thoughtHistory]: the number
    and the summary of each of the last [count] thoughts. *)
Definition getRecentThoughts (history : list ThoughtData) (count : Z)
  : list (Z * string) :=
  map (fun t =>
         (thoughtNumber t,
          if (50 <? String.length (thought t))%nat
          then (substringTo 50 (thought t) ++ "...")%string
          else thought t))
    (slice (- count) history).

End Methods.

(** ** Keyword ranking as the specification words it *)

Module KeywordsSpec.
Import JSString JSObject Keywords.

(** How often a token occurs. *)
Definition frequency (tokens : list string) (w : string) : nat :=
  count_occ string_dec tokens w.

(** The distinct tokens, in the order of their first occurrence. *)
Definition firstOccurrences (tokens : list string) : list string :=
  fold_left (fun seen w => if includes seen w then seen else seen ++ [w])
    tokens [].

Fixpoint countdown (m : nat) : list nat :=
  match m with
  | O => []
  | S m' => S m' :: countdown m'
  end.

(** Descending frequency, ties in the order of first occurrence: the tokens
    of the highest frequency first, each level in that order. *)
Definition rankByFrequency (tokens : list string) : list string :=
  flat_map
    (fun f => filter (fun w => Nat.eqb (frequency tokens w) f) (firstOccurrences tokens))
    (countdown (List.length tokens)).

(** The tokens of a text, read off its code units one at a time: white
    space ends a token; a capital letter A-Z goes into the token as its small
    letter; a small letter, a digit and the underscore go in as they are;
    every other code unit is stripped.  A token is kept when it is longer
    than 4 code units and no stopword. *)
Inductive CharClass : Type :=
| Separator
| Kept (c : ascii)
| Stripped.

Definition classify (c : ascii) : CharClass :=
  let n := code c in
  if between 9 13 n || (n =? 32)%N || (n =? 160)%N then Separator
  else if between 65 90 n then Kept (ascii_of_N (n + 32))
  else if between 97 122 n || between 48 57 n || (n =? 95)%N then Kept c
  else Stripped.

Definition isToken (w : string) : bool :=
  (4 <? String.length w)%nat && negb (includes stopwords w).

Definition finish (cur : string) : list string :=
  if isToken cur then [cur] else [].

Fixpoint tokensFrom (cur : string) (s : string) : list string :=
  match s with
  | EmptyString => finish cur
  | String c r =>
      match classify c with
      | Separator => finish cur ++ tokensFrom EmptyString r
      | Kept l => tokensFrom (cur ++ String l EmptyString) r
      | Stripped => tokensFrom cur r
      end
  end.

Definition specTokens (text : string) : list string :=
  tokensFrom EmptyString text.

(** A list of tokens in descending order of frequency. *)
Definition descending (tokens : list string) (l : list string) : Prop :=
  Sorted.StronglySorted
    (fun a b => (frequency tokens b <= frequency tokens a)%nat) l.

(** [l] holds five of the most frequent tokens, or all of them: a token left
    out is no more frequent than any token of [l], and [l] is full. *)
Definition topFive (tokens : list string) (l : list string) : Prop :=
  forall w, In w tokens -> ~ In w l ->
    (List.length l = 5)%nat /\
    forall k, In k l -> (frequency tokens w <= frequency tokens k)%nat.

(** The top five of the ranking over the tokens of the text. *)
Definition specKeywords (text : string) : list string :=
  firstn 5 (rankByFrequency (specTokens text)).

End KeywordsSpec.

(** ** Notions used to state the properties *)

Module Notions.
Import Number JSString JSObject Keywords Thinking.

(** The phase of a record once [processThought] has set the default. *)
Definition phaseOf (v0 : ThoughtData) : Phase :=
  match phase v0 with
  | Some p => p
  | None => if (thoughtNumber v0 =? 1)%Z then Planning else Execution
  end.

Definition nonEmpty {A} (l : list A) : option (list A) :=
  match l with [] => None | _ :: _ => Some l end.

(** The table of counts over the keys [L]. *)
Definition table (L : list string) (c : string -> nat) : obj CountValue :=
  map (fun w => (w, Count (c w))) L.

(** The count of an entry of [wordCounts], and the entries that hold one. *)
Definition countOf (e : string * CountValue) : nat :=
  match snd e with Count n => n | NotNumeric => 0 end.

Definition numeric (e : string * CountValue) : Prop :=
  exists n, snd e = Count n.

(** The entries of one count, and the entries from the count [m] down to 1. *)
Definition level (f : nat) (l : list (string * CountValue)) :=
  filter (fun e => Nat.eqb (countOf e) f) l.

Definition levels (m : nat) (l : list (string * CountValue)) :=
  flat_map (fun f => level f l) (KeywordsSpec.countdown m).

Section Server.
Context {collaborators : Collaborators}.

(** The record takes part in the branch bookkeeping of [processThought]. *)
Definition bucketed (t : ThoughtData) : bool :=
  truthyNumber (branchFromThought t) && truthyString (branchId t).

Definition branchKey (t : ThoughtData) : string :=
  match branchId t with Some id => id | None => EmptyString end.

(** The state [store] leaves behind, whether it returns or throws. *)
Definition afterStore (v : ThoughtData) (this : Server) : Server :=
  {| thoughtHistory := thoughtHistory this ++ [v];
     branches :=
       if bucketed v then
         match pushToBranch "this.branches[validatedInput.branchId]"
                 (branches this) (branchKey v) v with
         | Normal buckets => buckets
         | Throw _ => branches this
         end
       else branches this;
     promptContext := promptContext this |}.

(** The record belongs to the bucket of the key [k]. *)
Definition inBucket (k : string) (t : ThoughtData) : bool :=
  bucketed t && String.eqb (branchKey t) k && negb (isInherited k).

(** The number [progress] of [processThought]. *)
Definition progressOf (v : ThoughtData) : Q :=
  fmul (fdiv (inject_Z (thoughtNumber v)) (inject_Z (totalThoughts v))) 100.

(** No record of the list makes [groupThoughtsByBranch] read an inherited
    property. *)
Definition rendersCleanly (thoughts : list ThoughtData) : bool :=
  forallb (fun t => negb (truthyString (branchId t) && isInherited (branchKey t)))
    thoughts.

(** The required fields, in the order [validateThoughtData] checks them. *)
Inductive Field : Type :=
| f_thought
| f_thoughtNumber
| f_totalThoughts
| f_nextThoughtNeeded.

Definition requiredFields : list Field :=
  [f_thought; f_thoughtNumber; f_totalThoughts; f_nextThoughtNeeded].

Definition fieldName (f : Field) : string :=
  match f with
  | f_thought => "thought"
  | f_thoughtNumber => "thoughtNumber"
  | f_totalThoughts => "totalThoughts"
  | f_nextThoughtNeeded => "nextThoughtNeeded"
  end.

Definition expectedType (f : Field) : string :=
  match f with
  | f_thought => "string"
  | f_thoughtNumber => "number"
  | f_totalThoughts => "number"
  | f_nextThoughtNeeded => "boolean"
  end.

Definition fieldValue (f : Field) (input : Input) : JSValue :=
  match f with
  | f_thought => in_thought input
  | f_thoughtNumber => in_thoughtNumber input
  | f_totalThoughts => in_totalThoughts input
  | f_nextThoughtNeeded => in_nextThoughtNeeded input
  end.

(** A required field is present with its type.  The text and the two numbers
    also count as missing when they are empty or zero. *)
Definition present (f : Field) (input : Input) : bool :=
  String.eqb (typeof (fieldValue f input)) (expectedType f)
  && match f with
     | f_nextThoughtNeeded => true
     | _ => truthy (fieldValue f input)
     end.

(** The first required field that is missing or mistyped, if any. *)
Definition firstMissing (input : Input) : option Field :=
  find (fun f => negb (present f input)) requiredFields.

(** The success body of a result, if it is one. *)
Definition successBody (r : ToolResult) : option SuccessBody :=
  match r with
  | Success body => Some body
  | Failure _ => None
  end.

(** The progress text as the specification words it: the exact quotient
    [100 * thoughtNumber / totalThoughts], rounded, as a percentage. *)
Definition specProgress (thoughtNumber totalThoughts : Z) : string :=
  (Number.toString
     (Math_round (100 * inject_Z thoughtNumber / inject_Z totalThoughts)) ++ "%")%string.

(** The whole percentage [processThought] prints for two numbers. *)
Definition percentage (thoughtNumber totalThoughts : Z) : Z :=
  Math_round (fmul (fdiv (inject_Z thoughtNumber) (inject_Z totalThoughts)) 100).

(** [hay.includes(needle)]. *)
Definition contains (needle hay : string) : bool :=
  match String.index 0 needle hay with
  | Some _ => true
  | None => false
  end.

(** The largest number of a list, if it has one. *)
Fixpoint maximum (l : list Z) : option Z :=
  match l with
  | [] => None
  | x :: r =>
      match maximum r with
      | Some m => Some (Z.max x m)
      | None => Some x
      end
  end.

(** The declared total of the submission stored last. *)
Definition currentTotal (this : Server) : option Z :=
  option_map totalThoughts (last (map Some (thoughtHistory this)) None).

(** What the server keeps true of its history and its buckets. *)
Record invariant (this : Server) : Prop := {
  inv_totals : forall t, In t (thoughtHistory this) ->
                         (thoughtNumber t <= totalThoughts t)%Z;
  inv_keys : NoDup (map fst (branches this));
  inv_buckets : forall k,
      getOwn (branches this) k = nonEmpty (filter (inBucket k) (thoughtHistory this))
}.

(** The states a server can be in: a new one, the handler's
    [initializePromptContext] before a call, and [processThought]. *)
Inductive reachable : Server -> Prop :=
| reachable_new : forall ctx, reachable (newServer ctx)
| reachable_init : forall this ctx,
    reachable this ->
    reachable {| thoughtHistory := thoughtHistory this;
                 branches := branches this;
                 promptContext := ctx |}
| reachable_call : forall this input,
    reachable this -> reachable (snd (processThought input this)).

End Server.

End Notions.

(** ** Sample collaborators and requests *)

Module Fixtures.
Import Number JSString JSObject Keywords Thinking Notions.

(** Collaborators that find no contradiction, score every thought 7 and
    recommend nothing. *)
Definition quiet : Collaborators :=
  {| PromptMetadata := unit;
     checkContradictions := fun _ _ =>
       Normal {| hasContradictions := false; details := [] |};
     analyzeThoughtAlignment := fun _ _ =>
       Normal {| ad_promptAlignment := 7; ad_promptRelevance := [];
                 ad_driftWarning := None |};
     generateRecommendations := fun _ _ _ _ =>
       Normal {| strategies := []; reasoningTypes := []; focusAreas := [] |} |}.

(** A request with the four required fields and, when given, the two branch
    fields. *)
Definition submission (text : JSValue) (number total next : JSValue)
    (from : option Z) (id : option string) : Input :=
  {| in_thought := text;
     in_thoughtNumber := number;
     in_totalThoughts := total;
     in_nextThoughtNeeded := next;
     in_isRevision := None;
     in_revisesThought := None;
     in_branchFromThought := from;
     in_branchId := id;
     in_needsMoreThoughts := None;
     in_phase := None;
     in_dependencies := None;
     in_toolsUsed := None;
     in_complexity := None;
     in_status := None;
     in_quality := None;
     in_keywords := None;
     in_insightValue := None;
     in_classification := None;
     in_confidenceScore := None;
     in_evidenceStrength := None |}.

Definition request (text : string) (number total : Z) : Input :=
  submission (JString text) (JNumber number) (JNumber total) (JBoolean true)
    None None.

(** A server before its first call, and one whose prompt context the handler
    has initialised. *)
Definition fresh : @Server quiet :=
  @newServer quiet (@mkPromptContext quiet false None).

Definition initialised : @Server quiet :=
  @newServer quiet (@mkPromptContext quiet true (Some tt)).


(** A record as [validateThoughtData] returns it for [request]. *)
Definition validated (text : string) (number total : Z) : ThoughtData :=
  mkThoughtData text number total true None None None None None None None None
    None None None None None None None None None None None None None.


(** Three requests whose texts share three keywords. *)
Definition sortingFirst : Input := request "sorting algorithm compares elements" 1 5.
Definition sortingSecond : Input := request "sorting algorithm swaps elements" 2 5.

(** The third of them as [validateThoughtData] returns it, and the first as
    the server stores it. *)
Definition thirdValidated : ThoughtData :=
  validated "sorting algorithm moves elements" 3 5.


(** A request that branches from thought 1 under an inherited name. *)
Definition branchNamedConstructor : Input :=
  submission (JString "x") (JNumber 1) (JNumber 1) (JBoolean false)
    (Some 1%Z) (Some "constructor"%string).



End Fixtures.

(** ** Notions for the other methods *)

Module Measures.
Import Number JSString JSObject Keywords Thinking Methods.

(** The order of the three estimates. *)
Definition complexityRank (c : Complexity) : nat :=
  match c with simple => 0 | medium => 1 | complex => 2 end.

(** A record as the server stores it. *)
Definition wellStored (t : ThoughtData) : Prop :=
  thought t <> EmptyString /\
  thoughtNumber t <> 0%Z /\
  totalThoughts t <> 0%Z /\
  (thoughtNumber t <= totalThoughts t)%Z /\
  keywords t = Some (extractKeywords (thought t)) /\
  phase t <> None.

(** [phase || 'Execution'], and the phase that comes next. *)
Definition currentPhase (t : ThoughtData) : Phase :=
  match phase t with Some p => p | None => Execution end.

Definition followingPhase (p : Phase) : Phase :=
  match p with
  | Planning => Analysis
  | Analysis => Execution
  | Execution => Verification
  | Verification => Verification
  end.

(** [newThought.dependencies || []]. *)
Definition explicitDependencies (t : ThoughtData) : list Z :=
  match dependencies t with Some deps => deps | None => [] end.

(** How many keywords of a stored thought are keywords of the new text. *)
Definition sharedKeywords (newThought prev : ThoughtData) : nat :=
  match keywords prev with
  | Some ks =>
      List.length (filter (fun kw => includes (extractKeywords (thought newThought)) kw) ks)
  | None => 0
  end.

(** The thoughts that declare [n] as a dependency, one for each declaration,
    in the order of the list. *)
Definition dependents (thoughts : list ThoughtData) (n : Z) : list Z :=
  flat_map
    (fun thought =>
       match dependencies thought with
       | Some deps =>
           flat_map (fun dep => if (dep =? n)%Z then [thoughtNumber thought] else []) deps
       | None => []
       end)
    thoughts.

(** An entry of the adjacency list is never an empty array. *)
Definition listed (found : list Z) : option (list Z) :=
  match found with [] => None | _ => Some found end.

(** [adjacencyList[n] || []]. *)
Definition connectionsOf (adjacencyList : obj (list Z)) (n : Z) : list Z :=
  match getOwn adjacencyList (Number.toString n) with
  | Some connections => connections
  | None => []
  end.

Definition wellFormed (adjacencyList : obj (list Z)) : Prop :=
  forall k, getOwn adjacencyList k <> Some [].

(** What the statistics say of a tool: its entry, or no use at all. *)
Definition statsOf (toolUsageStats : obj ToolUsageStats) (tool : string) : ToolUsageStats :=
  match getOwn toolUsageStats tool with
  | Some stats => stats
  | None => newStats
  end.

(** How often a thought names a tool. *)
Definition uses (tools : list string) (tool : string) : nat :=
  count_occ string_dec tools tool.

Definition inPhase (thought : ThoughtData) (p : Phase) : bool :=
  match phase thought with
  | Some q => phase_eqb q p
  | None => false
  end.

Definition noInheritedEntry (toolUsageStats : obj ToolUsageStats) : Prop :=
  forall k, isInherited k = true -> getOwn toolUsageStats k = None.

End Measures.

Module Scenarios.
Import Number JSString JSObject Keywords Thinking Methods Notions Fixtures Measures.



(** The server after the request that branches under an inherited name. *)
Definition poisoned : @Server quiet :=
  snd (@processThought quiet branchNamedConstructor fresh).


(** A Planning thought, the first of five. *)
Definition planningFirst : ThoughtData :=
  set_phase (Some Planning) (validated "x" 1 5).

(** An Execution thought that names one tool twice and another once. *)
Definition searching : ThoughtData :=
  mkThoughtData "look it up" 2 5 true None None None None None (Some Execution) None
    (Some ["search"; "fetch"; "search"]%string)
    None None None None None None None None None None None None None.

(** Two thoughts, the second of which depends on the first. *)
Definition chained : list ThoughtData :=
  [ validated "a" 1 2;
    set_dependencies (Some [1%Z]) (validated "b" 2 2) ].

End Scenarios.

Import Number JSString JSObject Keywords KeywordsSpec Thinking Notions Fixtures.


(** * Properties *)

(** ** Rounding to binary64 *)

Section Binary64Facts.
Local Open Scope Q_scope.

Lemma pow2_pos e : 0 < pow2 e.
Proof. unfold pow2. apply Qpower_0_lt. reflexivity. Qed.

Lemma pow2_add a b : pow2 (a + b) == pow2 a * pow2 b.
Proof. unfold pow2. apply Qpower_plus. discriminate. Qed.

Lemma pow2_le a b : (a <= b)%Z -> pow2 a <= pow2 b.
Proof. intros H. unfold pow2. apply Qpower_le_compat_l; [exact H | discriminate]. Qed.

Lemma pow2_nonneg_Z n : (0 <= n)%Z -> pow2 n == inject_Z (2 ^ n).
Proof. intros H. unfold pow2. rewrite Zpower_Qpower by exact H. reflexivity. Qed.

Lemma pow2_cancel a : pow2 a * pow2 (- a) == 1.
Proof. rewrite <- pow2_add. replace (a + - a)%Z with 0%Z by lia. reflexivity. Qed.

(** [ilog2] brackets a positive rational between consecutive powers of two. *)
Lemma ilog2_spec q : 0 < q -> pow2 (ilog2 q) <= q /\ q < pow2 (ilog2 q + 1).
Proof.
  intros Hq. destruct q as [n d]. 
  assert (Hn : (0 < n)%Z) by (unfold Qlt in Hq; simpl in Hq; lia).
  unfold ilog2. cbn [Qnum Qden].
  set (a := Z.log2 n). set (b := Z.log2 (Z.pos d)).
  destruct (Z.log2_spec n Hn) as [Ha1 Ha2]. fold a in Ha1, Ha2.
  destruct (Z.log2_spec (Z.pos d) eq_refl) as [Hb1 Hb2]. fold b in Hb1, Hb2.
  assert (Ha0 : (0 <= a)%Z) by apply Z.log2_nonneg.
  assert (Hb0 : (0 <= b)%Z) by apply Z.log2_nonneg.
  assert (Hq' : n # d == inject_Z n / inject_Z (Z.pos d)) by (apply Qmake_Qdiv).
  assert (Hd : 0 < inject_Z (Z.pos d)) by reflexivity.
  (* upper bound: q < 2^(a-b+1) *)
  assert (Hup : n # d < pow2 (a - b + 1)).
  { rewrite Hq'. apply Qlt_shift_div_r; [exact Hd|].
    apply Qlt_le_trans with (inject_Z (2 ^ (a + 1))).
    - rewrite <- Zlt_Qlt. replace (Z.succ a) with (a + 1)%Z in Ha2 by lia. exact Ha2.
    - rewrite <- pow2_nonneg_Z by lia.
      replace (a + 1)%Z with ((a - b + 1) + b)%Z at 1 by lia.
      rewrite pow2_add. apply Qmult_le_l; [apply pow2_pos|].
      rewrite pow2_nonneg_Z by lia. rewrite <- Zle_Qle. exact Hb1. }
  (* lower bound: 2^(a-b-1) <= q *)
  assert (Hlo : pow2 (a - b - 1) <= n # d).
  { rewrite Hq'. apply Qle_shift_div_l; [exact Hd|].
    apply Qle_trans with (inject_Z (2 ^ a)).
    - rewrite <- pow2_nonneg_Z by lia.
      replace a with ((a - b - 1) + (b + 1))%Z at 2 by lia.
      rewrite pow2_add. apply Qmult_le_l; [apply pow2_pos|].
      rewrite pow2_nonneg_Z by lia. rewrite <- Zle_Qle.
      replace (Z.succ b) with (b + 1)%Z in Hb2 by lia. lia.
    - rewrite <- Zle_Qle. exact Ha1. }
  destruct (Qle_bool (pow2 (a - b)) (n # d)) eqn:E.
  - apply Qle_bool_iff in E. split; assumption.
  - assert (E' : n # d < pow2 (a - b)).
    { apply Qnot_le_lt. intro C. apply Qle_bool_iff in C. congruence. }
    split; [exact Hlo|]. replace (a - b - 1 + 1)%Z with (a - b)%Z by lia. exact E'.
Qed.

Lemma ilog2_mono x y : 0 < x -> x <= y -> (ilog2 x <= ilog2 y)%Z.
Proof.
  intros Hx Hxy.
  assert (Hy : 0 < y) by (eapply Qlt_le_trans; eauto).
  destruct (ilog2_spec x Hx) as [Hx1 _]. destruct (ilog2_spec y Hy) as [_ Hy2].
  assert (H : pow2 (ilog2 x) < pow2 (ilog2 y + 1)).
  { eapply Qle_lt_trans; [exact Hx1|]. eapply Qle_lt_trans; [exact Hxy|exact Hy2]. }
  destruct (Z_lt_le_dec (ilog2 y) (ilog2 x)) as [C|C]; [|exact C].
  exfalso. apply (Qlt_not_le _ _ H). apply pow2_le. lia.
Qed.

Lemma roundTiesToEven_bounds x :
  (Qfloor x <= roundTiesToEven x <= Qfloor x + 1)%Z.
Proof.
  unfold roundTiesToEven.
  destruct (Qcompare _ _); [destruct (Z.even _)|..]; lia.
Qed.

Lemma roundTiesToEven_Z n : roundTiesToEven (inject_Z n) = n.
Proof.
  unfold roundTiesToEven. rewrite Qfloor_Z.
  assert (H : inject_Z n - inject_Z n < 1 # 2) by (ring_simplify; reflexivity).
  rewrite Qlt_alt in H. rewrite H. reflexivity.
Qed.

Lemma roundTiesToEven_mono x y : x <= y -> (roundTiesToEven x <= roundTiesToEven y)%Z.
Proof.
  intros Hxy. pose proof (Qfloor_resp_le _ _ Hxy) as Hf.
  pose proof (roundTiesToEven_bounds x) as Bx. pose proof (roundTiesToEven_bounds y) as By.
  destruct (Z.eq_dec (Qfloor x) (Qfloor y)) as [E|NE]; [|lia].
  unfold roundTiesToEven in *. rewrite <- E in *.
  set (f := Qfloor x) in *.
  destruct (Qcompare (x - inject_Z f) (1 # 2)) eqn:Cx;
  destruct (Qcompare (y - inject_Z f) (1 # 2)) eqn:Cy;
    try (destruct (Z.even f)); try lia; exfalso.
  all: try (rewrite <- Qeq_alt in Cx); try (rewrite <- Qlt_alt in Cx); try (rewrite <- Qgt_alt in Cx).
  all: try (rewrite <- Qeq_alt in Cy); try (rewrite <- Qlt_alt in Cy); try (rewrite <- Qgt_alt in Cy).
  all: lra.
Qed.

Lemma round_pos_eq q :
  round_pos q == inject_Z (roundTiesToEven (q * pow2 (52 - ilog2 q))) * pow2 (ilog2 q - 52).
Proof. unfold round_pos. apply Qred_correct. Qed.

(** A positive number rounds into the closed binade that holds it. *)
Lemma round_pos_bounds q :
  0 < q -> pow2 (ilog2 q) <= round_pos q /\ round_pos q <= pow2 (ilog2 q + 1).
Proof.
  intros Hq. destruct (ilog2_spec q Hq) as [Hlo Hhi].
  set (e := ilog2 q) in *. rewrite round_pos_eq. fold e.
  pose proof (pow2_pos (52 - e)) as Hs. pose proof (pow2_pos (e - 52)) as Hs'.
  split.
  - apply Qle_trans with (inject_Z (2 ^ 52) * pow2 (e - 52)).
    + rewrite <- pow2_nonneg_Z by lia. rewrite <- pow2_add.
      replace (52 + (e - 52))%Z with e by lia. apply Qle_refl.
    + apply Qmult_le_compat_r; [|apply Qlt_le_weak; exact Hs'].
      rewrite <- Zle_Qle. rewrite <- (roundTiesToEven_Z (2 ^ 52)).
      apply roundTiesToEven_mono. rewrite <- pow2_nonneg_Z by lia.
      replace 52%Z with (e + (52 - e))%Z at 1 by lia. rewrite pow2_add.
      apply Qmult_le_compat_r; [exact Hlo | apply Qlt_le_weak; exact Hs].
  - apply Qle_trans with (inject_Z (2 ^ 53) * pow2 (e - 52)).
    + apply Qmult_le_compat_r; [|apply Qlt_le_weak; exact Hs'].
      rewrite <- Zle_Qle. rewrite <- (roundTiesToEven_Z (2 ^ 53)).
      apply roundTiesToEven_mono. rewrite <- pow2_nonneg_Z by lia.
      replace 53%Z with ((e + 1) + (52 - e))%Z at 1 by lia. rewrite pow2_add.
      apply Qmult_le_compat_r; [apply Qlt_le_weak; exact Hhi | apply Qlt_le_weak; exact Hs].
    + rewrite <- pow2_nonneg_Z by lia. rewrite <- pow2_add.
      replace (53 + (e - 52))%Z with (e + 1)%Z by lia. apply Qle_refl.
Qed.

Lemma round_pos_pos q : 0 < q -> 0 < round_pos q.
Proof.
  intros Hq. eapply Qlt_le_trans; [apply (pow2_pos (ilog2 q))|].
  apply round_pos_bounds; exact Hq.
Qed.

Lemma round_pos_mono x y : 0 < x -> x <= y -> round_pos x <= round_pos y.
Proof.
  intros Hx Hxy.
  assert (Hy : 0 < y) by (eapply Qlt_le_trans; eauto).
  pose proof (ilog2_mono x y Hx Hxy) as He.
  destruct (Z.eq_dec (ilog2 x) (ilog2 y)) as [E|NE].
  - rewrite !round_pos_eq. rewrite E.
    apply Qmult_le_compat_r; [|apply Qlt_le_weak; apply pow2_pos].
    rewrite <- Zle_Qle. apply roundTiesToEven_mono.
    apply Qmult_le_compat_r; [exact Hxy | apply Qlt_le_weak; apply pow2_pos].
  - apply Qle_trans with (pow2 (ilog2 x + 1)); [apply round_pos_bounds; exact Hx|].
    apply Qle_trans with (pow2 (ilog2 y)); [apply pow2_le; lia|].
    apply round_pos_bounds; exact Hy.
Qed.

Lemma binary64_pos q : 0 < q -> binary64 q = round_pos q.
Proof.
  intros H. unfold binary64.
  assert (E : Qcompare q 0 = Gt) by (apply Qgt_alt; exact H).
  rewrite E. reflexivity.
Qed.

Lemma binary64_neg q : q < 0 -> binary64 q = Qred (- round_pos (- q)).
Proof.
  intros H. unfold binary64.
  assert (E : Qcompare q 0 = Lt) by (apply Qlt_alt; exact H).
  rewrite E. reflexivity.
Qed.

Lemma binary64_zero q : q == 0 -> binary64 q = 0.
Proof.
  intros H. unfold binary64.
  assert (E : Qcompare q 0 = Eq) by (apply Qeq_alt; exact H).
  rewrite E. reflexivity.
Qed.

(** Rounding to binary64 preserves order. *)
Lemma binary64_mono x y : x <= y -> binary64 x <= binary64 y.
Proof.
  intros Hxy.
  destruct (Q_dec x 0) as [[Hx|Hx]|Hx]; destruct (Q_dec y 0) as [[Hy|Hy]|Hy].
  - rewrite (binary64_neg x Hx), (binary64_neg y Hy), !Qred_correct.
    apply Qopp_le_compat. apply round_pos_mono; lra.
  - rewrite (binary64_neg x Hx), (binary64_pos y Hy), Qred_correct.
    pose proof (round_pos_pos (- x)). pose proof (round_pos_pos y Hy). lra.
  - rewrite (binary64_neg x Hx), (binary64_zero y Hy), Qred_correct.
    pose proof (round_pos_pos (- x)). lra.
  - lra.
  - rewrite (binary64_pos x Hx), (binary64_pos y Hy). apply round_pos_mono; assumption.
  - lra.
  - rewrite (binary64_zero x Hx), (binary64_neg y Hy). lra.
  - rewrite (binary64_zero x Hx), (binary64_pos y Hy).
    apply Qlt_le_weak. apply round_pos_pos. exact Hy.
  - rewrite (binary64_zero x Hx), (binary64_zero y Hy). apply Qle_refl.
Qed.

Lemma binary64_canon q : Qred (binary64 q) = binary64 q.
Proof.
  unfold binary64. destruct (Qcompare q 0); [reflexivity | | ]; unfold round_pos.
  - apply Qred_complete, Qred_correct.
  - apply Qred_complete, Qred_correct.
Qed.

Lemma binary64_comp x y : x == y -> binary64 x = binary64 y.
Proof.
  intros H. rewrite <- (binary64_canon x), <- (binary64_canon y).
  apply Qred_complete. apply Qle_antisym; apply binary64_mono; rewrite H; apply Qle_refl.
Qed.

Lemma binary64_range lo hi x :
  binary64 lo = lo -> binary64 hi = hi -> lo <= x <= hi -> lo <= binary64 x <= hi.
Proof.
  intros Hlo Hhi [H1 H2]. split.
  - rewrite <- Hlo. apply binary64_mono. exact H1.
  - rewrite <- Hhi. apply binary64_mono. exact H2.
Qed.

Lemma fdiv_unit_range a b : (0 < a <= b)%Z -> 0 <= fdiv (inject_Z a) (inject_Z b) <= 1.
Proof.
  intros [Ha Hab]. unfold fdiv.
  apply binary64_range; [reflexivity | reflexivity |].
  assert (Hb : 0 < inject_Z b) by (rewrite <- (Zlt_Qlt 0); lia).
  split.
  - apply Qle_shift_div_l; [exact Hb|]. rewrite Qmult_0_l.
    rewrite <- (Zle_Qle 0). lia.
  - apply Qle_shift_div_r; [exact Hb|]. rewrite Qmult_1_l.
    rewrite <- Zle_Qle. exact Hab.
Qed.

Lemma fmul_100_range x : 0 <= x <= 1 -> 0 <= fmul x 100 <= 100.
Proof.
  intros H. unfold fmul. apply binary64_range; [reflexivity | reflexivity | lra].
Qed.

End Binary64Facts.

(** ** The pipeline *)

Section ServerFacts.
Context {collaborators : Collaborators}.
Local Arguments isInherited : simpl never.
Local Arguments extractKeywords : simpl never.
Local Arguments binary64 : simpl never.

Lemma validate_Normal input v0 :
  validateThoughtData input = Normal v0 ->
  in_thought input = JString (thought v0) /\ thought v0 <> EmptyString /\
  in_thoughtNumber input = JNumber (thoughtNumber v0) /\ thoughtNumber v0 <> 0%Z /\
  in_totalThoughts input = JNumber (totalThoughts v0) /\ totalThoughts v0 <> 0%Z /\
  in_nextThoughtNeeded input = JBoolean (nextThoughtNeeded v0) /\
  isRevision v0 = in_isRevision input /\
  branchFromThought v0 = in_branchFromThought input /\
  branchId v0 = in_branchId input /\
  phase v0 = in_phase input /\
  dependencies v0 = in_dependencies input /\
  complexity v0 = in_complexity input /\
  quality v0 = in_quality input.
Proof.
  unfold validateThoughtData. intros H.
  destruct (in_thought input) as [| |b|n|s|l|l]; simpl in H; rewrite ?orb_true_r in H; try discriminate H.
  destruct (String.eqb s EmptyString) eqn:Es; simpl in H; rewrite ?orb_true_r in H; try discriminate H.
  destruct (in_thoughtNumber input) as [| |b|n|s'|l|l]; simpl in H; rewrite ?orb_true_r in H; try discriminate H.
  destruct (n =? 0)%Z eqn:En; simpl in H; rewrite ?orb_true_r in H; try discriminate H.
  destruct (in_totalThoughts input) as [| |b|m|s'|l|l]; simpl in H; rewrite ?orb_true_r in H; try discriminate H.
  destruct (m =? 0)%Z eqn:Em; simpl in H; rewrite ?orb_true_r in H; try discriminate H.
  destruct (in_nextThoughtNeeded input) as [| |b|k|s'|l|l]; simpl in H; rewrite ?orb_true_r in H; try discriminate H.
  inversion H; subst; clear H. simpl.
  apply String.eqb_neq in Es. apply Z.eqb_neq in En. apply Z.eqb_neq in Em.
  repeat split; auto.
Qed.


Lemma enrich_state input st : snd (enrich input st) = st.
Proof.
  unfold enrich, bind, lift, get, ret.
  destruct (validateThoughtData input) as [v0|e]; [|reflexivity].
  cbv zeta.
  destruct (checkContradictions _ _) as [c|e]; [|reflexivity].
  destruct (isInitialized _); [|reflexivity].
  destruct (getMetadata _) as [md|]; [|reflexivity].
  destruct (analyzeThoughtAlignment _ _) as [a|e]; [|reflexivity].
  destruct (generateRecommendations _ _ _ _) as [r|e]; reflexivity.
Qed.

Lemma enrich_Normal input st v s :
  enrich input st = (Normal v, s) ->
  s = st /\
  exists v0,
    validateThoughtData input = Normal v0 /\
    thought v = thought v0 /\
    thoughtNumber v = thoughtNumber v0 /\
    totalThoughts v = Z.max (thoughtNumber v0) (totalThoughts v0) /\
    nextThoughtNeeded v = nextThoughtNeeded v0 /\
    isRevision v = isRevision v0 /\
    branchFromThought v = branchFromThought v0 /\
    branchId v = branchId v0 /\
    phase v = Some (phaseOf v0) /\
    dependencies v = dependencies v0 /\
    complexity v = complexity v0 /\
    quality v = quality v0 /\
    insightValue v = insightValue v0 /\
    keywords v = Some (extractKeywords (thought v0)).
Proof.
  intros H.
  pose proof (enrich_state input st) as Hs. rewrite H in Hs. simpl in Hs.
  split; [exact Hs|]. clear Hs.
  unfold enrich, bind, lift, get, ret in H.
  destruct (validateThoughtData input) as [v0|e]; [|discriminate H].
  exists v0. split; [reflexivity|].
  cbv zeta in H.
  assert (Hmax : forall a b : Z, (if (b <? a)%Z then a else b) = Z.max a b).
  { intros a b. destruct (Z.ltb_spec b a); lia. }
  destruct (checkContradictions _ _) as [c|e]; [|discriminate H].
  unfold phaseOf.
  destruct (isInitialized _);
    [destruct (getMetadata _) as [md|];
     [destruct (analyzeThoughtAlignment _ _) as [a|e]; [|discriminate H];
      destruct (generateRecommendations _ _ _ _) as [r|e]; [|discriminate H]|]|];
    inversion H; subst; clear H;
    destruct (hasContradictions c);
    destruct (phase v0) eqn:Ep;
    destruct (totalThoughts v0 <? thoughtNumber v0)%Z eqn:El;
    rewrite <- (Hmax (thoughtNumber v0) (totalThoughts v0));
    repeat (progress (cbn; rewrite ?Ep, ?El));
    repeat split; reflexivity.
Qed.


Lemma store_state v st : snd (store v st) = afterStore v st.
Proof.
  unfold store, bind, pushHistory, handleBranching, lift, get, put, ret, afterStore.
  cbn [thoughtHistory branches promptContext].
  fold (bucketed v). fold (branchKey v).
  destruct (bucketed v); cbn.
  - destruct (pushToBranch _ _ _ _) as [b|e]; cbn; [|reflexivity].
    destruct (generateDependencyGraph _) as [u|e]; cbn; [|reflexivity].
    destruct (createProgressBar _) as [c|e]; reflexivity.
  - destruct (generateDependencyGraph _) as [u|e]; cbn; [|reflexivity].
    destruct (createProgressBar _) as [c|e]; reflexivity.
Qed.

Lemma store_Normal v st body s' :
  store v st = (Normal body, s') ->
  s' = afterStore v st /\
  body = respond v (progressOf v) (afterStore v st) /\
  generateDependencyGraph (thoughtHistory st ++ [v]) = Normal tt /\
  (exists cells, createProgressBar (progressOf v) = Normal cells) /\
  (bucketed v = true ->
   exists b, pushToBranch "this.branches[validatedInput.branchId]"
               (branches st) (branchKey v) v = Normal b).
Proof.
  intros H. pose proof (store_state v st) as Hs. rewrite H in Hs. cbn in Hs.
  split; [exact Hs|]. subst s'.
  unfold store, bind, pushHistory, handleBranching, lift, get, put, ret, afterStore in *.
  cbn [thoughtHistory branches promptContext] in *.
  fold (bucketed v) in *. fold (branchKey v) in *. fold (progressOf v) in *.
  destruct (bucketed v); cbn in H |- *.
  - destruct (pushToBranch _ _ _ _) as [b|e]; cbn in H; [|discriminate H].
    destruct (generateDependencyGraph _) as [[]|e]; cbn in H; [|discriminate H].
    destruct (createProgressBar _) as [c|e]; cbn in H; [|discriminate H].
    inversion H; subst; clear H.
    repeat split; eauto.
  - destruct (generateDependencyGraph _) as [[]|e]; cbn in H; [|discriminate H].
    destruct (createProgressBar _) as [c|e]; cbn in H; [|discriminate H].
    inversion H; subst; clear H.
    repeat split; eauto. discriminate.
Qed.

Lemma store_succeeds v st cells :
  (bucketed v = true -> isInherited (branchKey v) = false) ->
  generateDependencyGraph (thoughtHistory st ++ [v]) = Normal tt ->
  createProgressBar (progressOf v) = Normal cells ->
  store v st = (Normal (respond v (progressOf v) (afterStore v st)), afterStore v st).
Proof.
  intros Hb Hg Hp.
  unfold store, bind, pushHistory, handleBranching, lift, get, put, ret, afterStore.
  cbn [thoughtHistory branches promptContext].
  fold (bucketed v). fold (branchKey v). fold (progressOf v).
  destruct (bucketed v); cbn.
  - unfold pushToBranch. rewrite (Hb eq_refl).
    destruct (getOwn (branches st) (branchKey v)); cbn; rewrite Hg; cbn; rewrite Hp; reflexivity.
  - rewrite Hg; cbn; rewrite Hp; reflexivity.
Qed.

Lemma processThought_state input st :
  snd (processThought input st) =
  match enrich input st with
  | (Normal v, _) => afterStore v st
  | (Throw _, _) => st
  end.
Proof.
  unfold processThought, tryBlock, bind.
  pose proof (enrich_state input st) as Hs.
  destruct (enrich input st) as [[v|e] s]; cbn in Hs; subst s.
  - pose proof (store_state v st) as Hst.
    destruct (store v st) as [[b|e] s']; cbn in Hst |- *; exact Hst.
  - reflexivity.
Qed.

Lemma processThought_Success input st body st' :
  processThought input st = (Success body, st') ->
  exists v,
    enrich input st = (Normal v, st) /\
    store v st = (Normal body, st') /\
    st' = afterStore v st /\
    body = respond v (progressOf v) st'.
Proof.
  unfold processThought, tryBlock, bind. intros H.
  pose proof (enrich_state input st) as Hs.
  destruct (enrich input st) as [[v|e] s] eqn:E; cbn in Hs; subst s; [|discriminate H].
  exists v. split; [reflexivity|].
  destruct (store v st) as [[b|e] s'] eqn:Es; [|discriminate H].
  inversion H; subst; clear H.
  destruct (store_Normal _ _ _ _ Es) as (-> & -> & _).
  repeat split; reflexivity.
Qed.

Lemma processThought_invalid input st e :
  enrich input st = (Throw e, st) ->
  processThought input st =
  (Failure {| e_error := messageOf e; e_status := "failed" |}, st).
Proof.
  intros H. unfold processThought, tryBlock, bind. rewrite H. reflexivity.
Qed.

Lemma enrich_validate_Throw input st e :
  validateThoughtData input = Throw e -> enrich input st = (Throw e, st).
Proof.
  intros H. unfold enrich, bind, lift. rewrite H. reflexivity.
Qed.


(** *** When the stages after the append return *)

Lemma groupThoughtsFrom_clean thoughts :
  rendersCleanly thoughts = true ->
  forall buckets, exists buckets', groupThoughtsFrom buckets thoughts = Normal buckets'.
Proof.
  induction thoughts as [|t rest IH]; intros Hc buckets; cbn.
  - eauto.
  - cbn in Hc. apply andb_true_iff in Hc. destruct Hc as [Ht Hrest].
    destruct (truthyString (branchId t)) eqn:Et; cbn in Ht; [|apply IH; exact Hrest].
    apply negb_true_iff in Ht. unfold branchKey in Ht.
    unfold pushToBranch. rewrite Ht.
    destruct (getOwn buckets _); apply IH; exact Hrest.
Qed.

Lemma generateDependencyGraph_clean thoughts :
  rendersCleanly thoughts = true -> generateDependencyGraph thoughts = Normal tt.
Proof.
  intros Hc. unfold generateDependencyGraph, groupThoughtsByBranch.
  destruct (groupThoughtsFrom_clean thoughts Hc empty) as [b ->]. reflexivity.
Qed.

Lemma progressOf_range v :
  (0 < thoughtNumber v <= totalThoughts v)%Z -> (0 <= progressOf v <= 100)%Q.
Proof.
  intros H. unfold progressOf. apply fmul_100_range. apply fdiv_unit_range. exact H.
Qed.

Lemma createProgressBar_range p :
  (0 <= p <= 100)%Q -> exists cells, createProgressBar p = Normal cells.
Proof.
  intros Hp. unfold createProgressBar, Math_floor.
  set (x := fmul (inject_Z 20) (fdiv p 100)).
  assert (Hx : (0 <= x <= 20)%Q).
  { unfold x, fmul. apply binary64_range; [reflexivity | reflexivity |].
    assert (Hd : (0 <= fdiv p 100 <= 1)%Q).
    { unfold fdiv. apply binary64_range; [reflexivity | reflexivity |].
      split.
      - apply Qle_shift_div_l; [reflexivity | lra].
      - apply Qle_shift_div_r; [reflexivity | lra]. }
    change (inject_Z 20) with 20%Q. lra. }
  assert (Hf : (0 <= Qfloor x <= 20)%Z).
  { split.
    - change 0%Z with (Qfloor 0). apply Qfloor_resp_le. apply Hx.
    - change 20%Z with (Qfloor 20). apply Qfloor_resp_le. apply Hx. }
  unfold repeatCount.
  destruct (Z.ltb_spec (Qfloor x) 0); [lia|].
  destruct (Z.ltb_spec (20 - Qfloor x) 0); [lia|]. eauto.
Qed.

(** A call returns its response when the collaborators return, the stored
    branch ids stay clear of inherited names, and the numbers are positive. *)
Lemma processThought_returns input st v :
  enrich input st = (Normal v, st) ->
  rendersCleanly (thoughtHistory st ++ [v]) = true ->
  (0 < thoughtNumber v)%Z ->
  processThought input st =
  (Success (respond v (progressOf v) (afterStore v st)), afterStore v st).
Proof.
  intros He Hc Hn.
  destruct (enrich_Normal _ _ _ _ He) as (_ & v0 & _ & _ & Hn0 & Ht0 & _).
  assert (Hr : (0 < thoughtNumber v <= totalThoughts v)%Z) by lia.
  destruct (createProgressBar_range _ (progressOf_range v Hr)) as [cells Hcells].
  unfold processThought, tryBlock, bind. rewrite He.
  rewrite (store_succeeds v st cells); [reflexivity| |apply generateDependencyGraph_clean; exact Hc|exact Hcells].
  intros Hb. unfold rendersCleanly in Hc. rewrite forallb_app in Hc.
  apply andb_true_iff in Hc. destruct Hc as [_ Hc]. cbn in Hc.
  rewrite andb_true_r in Hc. apply negb_true_iff in Hc.
  unfold bucketed in Hb. apply andb_true_iff in Hb. destruct Hb as [_ Hb].
  rewrite Hb in Hc. exact Hc.
Qed.

End ServerFacts.

(** ** Dictionaries *)

Section ObjectFacts.
Context {V : Type}.
Implicit Types (o : obj V) (k : string) (v : V).

Lemma getOwn_setOwn_eq o k v : getOwn (setOwn o k v) k = Some v.
Proof.
  induction o as [|[k' v'] r IH]; cbn.
  - rewrite String.eqb_refl. reflexivity.
  - destruct (String.eqb k k') eqn:E; cbn; rewrite E; [reflexivity|exact IH].
Qed.

Lemma getOwn_setOwn_neq o k k' v :
  k' <> k -> getOwn (setOwn o k v) k' = getOwn o k'.
Proof.
  intros Hne. induction o as [|[k0 v0] r IH]; cbn.
  - apply String.eqb_neq in Hne. rewrite Hne. reflexivity.
  - destruct (String.eqb k k0) eqn:E; cbn.
    + apply String.eqb_eq in E. subst k0.
      apply String.eqb_neq in Hne. rewrite Hne. reflexivity.
    + rewrite IH. reflexivity.
Qed.

Lemma setOwn_keys_In o k v x :
  In x (map fst (setOwn o k v)) <-> x = k \/ In x (map fst o).
Proof.
  induction o as [|[k0 v0] r IH]; cbn.
  - intuition.
  - destruct (String.eqb k k0) eqn:E; cbn.
    + apply String.eqb_eq in E. subst k0. intuition.
    + rewrite IH. intuition.
Qed.

Lemma setOwn_NoDup o k v :
  NoDup (map fst o) -> NoDup (map fst (setOwn o k v)).
Proof.
  induction o as [|[k0 v0] r IH]; cbn; intros Hnd.
  - constructor; [intros []|constructor].
  - inversion Hnd as [|? ? Hnotin Hr]; subst.
    destruct (String.eqb k k0) eqn:E; cbn.
    + constructor; assumption.
    + constructor; [|apply IH; exact Hr].
      rewrite setOwn_keys_In. intros [->|Hin]; [|exact (Hnotin Hin)].
      rewrite String.eqb_refl in E. discriminate E.
Qed.

Lemma getOwn_Some_In o k v : getOwn o k = Some v -> In (k, v) o.
Proof.
  induction o as [|[k0 v0] r IH]; cbn; [discriminate|].
  destruct (String.eqb k k0) eqn:E.
  - apply String.eqb_eq in E. subst k0. intros H. inversion H. auto.
  - auto.
Qed.


Lemma insertIndex_In (x y : N * (string * V)) l :
  In y (insertIndex x l) <-> y = x \/ In y l.
Proof.
  induction l as [|z r IH]; cbn.
  - intuition.
  - destruct (fst x <=? fst z)%N; cbn; [intuition|]. rewrite IH. intuition.
Qed.

Lemma sortedIndex_In (y : N * (string * V)) l :
  In y (fold_right insertIndex [] l) <-> In y l.
Proof.
  induction l as [|z r IH]; cbn; [reflexivity|].
  rewrite insertIndex_In, IH. intuition.
Qed.

(** [Object.entries] lists exactly the own properties. *)
Lemma entries_In o (kv : string * V) : In kv (entries o) <-> In kv o.
Proof.
  unfold entries. rewrite in_app_iff, in_map_iff, filter_In. split.
  - intros [(y & <- & Hy)|[H _]]; [|exact H].
    apply (proj1 (sortedIndex_In _ _)) in Hy. unfold indexEntries in Hy.
    apply (proj1 (in_flat_map _ _ _)) in Hy. destruct Hy as (kv' & Hkv' & Hy).
    destruct (arrayIndex (fst kv')); [|destruct Hy].
    destruct Hy as [<-|[]]. exact Hkv'.
  - intros H. unfold isArrayIndex.
    destruct (arrayIndex (fst kv)) as [n|] eqn:E.
    + left. exists (n, kv). split; [reflexivity|].
      apply sortedIndex_In. unfold indexEntries. apply in_flat_map.
      exists kv. split; [exact H|]. rewrite E. cbn. auto.
    + right. split; [exact H|reflexivity].
Qed.


End ObjectFacts.

(** ** Invariants of the server *)

Section Invariants.
Context {collaborators : Collaborators}.
Local Arguments isInherited : simpl never.
Local Arguments extractKeywords : simpl never.
Local Arguments binary64 : simpl never.


Lemma invariant_afterStore v this :
  (thoughtNumber v <= totalThoughts v)%Z ->
  invariant this -> invariant (afterStore v this).
Proof.
  intros Hv [Ht Hk Hb]. unfold afterStore. constructor; cbn [thoughtHistory branches].
  - intros t Hin. apply in_app_or in Hin. destruct Hin as [Hin|[<-|[]]]; auto.
  - destruct (bucketed v); [|exact Hk].
    unfold pushToBranch.
    destruct (getOwn (branches this) (branchKey v)).
    + apply setOwn_NoDup. exact Hk.
    + destruct (isInherited (branchKey v)); [exact Hk|apply setOwn_NoDup; exact Hk].
  - intros k. rewrite filter_app. cbn [filter].
    destruct (bucketed v) eqn:Bv.
    + unfold pushToBranch.
      destruct (isInherited (branchKey v)) eqn:Iv.
      * assert (Hnone : getOwn (branches this) (branchKey v) = None).
        { rewrite Hb. unfold inBucket. rewrite Iv.
          assert (E : forall l, filter (fun t => bucketed t && String.eqb (branchKey t) (branchKey v) && negb true) l = []).
          { induction l as [|x l IH]; cbn; [reflexivity|]. rewrite andb_false_r. exact IH. }
          rewrite E. reflexivity. }
        rewrite Hnone.
        assert (F : inBucket k v = false).
        { unfold inBucket. destruct (String.eqb (branchKey v) k) eqn:E.
          - apply String.eqb_eq in E. subst k. rewrite Iv. apply andb_false_r.
          - rewrite andb_false_r. reflexivity. }
        rewrite F, app_nil_r. apply Hb.
      * destruct (String.eqb (branchKey v) k) eqn:E.
        -- apply String.eqb_eq in E. subst k.
           assert (T : inBucket (branchKey v) v = true).
           { unfold inBucket. rewrite Bv, String.eqb_refl, Iv. reflexivity. }
           rewrite T. specialize (Hb (branchKey v)).
           destruct (getOwn (branches this) (branchKey v)) as [bucket|];
             rewrite getOwn_setOwn_eq.
           ++ destruct (filter (inBucket (branchKey v)) (thoughtHistory this)) as [|x l];
                cbn in Hb; [discriminate Hb|]. inversion Hb; subst. reflexivity.
           ++ destruct (filter (inBucket (branchKey v)) (thoughtHistory this)) as [|x l];
                cbn in Hb; [reflexivity|discriminate Hb].
        -- assert (F : inBucket k v = false).
           { unfold inBucket. rewrite E, andb_false_r. reflexivity. }
           rewrite F, app_nil_r.
           assert (Hne : k <> branchKey v).
           { intros ->. rewrite String.eqb_refl in E. discriminate E. }
           destruct (getOwn (branches this) (branchKey v));
             rewrite (getOwn_setOwn_neq _ _ _ _ Hne); apply Hb.
    + assert (F : inBucket k v = false) by (unfold inBucket; rewrite Bv; reflexivity).
      rewrite F, app_nil_r. apply Hb.
Qed.

Lemma invariant_processThought input this :
  invariant this -> invariant (snd (processThought input this)).
Proof.
  intros Hinv. rewrite processThought_state.
  destruct (enrich input this) as [[v|e] s] eqn:E; [|exact Hinv].
  pose proof (enrich_state input this) as Hs. rewrite E in Hs. cbn in Hs. subst s.
  destruct (enrich_Normal _ _ _ _ E) as (_ & v0 & _ & _ & Hn & Ht & _).
  apply invariant_afterStore; [lia|exact Hinv].
Qed.

Lemma reachable_invariant this : reachable this -> invariant this.
Proof.
  induction 1 as [ctx|this ctx _ IH|this input _ IH].
  - constructor; cbn.
    + intros t [].
    + constructor.
    + reflexivity.
  - destruct IH as [Ht Hk Hb]. constructor; cbn; assumption.
  - apply invariant_processThought. exact IH.
Qed.

End Invariants.

Section MaximumFacts.

Lemma maximum_pointwise {A} (f g : A -> Z) (l : list A) s m :
  (forall t, In t l -> (f t <= g t)%Z) ->
  maximum (map f l) = Some s -> maximum (map g l) = Some m -> (s <= m)%Z.
Proof.
  revert s m. induction l as [|x r IH]; cbn; intros s m Hfg Hs Hm; [discriminate|].
  assert (Hx : (f x <= g x)%Z) by (apply Hfg; auto).
  destruct (maximum (map f r)) as [s'|] eqn:Es;
    destruct (maximum (map g r)) as [m'|] eqn:Em;
    inversion Hs; inversion Hm; subst; clear Hs Hm.
  - specialize (IH s' m' (fun t H => Hfg t (or_intror H)) eq_refl eq_refl). lia.
  - destruct r; cbn in *; [discriminate|].
    destruct (maximum (map g r)); discriminate.
  - destruct r; cbn in *; [discriminate|].
    destruct (maximum (map f r)); discriminate.
  - exact Hx.
Qed.

Lemma maximum_app l l' m :
  maximum l = Some m -> exists m', maximum (l ++ l') = Some m' /\ (m <= m')%Z.
Proof.
  revert m. induction l as [|x r IH]; cbn; intros m H; [discriminate|].
  destruct (maximum r) as [mr|] eqn:Er.
  - destruct (IH mr eq_refl) as (m' & -> & Hle). inversion H; subst.
    eexists. split; [reflexivity|lia].
  - inversion H; subst. destruct r; [|cbn in Er; destruct (maximum r); discriminate].
    cbn. destruct (maximum l') as [ml|]; eexists; (split; [reflexivity|lia]).
Qed.

End MaximumFacts.

Section Claims4.
Context {collaborators : Collaborators}.
Local Arguments isInherited : simpl never.
Local Arguments extractKeywords : simpl never.
Local Arguments binary64 : simpl never.

Lemma processThought_history input this :
  thoughtHistory (snd (processThought input this)) = thoughtHistory this \/
  exists v, thoughtHistory (snd (processThought input this)) = thoughtHistory this ++ [v].
Proof.
  rewrite processThought_state.
  destruct (enrich input this) as [[v|e] s]; [right; exists v; reflexivity|left; reflexivity].
Qed.

(** C2, as the code has it.  The server keeps no running total: each record
    carries its own [totalThoughts].  A call that stores a record stores it
    with the [thoughtNumber] of the request and with the larger of the
    [totalThoughts] and the [thoughtNumber] of the request.  So in every
    state the server can reach, each stored record has [thoughtNumber <=
    totalThoughts], the largest stored [totalThoughts] is at least the
    largest stored [thoughtNumber], and no call lowers the largest stored
    [totalThoughts]. *)
Theorem C2_largest_total_covers_largest_number :
  (forall input this v,
      thoughtHistory (snd (processThought input this)) = thoughtHistory this ++ [v] ->
      exists n t,
        in_thoughtNumber input = JNumber n /\
        in_totalThoughts input = JNumber t /\
        thoughtNumber v = n /\
        totalThoughts v = Z.max t n)
  /\
  (forall this,
    reachable this ->
    (forall t, In t (thoughtHistory this) ->
               (thoughtNumber t <= totalThoughts t)%Z)
    /\
    (forall s m,
        maximum (map thoughtNumber (thoughtHistory this)) = Some s ->
        maximum (map totalThoughts (thoughtHistory this)) = Some m ->
        (s <= m)%Z)
    /\
    (forall input m,
        maximum (map totalThoughts (thoughtHistory this)) = Some m ->
        exists m',
          maximum (map totalThoughts
                     (thoughtHistory (snd (processThought input this)))) = Some m'
          /\ (m <= m')%Z)).
Proof.
  split.
  - intros input this v Hh. rewrite processThought_state in Hh.
    destruct (enrich input this) as [[v'|e] s] eqn:E.
    + cbn [afterStore thoughtHistory] in Hh. apply app_inv_head in Hh.
      inversion Hh; subst v'.
      destruct (enrich_Normal _ _ _ _ E) as (_ & v0 & Hv & _ & Hn & Ht & _).
      destruct (validate_Normal _ _ Hv) as (_ & _ & Hin & _ & Hit & _).
      exists (thoughtNumber v0), (totalThoughts v0).
      rewrite Hn, Ht. repeat split; [exact Hin|exact Hit|apply Z.max_comm].
    + exfalso. apply (f_equal (@List.length _)) in Hh.
      rewrite length_app in Hh. cbn in Hh. lia.
  - intros this Hr. pose proof (reachable_invariant this Hr) as [Ht _ _].
    split; [exact Ht|]. split.
    + intros s m. apply maximum_pointwise. exact Ht.
    + intros input m Hm.
      destruct (processThought_history input this) as [->|[v ->]].
      * exists m. split; [exact Hm|lia].
      * rewrite map_app. apply maximum_app. exact Hm.
Qed.


End Claims4.

(** C2 fails as stated: after thought 10 of 10 and thought 2 of 3, both
    accepted, the total of the last record is 3 while number 10 has been
    seen; the total went from 10 down to 3. *)
Lemma C2_counterexample :
  let first := @processThought quiet (request "a" 10 10) fresh in
  let second := @processThought quiet (request "b" 2 3) (snd first) in
  isError (fst first) = false /\ isError (fst second) = false /\
  currentTotal (snd first) = Some 10%Z /\
  currentTotal (snd second) = Some 3%Z /\
  option_map r_totalThoughts (successBody (fst second)) = Some 3%Z /\
  maximum (map thoughtNumber (thoughtHistory (snd second))) = Some 10%Z.
Proof. vm_compute. repeat split; reflexivity. Qed.

Lemma C2_witness :
  let this := @runAll quiet [request "a" 10 10; request "b" 2 3] fresh in
  (exists v n t,
      thoughtHistory (snd (@processThought quiet (request "c" 7 4) this))
      = thoughtHistory this ++ [v] /\
      in_thoughtNumber (request "c" 7 4) = JNumber n /\
      in_totalThoughts (request "c" 7 4) = JNumber t /\
      thoughtNumber v = n /\
      totalThoughts v = Z.max t n)
  /\
  (forall t, In t (thoughtHistory this) -> (thoughtNumber t <= totalThoughts t)%Z)
  /\
  (forall s m,
      maximum (map thoughtNumber (thoughtHistory this)) = Some s ->
      maximum (map totalThoughts (thoughtHistory this)) = Some m ->
      (s <= m)%Z)
  /\
  (forall input m,
      maximum (map totalThoughts (thoughtHistory this)) = Some m ->
      exists m',
        maximum (map totalThoughts
                   (thoughtHistory (snd (@processThought quiet input this)))) = Some m'
        /\ (m <= m')%Z).
Proof.
  split.
  - eassert (E : thoughtHistory
                   (snd (@processThought quiet (request "c" 7 4)
                           (@runAll quiet [request "a" 10 10; request "b" 2 3] fresh)))
                 = thoughtHistory
                     (@runAll quiet [request "a" 10 10; request "b" 2 3] fresh) ++ [_])
      by (vm_compute; reflexivity).
    destruct (proj1 (@C2_largest_total_covers_largest_number quiet) _ _ _ E)
      as (n & t & Hn & Ht & Hvn & Hvt).
    eexists _, n, t.
    split; [exact E|split; [exact Hn|split; [exact Ht|split; [exact Hvn|exact Hvt]]]].
  - apply (proj2 (@C2_largest_total_covers_largest_number quiet)).
    apply (@reachable_call quiet _ (request "b" 2 3)).
    apply (@reachable_call quiet _ (request "a" 10 10)).
    apply (@reachable_new quiet).
Defined.



(** ** Keyword extraction *)

Section KeywordFacts.

Lemma includes_In l w : includes l w = true <-> In w l.
Proof.
  unfold includes. rewrite existsb_exists. split.
  - intros (x & Hx & E). apply String.eqb_eq in E. subst x. exact Hx.
  - intros H. exists w. split; [exact H|apply String.eqb_refl].
Qed.

Lemma includes_false l w : includes l w = false <-> ~ In w l.
Proof.
  rewrite <- includes_In. destruct (includes l w); split; congruence.
Qed.

Lemma firstOccurrences_snoc l w :
  firstOccurrences (l ++ [w]) =
  if includes (firstOccurrences l) w then firstOccurrences l
  else firstOccurrences l ++ [w].
Proof. unfold firstOccurrences. rewrite fold_left_app. reflexivity. Qed.

Lemma firstOccurrences_spec l :
  NoDup (firstOccurrences l) /\ (forall w, In w (firstOccurrences l) <-> In w l).
Proof.
  induction l as [|w l IH] using rev_ind.
  - split; [constructor|reflexivity].
  - destruct IH as [Hnd Hin]. rewrite firstOccurrences_snoc.
    destruct (includes (firstOccurrences l) w) eqn:E.
    + split; [exact Hnd|]. intros u. rewrite in_app_iff, Hin. cbn.
      apply includes_In in E. apply Hin in E. intuition (subst; auto).
    + apply includes_false in E. split.
      * apply NoDup_app; [exact Hnd|constructor; [intros []|constructor]|].
        intros u Hu [<-|[]]. exact (E Hu).
      * intros u. rewrite !in_app_iff, Hin. reflexivity.
Qed.

Lemma frequency_snoc l w u :
  frequency (l ++ [w]) u = (frequency l u + if String.eqb w u then 1 else 0)%nat.
Proof.
  unfold frequency. rewrite count_occ_app. cbn.
  destruct (string_dec w u) as [->|Hne].
  - rewrite String.eqb_refl. reflexivity.
  - apply String.eqb_neq in Hne. rewrite Hne. reflexivity.
Qed.

Lemma getOwn_table L c w :
  getOwn (table L c) w = if includes L w then Some (Count (c w)) else None.
Proof.
  induction L as [|x L IH]; cbn; [reflexivity|].
  destruct (String.eqb w x) eqn:E; cbn.
  - apply String.eqb_eq in E. subst x. reflexivity.
  - exact IH.
Qed.

Lemma table_ext L c c' : (forall u, In u L -> c' u = c u) -> table L c' = table L c.
Proof.
  intros H. unfold table. apply map_ext_in. intros u Hu. rewrite (H u Hu). reflexivity.
Qed.

Lemma setOwn_table_in L c c' w :
  NoDup L -> In w L -> (forall u, u <> w -> c' u = c u) ->
  setOwn (table L c) w (Count (c' w)) = table L c'.
Proof.
  intros Hnd Hin Hc. induction L as [|x L IH]; [destruct Hin|].
  inversion Hnd as [|? ? Hx HL]; subst. cbn.
  destruct (String.eqb w x) eqn:E.
  - apply String.eqb_eq in E. subst x. f_equal.
    symmetry. apply table_ext. intros u Hu. apply Hc. intros ->. exact (Hx Hu).
  - assert (Hne : x <> w) by (intros ->; rewrite String.eqb_refl in E; discriminate E).
    rewrite (Hc x Hne). f_equal. apply IH; [exact HL|].
    destruct Hin as [->|Hin]; [congruence|exact Hin].
Qed.

Lemma setOwn_table_new L c c' w :
  ~ In w L -> (forall u, In u L -> c' u = c u) ->
  setOwn (table L c) w (Count (c' w)) = table (L ++ [w]) c'.
Proof.
  intros Hnot Hc. induction L as [|x L IH]; cbn; [reflexivity|].
  destruct (String.eqb w x) eqn:E.
  - apply String.eqb_eq in E. subst x. exfalso. apply Hnot. left. reflexivity.
  - rewrite (Hc x (or_introl eq_refl)). f_equal. apply IH.
    + intros H. apply Hnot. right. exact H.
    + intros u Hu. apply Hc. right. exact Hu.
Qed.

(** The loop that counts the words builds the table of the frequencies over
    the distinct words, as long as no word names an inherited property. *)
Lemma wordCounts_table words :
  (forall w, In w words -> isInherited w = false) ->
  fold_left countWord words empty = table (firstOccurrences words) (frequency words).
Proof.
  induction words as [|w l IH] using rev_ind; intros Hs; [reflexivity|].
  rewrite fold_left_app. cbn [fold_left].
  rewrite IH by (intros u Hu; apply Hs; apply in_or_app; auto).
  destruct (firstOccurrences_spec l) as [Hnd Hin].
  assert (Hw : isInherited w = false) by (apply Hs; apply in_or_app; cbn; auto).
  assert (Hp : String.eqb w "__proto__" = false).
  { destruct (String.eqb w "__proto__") eqn:E; [|reflexivity].
    apply String.eqb_eq in E. subst w. discriminate Hw. }
  unfold countWord. rewrite getOwn_table, firstOccurrences_snoc.
  destruct (includes (firstOccurrences l) w) eqn:E.
  - apply includes_In in E.
    replace (frequency l w + 1)%nat with (frequency (l ++ [w]) w)
      by (rewrite frequency_snoc, String.eqb_refl; reflexivity).
    apply setOwn_table_in; [exact Hnd|exact E|].
    intros u Hne. rewrite frequency_snoc.
    assert (F : String.eqb w u = false) by (apply String.eqb_neq; congruence).
    rewrite F. lia.
  - rewrite Hp, Hw. apply includes_false in E.
    assert (Z0 : frequency l w = 0%nat).
    { unfold frequency. apply count_occ_not_In. intros H. apply E. apply Hin. exact H. }
    replace 1%nat with (frequency (l ++ [w]) w)
      by (rewrite frequency_snoc, String.eqb_refl, Z0; reflexivity).
    apply setOwn_table_new; [exact E|].
    intros u Hu. rewrite frequency_snoc.
    assert (F : String.eqb w u = false).
    { apply String.eqb_neq. intros ->. exact (E Hu). }
    rewrite F. lia.
Qed.

Lemma entries_without_index {V} (o : obj V) :
  (forall kv, In kv o -> isArrayIndex (fst kv) = false) -> entries o = o.
Proof.
  intros H. unfold entries.
  assert (E1 : indexEntries o = []).
  { unfold indexEntries. induction o as [|kv r IH]; [reflexivity|]. cbn.
    pose proof (H kv (or_introl eq_refl)) as Hk. unfold isArrayIndex in Hk.
    destruct (arrayIndex (fst kv)); [discriminate Hk|]. cbn.
    apply IH. intros kv' Hin. apply H. right. exact Hin. }
  rewrite E1. cbn.
  induction o as [|kv r IH]; [reflexivity|]. cbn.
  rewrite (H kv (or_introl eq_refl)). cbn. f_equal.
  apply IH.
  - intros kv' Hin. apply H. right. exact Hin.
  - unfold indexEntries in *. cbn in E1.
    destruct (arrayIndex (fst kv)); [discriminate E1|exact E1].
Qed.

(** *** The sort, level by level *)

Lemma sortsAfter_numeric x y :
  numeric x -> numeric y -> sortsAfter x y = (countOf x <? countOf y)%nat.
Proof.
  intros [n Hn] [m Hm]. unfold sortsAfter, compareFn, countOf. rewrite Hn, Hm.
  destruct (Nat.ltb_spec n m); destruct (Z.ltb_spec 0 (Z.of_nat m - Z.of_nat n)); lia.
Qed.

Lemma levels_S m l : levels (S m) l = level (S m) l ++ levels m l.
Proof. reflexivity. Qed.

Lemma levels_bound m l e : In e (levels m l) -> (1 <= countOf e <= m)%nat /\ In e l.
Proof.
  induction m as [|m IH]; [intros []|].
  rewrite levels_S, in_app_iff. intros [H|H].
  - unfold level in H. apply filter_In in H. destruct H as [Hin E].
    apply Nat.eqb_eq in E. split; [lia|exact Hin].
  - destruct (IH H). split; [lia|assumption].
Qed.

Lemma levels_cons_above m x l :
  (m < countOf x)%nat -> levels m (x :: l) = levels m l.
Proof.
  induction m as [|m IH]; intros H; [reflexivity|].
  rewrite !levels_S, IH by lia. f_equal.
  unfold level. cbn [filter].
  destruct (Nat.eqb_spec (countOf x) (S m)); [lia|reflexivity].
Qed.

Lemma insertSorted_front x l :
  numeric x -> Forall numeric l ->
  (forall e, In e l -> (countOf e <= countOf x)%nat) ->
  insertSorted x l = x :: l.
Proof.
  intros Hx Hl Hle. destruct l as [|y r]; [reflexivity|]. cbn.
  inversion Hl; subst.
  rewrite sortsAfter_numeric by assumption.
  destruct (Nat.ltb_spec (countOf x) (countOf y)); [|reflexivity].
  specialize (Hle y (or_introl eq_refl)). lia.
Qed.

Lemma insertSorted_pass x A B :
  numeric x -> Forall numeric A ->
  (forall e, In e A -> (countOf x < countOf e)%nat) ->
  insertSorted x (A ++ B) = A ++ insertSorted x B.
Proof.
  intros Hx HA Hlt. induction A as [|a A IH]; [reflexivity|]. cbn.
  inversion HA; subst.
  rewrite sortsAfter_numeric by assumption.
  destruct (Nat.ltb_spec (countOf x) (countOf a)).
  - f_equal. apply IH; [assumption|]. intros e He. apply Hlt. right. exact He.
  - specialize (Hlt a (or_introl eq_refl)). lia.
Qed.

Lemma Forall_numeric_levels m l : Forall numeric l -> Forall numeric (levels m l).
Proof.
  intros H. apply Forall_forall. intros e He.
  destruct (levels_bound _ _ _ He) as [_ Hin].
  rewrite Forall_forall in H. apply H. exact Hin.
Qed.

Lemma insertSorted_levels m x l :
  numeric x -> Forall numeric l -> (1 <= countOf x <= m)%nat ->
  insertSorted x (levels m l) = levels m (x :: l).
Proof.
  intros Hx Hl. induction m as [|m IH]; intros Hb; [lia|].
  rewrite !levels_S.
  destruct (Nat.eq_dec (countOf x) (S m)) as [E|NE].
  - rewrite insertSorted_front.
    + unfold level at 2. cbn [filter]. rewrite E, Nat.eqb_refl.
      rewrite levels_cons_above by lia. reflexivity.
    + exact Hx.
    + apply Forall_app. split.
      * apply Forall_forall. intros e He. unfold level in He.
        apply filter_In in He. rewrite Forall_forall in Hl. apply Hl. apply He.
      * apply Forall_numeric_levels. exact Hl.
    + intros e He. apply in_app_or in He. destruct He as [He|He].
      * unfold level in He. apply filter_In in He. destruct He as [_ He].
        apply Nat.eqb_eq in He. lia.
      * destruct (levels_bound _ _ _ He). lia.
  - rewrite insertSorted_pass.
    + rewrite IH by lia. unfold level at 2. cbn [filter].
      destruct (Nat.eqb_spec (countOf x) (S m)); [contradiction|]. reflexivity.
    + exact Hx.
    + apply Forall_forall. intros e He. unfold level in He.
      apply filter_In in He. rewrite Forall_forall in Hl. apply Hl. apply He.
    + intros e He. unfold level in He. apply filter_In in He. destruct He as [_ He].
      apply Nat.eqb_eq in He. lia.
Qed.

Lemma levels_nil m : levels m [] = [].
Proof. induction m as [|m IH]; [reflexivity|]. rewrite levels_S, IH. reflexivity. Qed.

(** Sorting numeric entries lists them level by level, highest count first,
    each level in the order the entries came in. *)
Lemma sortEntries_levels m l :
  Forall numeric l -> (forall e, In e l -> (1 <= countOf e <= m)%nat) ->
  sortEntries l = levels m l.
Proof.
  induction l as [|x l IH]; intros Hn Hb.
  - rewrite levels_nil. reflexivity.
  - inversion Hn; subst. cbn [sortEntries fold_right].
    change (fold_right insertSorted [] l) with (sortEntries l).
    rewrite IH; [|assumption|intros e He; apply Hb; right; exact He].
    apply insertSorted_levels; [assumption|assumption|apply Hb; left; reflexivity].
Qed.

Lemma level_table f L c :
  map fst (level f (table L c)) = filter (fun w => Nat.eqb (c w) f) L.
Proof.
  induction L as [|w L IH]; [reflexivity|].
  unfold level, table in *. cbn [map filter].
  change (countOf (w, Count (c w))) with (c w).
  destruct (Nat.eqb (c w) f); cbn [map fst]; rewrite IH; reflexivity.
Qed.

Lemma levels_table m L c :
  map fst (levels m (table L c)) =
  flat_map (fun f => filter (fun w => Nat.eqb (c w) f) L) (countdown m).
Proof.
  induction m as [|m IH]; [reflexivity|].
  rewrite levels_S, map_app, IH, level_table. reflexivity.
Qed.

End KeywordFacts.


Section EntriesOrder.
Import Permutation.
Context {V : Type}.

Lemma insertIndex_Permutation (x : N * (string * V)) l :
  Permutation (insertIndex x l) (x :: l).
Proof.
  induction l as [|y r IH]; cbn; [reflexivity|].
  destruct (fst x <=? fst y)%N; [reflexivity|].
  rewrite IH. apply perm_swap.
Qed.

Lemma sortedIndex_Permutation (l : list (N * (string * V))) :
  Permutation (fold_right insertIndex [] l) l.
Proof.
  induction l as [|x r IH]; cbn; [reflexivity|].
  rewrite insertIndex_Permutation, IH. reflexivity.
Qed.

Lemma indexEntries_filter (o : obj V) :
  map snd (indexEntries o) = filter (fun kv => isArrayIndex (fst kv)) o.
Proof.
  unfold indexEntries, isArrayIndex.
  induction o as [|kv r IH]; cbn; [reflexivity|].
  destruct (arrayIndex (fst kv)); cbn; rewrite IH; reflexivity.
Qed.

Lemma filter_split {A} (f : A -> bool) (l : list A) :
  Permutation (filter f l ++ filter (fun x => negb (f x)) l) l.
Proof.
  induction l as [|x r IH]; cbn; [reflexivity|].
  destruct (f x); cbn.
  - rewrite IH. reflexivity.
  - rewrite <- Permutation_middle, IH. reflexivity.
Qed.

(** [Object.entries] reorders the own properties and does nothing else. *)
Lemma entries_Permutation (o : obj V) : Permutation (entries o) o.
Proof.
  unfold entries.
  rewrite (Permutation_map snd (sortedIndex_Permutation (indexEntries o))).
  rewrite indexEntries_filter.
  apply (filter_split (fun kv => isArrayIndex (fst kv))).
Qed.

End EntriesOrder.

Section KeywordSet.
Import Permutation.

Lemma insertSorted_Permutation x l : Permutation (insertSorted x l) (x :: l).
Proof.
  induction l as [|y r IH]; cbn; [reflexivity|].
  destruct (sortsAfter x y); [|reflexivity].
  rewrite IH. apply perm_swap.
Qed.

Lemma sortEntries_Permutation l : Permutation (sortEntries l) l.
Proof.
  unfold sortEntries. induction l as [|x r IH]; cbn; [reflexivity|].
  rewrite insertSorted_Permutation, IH. reflexivity.
Qed.

Local Arguments isInherited : simpl never.

Lemma countWord_keys wordCounts word k :
  In k (map fst (countWord wordCounts word)) ->
  In k (map fst wordCounts) \/ (k = word /\ word <> "__proto__"%string).
Proof.
  unfold countWord.
  destruct (getOwn wordCounts word) as [[n|]|] eqn:E.
  - rewrite setOwn_keys_In. intros [->|H]; [|auto].
    left. apply getOwn_Some_In in E. apply (in_map fst) in E. exact E.
  - rewrite setOwn_keys_In. intros [->|H]; [|auto].
    left. apply getOwn_Some_In in E. apply (in_map fst) in E. exact E.
  - destruct (String.eqb word "__proto__") eqn:Ep; [auto|].
    apply String.eqb_neq in Ep.
    destruct (isInherited word); rewrite setOwn_keys_In; intros [->|H]; auto.
Qed.

Lemma countWord_NoDup wordCounts word :
  NoDup (map fst wordCounts) -> NoDup (map fst (countWord wordCounts word)).
Proof.
  intros H. unfold countWord.
  destruct (getOwn wordCounts word) as [[n|]|]; try (apply setOwn_NoDup; exact H).
  destruct (String.eqb word "__proto__"); [exact H|].
  destruct (isInherited word); apply setOwn_NoDup; exact H.
Qed.

Lemma wordCounts_keys words wordCounts k :
  In k (map fst (fold_left countWord words wordCounts)) ->
  In k (map fst wordCounts) \/ (In k words /\ k <> "__proto__"%string).
Proof.
  revert wordCounts. induction words as [|w r IH]; cbn; intros wordCounts H; [auto|].
  apply IH in H. destruct H as [H|[H1 H2]]; [|auto].
  apply countWord_keys in H. destruct H as [H|[-> H]]; auto.
Qed.

Lemma wordCounts_NoDup words wordCounts :
  NoDup (map fst wordCounts) -> NoDup (map fst (fold_left countWord words wordCounts)).
Proof.
  revert wordCounts. induction words as [|w r IH]; cbn; intros wordCounts H; [exact H|].
  apply IH, countWord_NoDup, H.
Qed.

Lemma NoDup_firstn {A} n (l : list A) : NoDup l -> NoDup (firstn n l).
Proof.
  intros H. rewrite <- (firstn_skipn n l) in H.
  apply NoDup_app_remove_r in H. exact H.
Qed.

Lemma In_firstn {A} n (l : list A) x : In x (firstn n l) -> In x l.
Proof.
  intros H. rewrite <- (firstn_skipn n l). apply in_or_app. left. exact H.
Qed.

End KeywordSet.

(** *** The tokens of a text *)

Section TokenFacts.

Lemma classify_spec c :
  match classify c with
  | Separator => isWhiteSpace (toLowerChar c) = true
  | Kept l =>
      l = toLowerChar c /\ isWordChar l = true /\ isWhiteSpace l = false
  | Stripped =>
      isWordChar (toLowerChar c) = false /\ isWhiteSpace (toLowerChar c) = false
  end.
Proof.
  destruct c as [[] [] [] [] [] [] [] []]; vm_compute; repeat split; reflexivity.
Qed.

Lemma filter_filter {A} (f g : A -> bool) l :
  filter f (filter g l) = filter (fun x => g x && f x) l.
Proof.
  induction l as [|x l IH]; cbn; [reflexivity|].
  destruct (g x); cbn; [destruct (f x)|]; rewrite IH; reflexivity.
Qed.

(** Reading the text one code unit at a time gives the pieces of the split
    that are tokens. *)
Lemma tokensFrom_split s :
  forall cur inRun,
    (inRun = true -> cur = EmptyString) ->
    filter isToken (splitFrom cur inRun (stripPunctuation (toLowerCase s)))
    = tokensFrom cur s.
Proof.
  induction s as [|c r IH]; intros cur inRun Hrun.
  - cbn. unfold finish. destruct (isToken cur); reflexivity.
  - cbn [toLowerCase stripPunctuation tokensFrom].
    pose proof (classify_spec c) as Hc.
    destruct (classify c) as [|l|].
    + rewrite Hc, orb_true_r. cbn [splitFrom]. rewrite Hc.
      destruct inRun.
      * rewrite (Hrun eq_refl). cbn [finish app]. apply IH. reflexivity.
      * cbn [filter]. unfold finish.
        destruct (isToken cur); cbn [app]; f_equal; apply IH; reflexivity.
    + destruct Hc as (-> & Hw & Hs). rewrite Hw. cbn [orb splitFrom]. rewrite Hs.
      apply IH. discriminate.
    + destruct Hc as (Hw & Hs). rewrite Hw, Hs. cbn [orb]. apply IH. exact Hrun.
Qed.

(** The words that [extractKeywords] counts are the tokens of the text. *)
Lemma significantWords_specTokens text : significantWords text = specTokens text.
Proof.
  unfold significantWords, specTokens, splitWhiteSpace.
  rewrite filter_filter. apply (tokensFrom_split text EmptyString false). discriminate.
Qed.

End TokenFacts.

(** *** Descending frequency *)

Section RankFacts.
Import Sorted.

Lemma StronglySorted_app_cross {A} (R : A -> A -> Prop) l1 l2 :
  StronglySorted R (l1 ++ l2) -> forall a b, In a l1 -> In b l2 -> R a b.
Proof.
  induction l1 as [|x l1 IH]; intros H a b Ha Hb; [destruct Ha|].
  cbn in H. apply StronglySorted_inv in H. destruct H as [Hs Hf].
  destruct Ha as [<-|Ha].
  - rewrite Forall_forall in Hf. apply Hf. apply in_or_app. right. exact Hb.
  - apply (IH Hs a b Ha Hb).
Qed.

Lemma StronglySorted_app_l {A} (R : A -> A -> Prop) l1 l2 :
  StronglySorted R (l1 ++ l2) -> StronglySorted R l1.
Proof.
  induction l1 as [|x l1 IH]; intros H; [constructor|].
  cbn in H. apply StronglySorted_inv in H. destruct H as [Hs Hf].
  constructor; [apply IH; exact Hs|].
  apply Forall_app in Hf. apply Hf.
Qed.

Lemma StronglySorted_app {A} (R : A -> A -> Prop) l1 l2 :
  StronglySorted R l1 -> StronglySorted R l2 ->
  (forall a b, In a l1 -> In b l2 -> R a b) ->
  StronglySorted R (l1 ++ l2).
Proof.
  induction l1 as [|x l1 IH]; intros H1 H2 Hc; [exact H2|].
  apply StronglySorted_inv in H1. destruct H1 as [Hs Hf].
  cbn. constructor.
  - apply IH; [exact Hs|exact H2|]. intros a b Ha Hb. apply Hc; [right; exact Ha|exact Hb].
  - apply Forall_app. split; [exact Hf|].
    apply Forall_forall. intros b Hb. apply Hc; [left; reflexivity|exact Hb].
Qed.

Lemma StronglySorted_map_In {A B} (f : A -> B) (R : A -> A -> Prop)
    (Q : B -> B -> Prop) l :
  (forall a b, In a l -> In b l -> R a b -> Q (f a) (f b)) ->
  StronglySorted R l -> StronglySorted Q (map f l).
Proof.
  induction l as [|x l IH]; intros Himp H; [constructor|].
  apply StronglySorted_inv in H. destruct H as [Hs Hf].
  cbn. constructor.
  - apply IH; [|exact Hs]. intros a b Ha Hb. apply Himp; right; assumption.
  - apply Forall_forall. intros y Hy. apply in_map_iff in Hy.
    destruct Hy as (b & <- & Hb). rewrite Forall_forall in Hf.
    apply Himp; [left; reflexivity|right; exact Hb|apply Hf; exact Hb].
Qed.

Lemma level_count f l e : In e (level f l) -> countOf e = f.
Proof.
  unfold level. intros H. apply filter_In in H. destruct H as [_ H].
  apply Nat.eqb_eq in H. exact H.
Qed.

Lemma level_sorted f l :
  StronglySorted (fun a b => (countOf b <= countOf a)%nat) (level f l).
Proof.
  assert (H : forall l', (forall e, In e l' -> countOf e = f) ->
              StronglySorted (fun a b => (countOf b <= countOf a)%nat) l').
  { induction l' as [|x l' IH]; intros Hc; constructor.
    - apply IH. intros e He. apply Hc. right. exact He.
    - apply Forall_forall. intros y Hy.
      rewrite (Hc x (or_introl eq_refl)), (Hc y (or_intror Hy)). apply Nat.le_refl. }
  apply H. intros e. apply level_count.
Qed.

(** The levels, from the highest count down, are in descending order of the
    count. *)
Lemma levels_sorted m l :
  StronglySorted (fun a b => (countOf b <= countOf a)%nat) (levels m l).
Proof.
  induction m as [|m IH]; [constructor|].
  rewrite levels_S. apply StronglySorted_app; [apply level_sorted|exact IH|].
  intros a b Ha Hb. apply level_count in Ha. apply levels_bound in Hb. lia.
Qed.

Lemma levels_complete m l e :
  In e l -> (1 <= countOf e <= m)%nat -> In e (levels m l).
Proof.
  induction m as [|m IH]; intros Hin Hc; [lia|].
  rewrite levels_S. apply in_or_app.
  destruct (Nat.eq_dec (countOf e) (S m)) as [E|E].
  - left. unfold level. apply filter_In. split; [exact Hin|].
    apply Nat.eqb_eq. exact E.
  - right. apply IH; [exact Hin|lia].
Qed.

(** When no word names an inherited property the keywords are in descending
    order of frequency, and a word that is left out is no more frequent than
    any of the five that are kept; numerals among the words change nothing
    of this. *)
Lemma keywords_ranked words :
  (forall w, In w words -> isInherited w = false) ->
  descending words
    (map fst (firstn 5 (sortEntries (entries (fold_left countWord words empty)))))
  /\ topFive words
       (map fst (firstn 5 (sortEntries (entries (fold_left countWord words empty))))).
Proof.
  intros H. rewrite (wordCounts_table words H).
  destruct (firstOccurrences_spec words) as [Hnd Hin].
  set (T := table (firstOccurrences words) (frequency words)).
  assert (HE : forall e, In e (entries T) ->
                 exists w, In w words /\ e = (w, Count (frequency words w))).
  { intros e He. apply (proj1 (entries_In _ _)) in He. unfold T, table in He.
    apply in_map_iff in He. destruct He as (w & <- & Hw).
    exists w. split; [apply Hin; exact Hw|reflexivity]. }
  assert (Hb : forall e, In e (entries T) ->
                 (1 <= countOf e <= List.length words)%nat).
  { intros e He. destruct (HE e He) as (w & Hw & ->). unfold countOf. cbn [snd].
    unfold frequency. split.
    - apply (count_occ_In string_dec) in Hw. lia.
    - apply count_occ_bound. }
  rewrite (sortEntries_levels (List.length words)); [|
    apply Forall_forall; intros e He; destruct (HE e He) as (w & _ & ->);
    exists (frequency words w); reflexivity | exact Hb].
  set (S := levels (List.length words) (entries T)).
  assert (HS : forall e, In e S -> countOf e = frequency words (fst e)).
  { intros e He. apply levels_bound in He. destruct He as [_ He].
    destruct (HE e He) as (w & _ & ->). reflexivity. }
  pose proof (levels_sorted (List.length words) (entries T)) as Hsorted.
  fold S in Hsorted. rewrite <- (firstn_skipn 5 S) in Hsorted.
  assert (Hfirst : forall e, In e (firstn 5 S) -> In e S).
  { intros e He. rewrite <- (firstn_skipn 5 S). apply in_or_app. left. exact He. }
  split.
  - unfold descending.
    apply (StronglySorted_map_In fst
             (fun a b => (countOf b <= countOf a)%nat)).
    + intros a b Ha Hb' Hab.
      rewrite <- (HS a (Hfirst a Ha)), <- (HS b (Hfirst b Hb')). exact Hab.
    + apply (StronglySorted_app_l _ _ _ Hsorted).
  - intros w Hw Hnot.
    assert (He : In (w, Count (frequency words w)) S).
    { apply levels_complete.
      - apply (proj2 (entries_In _ _)). unfold T, table. apply in_map_iff.
        exists w. split; [reflexivity|apply Hin; exact Hw].
      - unfold countOf. cbn [snd]. unfold frequency. split.
        + apply (count_occ_In string_dec) in Hw. lia.
        + apply count_occ_bound. }
    rewrite <- (firstn_skipn 5 S) in He. apply in_app_or in He.
    destruct He as [He|He].
    { exfalso. apply Hnot. apply in_map_iff.
      exists (w, Count (frequency words w)). split; [reflexivity|exact He]. }
    split.
    + rewrite length_map. apply firstn_length_le.
      destruct (Nat.le_gt_cases 5 (List.length S)) as [G|G]; [exact G|].
      rewrite skipn_all2 in He by lia. destruct He.
    + intros k Hk. apply in_map_iff in Hk. destruct Hk as (e' & <- & He').
      pose proof (StronglySorted_app_cross _ _ _ Hsorted e' _ He' He) as Hle.
      cbv beta in Hle. rewrite (HS e' (Hfirst e' He')) in Hle. exact Hle.
Qed.

End RankFacts.

(** ** The claim on the keywords *)

(** C8, as the code has it.  The words [extractKeywords] counts are the
    tokens of the text: its runs of letters A-Z and a-z (as small letters),
    digits and underscores between white space, every other code unit
    stripped, those longer than 4 that are no stopword.  It returns at most
    five of them, each once.  When no token names a property that objects
    inherit ([constructor], [__proto__]), the tokens returned are in
    descending order of frequency and no token left out is more frequent than
    one returned.  When, besides, no token is an array index (a numeral such
    as 12345), ties are in the order of first occurrence: the result is the
    first five of the ranking. *)
Theorem C8_keywords_rank_by_frequency :
  forall text,
    significantWords text = specTokens text /\
    (List.length (extractKeywords text) <= 5)%nat /\
    NoDup (extractKeywords text) /\
    (forall k, In k (extractKeywords text) -> In k (specTokens text)) /\
    ((forall w, In w (specTokens text) -> isInherited w = false) ->
     descending (specTokens text) (extractKeywords text) /\
     topFive (specTokens text) (extractKeywords text)) /\
    ((forall w, In w (specTokens text) ->
                isArrayIndex w = false /\ isInherited w = false) ->
     extractKeywords text = specKeywords text).
Proof.
  intros text. pose proof (significantWords_specTokens text) as Htok.
  split; [exact Htok|]. rewrite <- Htok. split; [|split; [|split; [|split]]].
  - unfold extractKeywords. rewrite length_map. apply firstn_le_length.
  - unfold extractKeywords. rewrite <- firstn_map. apply NoDup_firstn.
    apply (Permutation.Permutation_NoDup
             (l := map fst (fold_left countWord (significantWords text) empty))).
    + apply Permutation.Permutation_sym. apply Permutation.Permutation_map.
      apply (Permutation.perm_trans (sortEntries_Permutation _)).
      apply entries_Permutation.
    + apply wordCounts_NoDup. constructor.
  - intros k Hk. unfold extractKeywords in Hk. rewrite <- firstn_map in Hk.
    apply In_firstn in Hk.
    apply (Permutation.Permutation_in
             (l' := map fst (fold_left countWord (significantWords text) empty))) in Hk.
    + apply wordCounts_keys in Hk. destruct Hk as [[]|[Hk _]]. exact Hk.
    + apply Permutation.Permutation_map.
      apply (Permutation.perm_trans (sortEntries_Permutation _)).
      apply entries_Permutation.
  - intros H. apply keywords_ranked. exact H.
  - intros H. unfold extractKeywords, specKeywords, rankByFrequency.
    rewrite <- Htok.
    set (words := significantWords text) in *.
    rewrite wordCounts_table by (intros w Hw; apply H; exact Hw).
    destruct (firstOccurrences_spec words) as [Hnd Hin].
    rewrite entries_without_index.
    2:{ intros kv Hkv. unfold table in Hkv. apply in_map_iff in Hkv.
        destruct Hkv as (w & <- & Hw). cbn. apply H. apply Hin. exact Hw. }
    rewrite <- firstn_map.
    rewrite (sortEntries_levels (List.length words)).
    + rewrite levels_table. reflexivity.
    + apply Forall_forall. intros e He. unfold table in He.
      apply in_map_iff in He. destruct He as (w & <- & _). exists (frequency words w).
      reflexivity.
    + intros e He. unfold table in He. apply in_map_iff in He.
      destruct He as (w & <- & Hw). unfold countOf. cbn [snd].
      apply Hin in Hw. unfold frequency. split.
      * apply (count_occ_In string_dec) in Hw. lia.
      * apply count_occ_bound.
Qed.

(** C8 fails as stated: [hello] occurs before [12345], both once, and the
    numeral comes out first. *)
Lemma C8_counterexample :
  extractKeywords "hello 12345" = ["12345"; "hello"]%string /\
  specKeywords "hello 12345" = ["hello"; "12345"]%string.
Proof. vm_compute. split; reflexivity. Qed.

Lemma C8_witness :
  (descending (specTokens "hello 12345 hello") (extractKeywords "hello 12345 hello")
   /\ extractKeywords "hello 12345 hello" = ["hello"; "12345"]%string)
  /\
  (extractKeywords "Zebra zebra alpha gamma gamma gamma delta epsilon omega"
   = specKeywords "Zebra zebra alpha gamma gamma gamma delta epsilon omega"
   /\ specKeywords "Zebra zebra alpha gamma gamma gamma delta epsilon omega"
      = ["gamma"; "zebra"; "alpha"; "delta"; "epsilon"]%string).
Proof.
  split; split.
  - apply (proj1 (proj2 (proj2 (proj2 (proj2
             (C8_keywords_rank_by_frequency "hello 12345 hello")))))).
    intros w Hw. vm_compute in Hw.
    repeat (destruct Hw as [<-|Hw]; [reflexivity|]). destruct Hw.
  - vm_compute. reflexivity.
  - apply (proj2 (proj2 (proj2 (proj2 (proj2
             (C8_keywords_rank_by_frequency
                "Zebra zebra alpha gamma gamma gamma delta epsilon omega")))))).
    intros w Hw. vm_compute in Hw.
    repeat (destruct Hw as [<-|Hw]; [split; reflexivity|]). destruct Hw.
  - vm_compute. reflexivity.
Defined.

(** ** The claims *)

Section Claims.
Context {collaborators : Collaborators}.
Local Arguments isInherited : simpl never.
Local Arguments extractKeywords : simpl never.
Local Arguments binary64 : simpl never.

(** C5.  For every submission that [processThought] answers with a success
    body, the body's [totalThoughts] is the larger of the two submitted
    numbers, hence at least the submitted [thoughtNumber]; and a submission
    with [thoughtNumber = 6] and [totalThoughts = 5] whose stages return is
    answered with [totalThoughts = 6]. *)
Theorem C5_totalThoughts_covers_thoughtNumber :
  (forall input this body this',
      processThought input this = (Success body, this') ->
      exists n t,
        in_thoughtNumber input = JNumber n /\
        in_totalThoughts input = JNumber t /\
        r_thoughtNumber body = n /\
        r_totalThoughts body = Z.max n t /\
        (n <= r_totalThoughts body)%Z)
  /\
  (forall input this v,
      in_thoughtNumber input = JNumber 6 ->
      in_totalThoughts input = JNumber 5 ->
      enrich input this = (Normal v, this) ->
      rendersCleanly (thoughtHistory this ++ [v]) = true ->
      exists body this',
        processThought input this = (Success body, this') /\
        r_totalThoughts body = 6%Z).
Proof.
  split.
  - intros input this body this' H.
    destruct (processThought_Success _ _ _ _ H) as (v & He & _ & _ & ->).
    destruct (enrich_Normal _ _ _ _ He) as (_ & v0 & Hv & _ & Hn & Ht & _).
    destruct (validate_Normal _ _ Hv) as (_ & _ & Hin & _ & Hit & _).
    exists (thoughtNumber v0), (totalThoughts v0). cbn.
    rewrite Hn, Ht. repeat split; auto. lia.
  - intros input this v Hn Ht He Hc.
    destruct (enrich_Normal _ _ _ _ He) as (_ & v0 & Hv & _ & Hn' & Ht' & _).
    destruct (validate_Normal _ _ Hv) as (_ & _ & Hin & _ & Hit & _).
    rewrite Hn in Hin. rewrite Ht in Hit. inversion Hin. inversion Hit.
    assert (Hpos : (0 < thoughtNumber v)%Z) by lia.
    eexists. eexists. split.
    + apply (processThought_returns _ _ _ He Hc Hpos).
    + cbn. lia.
Qed.


(** C10.  When a submission without [complexity] is answered with a success
    body, the record has been appended to the history and the body's
    [complexity] is read off the state that holds it: [complex] with more
    than 10 thoughts or more than 2 branches, else [medium] with more than 5
    thoughts, more than 1 revision or at least one branch, else [simple]. *)
Theorem C10_complexity_is_estimated_after_storing :
  forall input this body this',
    processThought input this = (Success body, this') ->
    in_complexity input = None ->
    (exists v, thoughtHistory this' = thoughtHistory this ++ [v]) /\
    r_complexity body =
      (let thoughtCount := List.length (thoughtHistory this') in
       let revisionCount :=
         List.length (filter (fun t => truthyBool (isRevision t)) (thoughtHistory this')) in
       let branchCount := List.length (keys (branches this')) in
       if (10 <? thoughtCount)%nat || (2 <? branchCount)%nat then complex
       else if (5 <? thoughtCount)%nat || (1 <? revisionCount)%nat
               || (0 <? branchCount)%nat then medium
       else simple).
Proof.
  intros input this body this' H Hc.
  destruct (processThought_Success _ _ _ _ H) as (v & He & _ & Hst & ->).
  destruct (enrich_Normal _ _ _ _ He) as (_ & v0 & Hv & Hfields).
  destruct Hfields as (_ & _ & _ & _ & _ & _ & _ & _ & _ & Hcx & _).
  destruct (validate_Normal _ _ Hv) as (_ & _ & _ & _ & _ & _ & _ & _ & _ & _ & _ & _ & Hcx0 & _).
  split.
  - exists v. rewrite Hst. reflexivity.
  - cbn [respond r_complexity]. rewrite Hcx, Hcx0, Hc. reflexivity.
Qed.

Lemma rejects_as_validate (v : JSValue) (ty : string) :
  negb (truthy v) || negb (String.eqb (typeof v) ty)
  = negb (String.eqb (typeof v) ty && truthy v).
Proof. destruct (truthy v), (String.eqb (typeof v) ty); reflexivity. Qed.

Lemma validate_firstMissing input f :
  firstMissing input = Some f ->
  validateThoughtData input =
  Throw (JsError ("Invalid " ++ fieldName f ++ ": must be a " ++ expectedType f)).
Proof.
  unfold firstMissing, requiredFields, validateThoughtData. cbn [find].
  rewrite !rejects_as_validate.
  unfold present. cbn [fieldValue expectedType].
  rewrite !andb_true_r.
  destruct (String.eqb (typeof (in_thought input)) "string" && truthy (in_thought input));
    cbn [negb]; [|intros H; inversion H; reflexivity].
  destruct (String.eqb (typeof (in_thoughtNumber input)) "number"
            && truthy (in_thoughtNumber input));
    cbn [negb]; [|intros H; inversion H; reflexivity].
  destruct (String.eqb (typeof (in_totalThoughts input)) "number"
            && truthy (in_totalThoughts input));
    cbn [negb]; [|intros H; inversion H; reflexivity].
  destruct (String.eqb (typeof (in_nextThoughtNeeded input)) "boolean");
    cbn [negb]; [|intros H; inversion H; reflexivity].
  discriminate.
Qed.

(** C3.  When a required field is missing or mistyped, [processThought]
    returns the error body with status ["failed"], its message naming the
    first such field in the order of the checks, marks the result as an
    error, and leaves the server as it was.  Nothing is thrown: the function
    is total.  An omitted field is [JUndefined], so its type is never the
    expected one. *)
Theorem C3_invalid_input_is_reported :
  forall input this f,
    firstMissing input = Some f ->
    processThought input this =
      (Failure {| e_error := "Invalid " ++ fieldName f ++ ": must be a " ++ expectedType f;
                  e_status := "failed" |},
       this)
    /\ isError (fst (processThought input this)) = true
    /\ contains (fieldName f) (e_error
         (match fst (processThought input this) with
          | Failure b => b
          | Success _ => {| e_error := ""; e_status := "" |}
          end)) = true.
Proof.
  intros input this f Hf.
  pose proof (validate_firstMissing _ _ Hf) as Hv.
  pose proof (processThought_invalid _ _ _ (enrich_validate_Throw _ this _ Hv)) as Hp.
  rewrite Hp. cbn [fst isError messageOf e_error].
  repeat split. destruct f; reflexivity.
Qed.

(** A field that is absent, or of another type than expected, is missing in
    the sense of [firstMissing] once the fields before it are present. *)
Lemma mistyped_is_firstMissing input f :
  String.eqb (typeof (fieldValue f input)) (expectedType f) = false ->
  (forall g, In g (firstn (match f with
                           | f_thought => 0 | f_thoughtNumber => 1
                           | f_totalThoughts => 2 | f_nextThoughtNeeded => 3
                           end) requiredFields) -> present g input = true) ->
  firstMissing input = Some f.
Proof.
  intros Hty Hbefore. unfold firstMissing, requiredFields.
  assert (Hf : present f input = false) by (unfold present; rewrite Hty; reflexivity).
  destruct f; cbn [find firstn] in *.
  - rewrite Hf. reflexivity.
  - rewrite (Hbefore f_thought) by (cbn; auto). cbn. rewrite Hf. reflexivity.
  - rewrite (Hbefore f_thought), (Hbefore f_thoughtNumber) by (cbn; auto).
    cbn. rewrite Hf. reflexivity.
  - rewrite (Hbefore f_thought), (Hbefore f_thoughtNumber), (Hbefore f_totalThoughts)
      by (cbn; auto).
    cbn. rewrite Hf. reflexivity.
Qed.

End Claims.


Lemma C3_witness :
  @processThought quiet
    (submission (JString "x") (JNumber 1) (JNumber 3) JUndefined None None) fresh
  = (Failure {| e_error := "Invalid nextThoughtNeeded: must be a boolean";
                e_status := "failed" |}, fresh).
Proof.
  exact (proj1 (@C3_invalid_input_is_reported quiet
                  (submission (JString "x") (JNumber 1) (JNumber 3) JUndefined None None)
                  fresh f_nextThoughtNeeded eq_refl)).
Defined.

Section QualityFacts.
Context {collaborators : Collaborators}.
Local Arguments binary64 : simpl never.



End QualityFacts.

Section Claims2.
Context {collaborators : Collaborators}.
Local Arguments isInherited : simpl never.
Local Arguments extractKeywords : simpl never.
Local Arguments binary64 : simpl never.




End Claims2.





Section ProgressFacts.
Local Open Scope Q_scope.

Lemma Math_round_mono x y : x <= y -> (Math_round x <= Math_round y)%Z.
Proof. intros H. unfold Math_round. apply Qfloor_resp_le. lra. Qed.

Lemma fraction_mono (n1 n2 t : Z) :
  (0 < n1 <= n2)%Z -> (0 < t)%Z ->
  inject_Z n1 / inject_Z (Z.max n1 t) <= inject_Z n2 / inject_Z (Z.max n2 t).
Proof.
  intros Hn Ht.
  assert (H1 : (0 < Z.max n1 t)%Z) by lia.
  assert (H2 : (0 < Z.max n2 t)%Z) by lia.
  assert (Q1 : 0 < inject_Z (Z.max n1 t)) by (rewrite <- (Zlt_Qlt 0); exact H1).
  assert (Q2 : 0 < inject_Z (Z.max n2 t)) by (rewrite <- (Zlt_Qlt 0); exact H2).
  apply Qle_shift_div_l; [exact Q2|].
  unfold Qdiv. rewrite <- Qmult_assoc, (Qmult_comm (/ _)), Qmult_assoc.
  apply Qle_shift_div_r; [exact Q1|].
  rewrite <- !inject_Z_mult, <- Zle_Qle.
  destruct (Z.max_spec n1 t) as [[? ->]|[? ->]];
    destruct (Z.max_spec n2 t) as [[? ->]|[? ->]]; nia.
Qed.

Lemma percentage_mono (n1 n2 t : Z) :
  (0 < n1 <= n2)%Z -> (0 < t)%Z ->
  (percentage n1 (Z.max n1 t) <= percentage n2 (Z.max n2 t))%Z.
Proof.
  intros Hn Ht. unfold percentage. apply Math_round_mono.
  unfold fmul, fdiv. apply binary64_mono.
  apply Qmult_le_compat_r; [|discriminate].
  apply binary64_mono. apply fraction_mono; assumption.
Qed.

End ProgressFacts.

Section Claims3.
Context {collaborators : Collaborators}.
Local Arguments isInherited : simpl never.
Local Arguments extractKeywords : simpl never.
Local Arguments binary64 : simpl never.

Lemma processThought_progress input this body this' :
  processThought input this = (Success body, this') ->
  exists n t,
    in_thoughtNumber input = JNumber n /\
    in_totalThoughts input = JNumber t /\
    r_progress body = (Number.toString (percentage n (Z.max n t)) ++ "%")%string.
Proof.
  intros H.
  destruct (processThought_Success _ _ _ _ H) as (v & He & _ & _ & ->).
  destruct (enrich_Normal _ _ _ _ He) as (_ & v0 & Hv & _ & Hn & Ht & _).
  destruct (validate_Normal _ _ Hv) as (_ & _ & Hin & _ & Hit & _).
  exists (thoughtNumber v0), (totalThoughts v0).
  repeat split; auto.
  cbn [respond r_progress]. unfold progressOf, percentage. rewrite Hn, Ht. reflexivity.
Qed.

(** C9, as the code has it.  The progress text of a success body is
    [Math.round] of the binary64 product [(thoughtNumber / totalThoughts) *
    100], with [totalThoughts] raised to [thoughtNumber] when it was smaller,
    followed by a percent sign.  For two accepted submissions with the same
    positive declared total and positive numbers [n1 <= n2] the percentage of
    the second is not below that of the first.  Thought 1 of 5 with no phase,
    when the stages return, is answered with phase Planning and progress
    20%. *)
Theorem C9_progress_is_rounded_in_binary64_and_monotone :
  (forall input this body this',
      processThought input this = (Success body, this') ->
      exists n t,
        in_thoughtNumber input = JNumber n /\
        in_totalThoughts input = JNumber t /\
        r_progress body =
          (Number.toString
             (Math_round (fmul (fdiv (inject_Z n) (inject_Z (Z.max n t))) 100))
           ++ "%")%string)
  /\
  (forall input1 input2 this1 this2 body1 body2 this1' this2' n1 n2 t,
      processThought input1 this1 = (Success body1, this1') ->
      processThought input2 this2 = (Success body2, this2') ->
      in_thoughtNumber input1 = JNumber n1 ->
      in_thoughtNumber input2 = JNumber n2 ->
      in_totalThoughts input1 = JNumber t ->
      in_totalThoughts input2 = JNumber t ->
      (0 < n1 <= n2)%Z -> (0 < t)%Z ->
      exists p1 p2,
        r_progress body1 = (Number.toString p1 ++ "%")%string /\
        r_progress body2 = (Number.toString p2 ++ "%")%string /\
        (p1 <= p2)%Z)
  /\
  (forall input this v,
      in_thoughtNumber input = JNumber 1 ->
      in_totalThoughts input = JNumber 5 ->
      in_phase input = None ->
      enrich input this = (Normal v, this) ->
      rendersCleanly (thoughtHistory this ++ [v]) = true ->
      exists body this',
        processThought input this = (Success body, this') /\
        r_phase body = Planning /\
        r_progress body = "20%"%string).
Proof.
  split; [|split].
  - intros input this body this' H.
    exact (processThought_progress _ _ _ _ H).
  - intros input1 input2 this1 this2 body1 body2 this1' this2' n1 n2 t
      H1 H2 Hn1 Hn2 Ht1 Ht2 Hn Ht.
    destruct (processThought_progress _ _ _ _ H1) as (a1 & b1 & A1 & B1 & P1).
    destruct (processThought_progress _ _ _ _ H2) as (a2 & b2 & A2 & B2 & P2).
    rewrite Hn1 in A1; rewrite Ht1 in B1; rewrite Hn2 in A2; rewrite Ht2 in B2.
    inversion A1; inversion B1; inversion A2; inversion B2; subst.
    eexists. eexists. split; [exact P1|]. split; [exact P2|].
    apply percentage_mono; assumption.
  - intros input this v Hn Ht Hp He Hc.
    destruct (enrich_Normal _ _ _ _ He)
      as (_ & v0 & Hv & _ & Hn' & Ht' & _ & _ & _ & _ & Hph & _).
    destruct (validate_Normal _ _ Hv)
      as (_ & _ & Hin & _ & Hit & _ & _ & _ & _ & _ & Hp0 & _).
    rewrite Hn in Hin. rewrite Ht in Hit. inversion Hin as [E1]. inversion Hit as [E2].
    assert (Hpos : (0 < thoughtNumber v)%Z) by lia.
    eexists. eexists. split; [apply (processThought_returns _ _ _ He Hc Hpos)|].
    cbn [respond r_phase r_progress]. rewrite Hph. unfold phaseOf.
    rewrite Hp0, Hp, <- E1. split; [reflexivity|].
    unfold progressOf. rewrite Hn', Ht', <- E1, <- E2. vm_compute. reflexivity.
Qed.

End Claims3.

(** C9 fails as stated: thought 23 of 40 is answered with 57%, while the
    exact quotient 57.5 rounds to 58. *)
Lemma C9_counterexample :
  option_map r_progress
    (successBody (fst (@processThought quiet (request "x" 23 40) fresh)))
  = Some "57%"%string /\
  specProgress 23 40 = "58%"%string.
Proof. vm_compute. split; reflexivity. Qed.


(** C4 at the failing input: the call is answered with the error body, and the
    record is in the history all the same. *)
Lemma C4_error_after_append :
  fst (@processThought quiet branchNamedConstructor fresh)
  = Failure {| e_error := "this.branches[validatedInput.branchId].push is not a function";
               e_status := "failed" |} /\
  thoughtHistory fresh = [] /\
  map thoughtNumber
    (thoughtHistory (snd (@processThought quiet branchNamedConstructor fresh)))
  = [1%Z] /\
  branches (snd (@processThought quiet branchNamedConstructor fresh)) = [].
Proof. vm_compute. repeat split; reflexivity. Qed.

Lemma C5_witness :
  (exists n t,
      in_thoughtNumber (request "x" 6 5) = JNumber n /\
      in_totalThoughts (request "x" 6 5) = JNumber t /\
      (n <= Z.max n t)%Z)
  /\
  (exists body this',
      @processThought quiet (request "x" 6 5) fresh = (Success body, this') /\
      r_totalThoughts body = 6%Z).
Proof.
  split.
  - eassert (E : @processThought quiet (request "x" 6 5) fresh = _)
      by (vm_compute; reflexivity).
    destruct (proj1 (@C5_totalThoughts_covers_thoughtNumber quiet) _ _ _ _ E)
      as (n & t & Hn & Ht & _ & Hm & Hle).
    exists n, t. rewrite <- Hm. split; [exact Hn|split; [exact Ht|exact Hle]].
  - eapply (proj2 (@C5_totalThoughts_covers_thoughtNumber quiet)
              (request "x" 6 5) fresh).
    + reflexivity.
    + reflexivity.
    + vm_compute. reflexivity.
    + vm_compute. reflexivity.
Defined.



Lemma C9_witness :
  (exists p1 p2,
      option_map r_progress
        (successBody (fst (@processThought quiet (request "x" 2 5) fresh)))
      = Some (Number.toString p1 ++ "%")%string /\
      option_map r_progress
        (successBody (fst (@processThought quiet (request "y" 3 5) fresh)))
      = Some (Number.toString p2 ++ "%")%string /\
      (p1 <= p2)%Z)
  /\
  (exists body this',
      @processThought quiet (request "Plan the approach to sort a list" 1 5) initialised
      = (Success body, this') /\
      r_phase body = Planning /\
      r_progress body = "20%"%string).
Proof.
  split.
  - eassert (E1 : @processThought quiet (request "x" 2 5) fresh = _)
      by (vm_compute; reflexivity).
    eassert (E2 : @processThought quiet (request "y" 3 5) fresh = _)
      by (vm_compute; reflexivity).
    destruct (proj1 (proj2 (@C9_progress_is_rounded_in_binary64_and_monotone quiet))
                _ _ _ _ _ _ _ _ 2%Z 3%Z 5%Z E1 E2 eq_refl eq_refl eq_refl eq_refl)
      as (p1 & p2 & H1 & H2 & Hle); [lia|lia|].
    exists p1, p2. rewrite E1, E2. cbn [fst successBody option_map].
    rewrite H1, H2. split; [reflexivity|split; [reflexivity|exact Hle]].
  - eapply (proj2 (proj2 (@C9_progress_is_rounded_in_binary64_and_monotone quiet))
              (request "Plan the approach to sort a list" 1 5) initialised).
    + reflexivity.
    + reflexivity.
    + reflexivity.
    + vm_compute. reflexivity.
    + vm_compute. reflexivity.
Defined.


Lemma C10_witness :
  exists body this',
    @processThought quiet (request "x" 1 3) fresh = (Success body, this') /\
    r_complexity body = simple.
Proof.
  eassert (E : @processThought quiet (request "x" 1 3) fresh = _)
    by (vm_compute; reflexivity).
  eexists. eexists. split; [exact E|].
  destruct (@C10_complexity_is_estimated_after_storing quiet _ _ _ _ E eq_refl)
    as [_ H].
  rewrite H. vm_compute. reflexivity.
Defined.

Module HardwareCheck.
Import PrimFloat.

(** The model's rounding agrees with the machine's binary64 arithmetic on
    the quotients used above. *)
Example binary64_matches_hardware :
  map (fun f => match FloatOps.Prim2SF f with
                | SpecFloat.S754_finite s m e =>
                    Qred ((if s then -1 else 1) * inject_Z (Zpos m) * pow2 e)
                | _ => 0
                end)
    [ (23 / 40 * 100)%float; (29 / 200 * 100)%float; (1 / 5 * 100)%float;
      (3 / 3)%float; (10 / 3)%float; (-1 / 5 * 100)%float ]
  = [ fmul (fdiv 23 40) 100; fmul (fdiv 29 200) 100; fmul (fdiv 1 5) 100;
      fdiv 3 3; fdiv 10 3; fmul (fdiv (-1) 5) 100 ].
Proof. vm_compute. reflexivity. Qed.

End HardwareCheck.

(** * Further properties *)

Import Permutation.
Import Methods Measures Scenarios.


(** ** Further properties of the pipeline *)

Section Binary64Sign.
Local Open Scope Q_scope.





End Binary64Sign.

Section PipelineExtras.
Context {collaborators : Collaborators}.
Local Arguments isInherited : simpl never.
Local Arguments extractKeywords : simpl never.
Local Arguments binary64 : simpl never.

(** *** The store only grows *)

Lemma runAll_snoc inputs input this :
  runAll (inputs ++ [input]) this = snd (processThought input (runAll inputs this)).
Proof. unfold runAll. rewrite fold_left_app. reflexivity. Qed.

Lemma reachable_runAll inputs :
  forall this, reachable this -> reachable (runAll inputs this).
Proof.
  induction inputs as [|input inputs IH]; intros this H; [exact H|].
  apply (IH (snd (processThought input this))). apply reachable_call. exact H.
Qed.

(** X1.  For every sequence of calls the history before is a prefix of the
    history after, with at most one more record per call; the prompt context
    is left alone. *)
Theorem history_is_append_only :
  forall inputs this,
    exists added,
      thoughtHistory (runAll inputs this) = thoughtHistory this ++ added /\
      (List.length added <= List.length inputs)%nat /\
      promptContext (runAll inputs this) = promptContext this.
Proof.
  induction inputs as [|input inputs IH] using rev_ind; intros this.
  - exists []. cbn. rewrite app_nil_r. auto.
  - destruct (IH this) as (added & Hh & Hl & Hc).
    rewrite runAll_snoc, processThought_state.
    destruct (enrich input (runAll inputs this)) as [[v|e] s].
    + exists (added ++ [v]). unfold afterStore. cbn [thoughtHistory promptContext].
      rewrite Hh, app_assoc, !length_app. cbn. repeat split; [lia|exact Hc].
    + exists added. rewrite length_app. cbn. repeat split; [exact Hh|lia|exact Hc].
Qed.

(** X2.  A call answered with a success body has stored exactly one record,
    the last of the history, and that record repeats the number and the
    (raised) total of the body. *)
Theorem success_stores_one_record :
  forall input this body this',
    processThought input this = (Success body, this') ->
    exists v,
      thoughtHistory this' = thoughtHistory this ++ [v] /\
      thoughtNumber v = r_thoughtNumber body /\
      totalThoughts v = r_totalThoughts body /\
      phase v = Some (r_phase body) /\
      r_branches body = keys (branches this').
Proof.
  intros input this body this' H.
  destruct (processThought_Success _ _ _ _ H) as (v & He & _ & Hst & ->).
  destruct (enrich_Normal _ _ _ _ He) as (_ & v0 & _ & _ & _ & _ & _ & _ & _ & _ & Hp & _).
  exists v. rewrite Hst. cbn [afterStore thoughtHistory respond r_thoughtNumber
                             r_totalThoughts r_phase r_branches].
  rewrite Hp. repeat split; reflexivity.
Qed.

(** *** Errors before the append *)




(** [store], stage by stage. *)
Lemma store_unfold v this :
  store v this =
  match (if bucketed v
         then pushToBranch "this.branches[validatedInput.branchId]"
                (branches this) (branchKey v) v
         else Normal (branches this)) with
  | Throw e =>
      (Throw e, {| thoughtHistory := thoughtHistory this ++ [v];
                   branches := branches this;
                   promptContext := promptContext this |})
  | Normal buckets =>
      let this1 := {| thoughtHistory := thoughtHistory this ++ [v];
                      branches := buckets;
                      promptContext := promptContext this |} in
      match generateDependencyGraph (thoughtHistory this ++ [v]) with
      | Throw e => (Throw e, this1)
      | Normal _ =>
          match createProgressBar (progressOf v) with
          | Throw e => (Throw e, this1)
          | Normal _ => (Normal (respond v (progressOf v) this1), this1)
          end
      end
  end.
Proof.
  unfold store, bind, pushHistory, handleBranching, lift, get, put, ret.
  cbn [thoughtHistory branches promptContext].
  fold (bucketed v). fold (branchKey v). fold (progressOf v).
  destruct (bucketed v); cbn.
  - destruct (pushToBranch _ _ _ _) as [b|e]; cbn; [|reflexivity].
    destruct (generateDependencyGraph _) as [u|e]; cbn; [|reflexivity].
    destruct (createProgressBar _) as [c|e]; [|reflexivity].
    destruct this; reflexivity.
  - destruct (generateDependencyGraph _) as [u|e]; cbn; [|destruct this; reflexivity].
    destruct (createProgressBar _) as [c|e]; destruct this; reflexivity.
Qed.

(** *** Branch ids that name inherited properties *)

Lemma groupThoughtsFrom_poisoned thoughts :
  rendersCleanly thoughts = false ->
  forall buckets,
    (forall k, isInherited k = true -> getOwn buckets k = None) ->
    groupThoughtsFrom buckets thoughts =
    Throw (TypeError "branches[thought.branchId].push is not a function").
Proof.
  induction thoughts as [|t rest IH]; intros Hc buckets Hb; [discriminate Hc|].
  cbn [rendersCleanly forallb] in Hc. cbn [groupThoughtsFrom].
  unfold branchKey in Hc.
  destruct (truthyString (branchId t)) eqn:Et.
  - unfold pushToBranch.
    destruct (isInherited (match branchId t with Some id => id | None => EmptyString end))
      eqn:Ei.
    + rewrite (Hb _ Ei). reflexivity.
    + cbn in Hc.
      assert (Hb' : forall v k, isInherited k = true ->
                getOwn (setOwn buckets
                          (match branchId t with Some id => id | None => EmptyString end) v) k
                = None).
      { intros v k Hk. rewrite getOwn_setOwn_neq; [apply Hb; exact Hk|].
        intros ->. congruence. }
      destruct (getOwn buckets _); apply IH; auto.
  - cbn in Hc. apply IH; assumption.
Qed.

Lemma generateDependencyGraph_poisoned thoughts :
  rendersCleanly thoughts = false ->
  generateDependencyGraph thoughts =
  Throw (TypeError "branches[thought.branchId].push is not a function").
Proof.
  intros H. unfold generateDependencyGraph, groupThoughtsByBranch.
  rewrite (groupThoughtsFrom_poisoned _ H); [reflexivity|reflexivity].
Qed.

Lemma rendersCleanly_app l l' :
  rendersCleanly (l ++ l') = rendersCleanly l && rendersCleanly l'.
Proof. unfold rendersCleanly. apply forallb_app. Qed.

(** X4.  Once a stored record has a [branchId] that names an inherited
    property, every later call is answered with an error, whatever the
    request, and the history stays in that condition. *)
Theorem inherited_branch_id_poisons_the_server :
  forall input this,
    rendersCleanly (thoughtHistory this) = false ->
    isError (fst (processThought input this)) = true /\
    rendersCleanly (thoughtHistory (snd (processThought input this))) = false.
Proof.
  intros input this Hc. split.
  - unfold processThought, tryBlock, bind.
    pose proof (enrich_state input this) as Hs.
    destruct (enrich input this) as [[v|e] s]; cbn in Hs; subst s; [|reflexivity].
    destruct (store v this) as [[body|e] s'] eqn:Es; [|reflexivity].
    destruct (store_Normal _ _ _ _ Es) as (_ & _ & Hg & _).
    rewrite generateDependencyGraph_poisoned in Hg; [discriminate Hg|].
    rewrite rendersCleanly_app, Hc. reflexivity.
  - rewrite processThought_state.
    destruct (enrich input this) as [[v|e] s]; [|exact Hc].
    unfold afterStore. cbn [thoughtHistory]. rewrite rendersCleanly_app, Hc. reflexivity.
Qed.

(** X5.  A valid request whose [branchFromThought] is set and whose [branchId]
    names an inherited property is answered with the error body of a
    [TypeError], after its record has been appended to the history; the
    buckets stay as they were. *)
Theorem inherited_branch_id_is_stored_and_reported :
  forall input this v,
    reachable this ->
    enrich input this = (Normal v, this) ->
    bucketed v = true ->
    isInherited (branchKey v) = true ->
    processThought input this =
    (Failure {| e_error := "this.branches[validatedInput.branchId].push is not a function";
                e_status := "failed" |},
     {| thoughtHistory := thoughtHistory this ++ [v];
        branches := branches this;
        promptContext := promptContext this |}).
Proof.
  intros input this v Hr He Hb Hi.
  pose proof (reachable_invariant this Hr) as [_ _ Hinv].
  assert (Hnone : getOwn (branches this) (branchKey v) = None).
  { rewrite Hinv.
    assert (E : forall l, filter (inBucket (branchKey v)) l = []).
    { induction l as [|x l IH]; [reflexivity|]. cbn. unfold inBucket at 1.
      rewrite Hi, andb_false_r. exact IH. }
    rewrite E. reflexivity. }
  unfold processThought, tryBlock, bind. rewrite He, store_unfold, Hb.
  unfold pushToBranch. rewrite Hnone, Hi. reflexivity.
Qed.

(** *** Numbers below zero *)





(** *** The estimate of the complexity *)

Lemma insertIndex_length {V} (x : N * (string * V)) l :
  List.length (insertIndex x l) = S (List.length l).
Proof.
  induction l as [|y r IH]; cbn; [reflexivity|].
  destruct (fst x <=? fst y)%N; cbn; [reflexivity|rewrite IH; reflexivity].
Qed.

Lemma entries_length {V} (o : obj V) : List.length (entries o) = List.length o.
Proof.
  unfold entries. rewrite length_app, length_map.
  assert (H : forall l : list (N * (string * V)),
             List.length (fold_right insertIndex [] l) = List.length l).
  { induction l as [|x l IH]; cbn; [reflexivity|]. rewrite insertIndex_length, IH. reflexivity. }
  rewrite H. unfold indexEntries, isArrayIndex.
  induction o as [|kv r IH]; cbn; [reflexivity|].
  destruct (arrayIndex (fst kv)); cbn; rewrite ?length_app; cbn; lia.
Qed.

Lemma keys_length {V} (o : obj V) : List.length (keys o) = List.length o.
Proof. unfold keys. rewrite length_map. apply entries_length. Qed.

Lemma setOwn_length {V} (o : obj V) k v :
  (List.length o <= List.length (setOwn o k v))%nat.
Proof.
  induction o as [|[k' v'] r IH]; cbn; [lia|].
  destruct (String.eqb k k'); cbn; lia.
Qed.

Lemma estimate_rank (n r b : nat) :
  let c := if (10 <? n)%nat || (2 <? b)%nat then complex
           else if (5 <? n)%nat || (1 <? r)%nat || (0 <? b)%nat then medium
           else simple in
  (2 <= complexityRank c <-> 10 < n \/ 2 < b)%nat /\
  (1 <= complexityRank c <-> 5 < n \/ 1 < r \/ 0 < b)%nat.
Proof.
  cbv zeta.
  destruct (Nat.ltb_spec 10 n); destruct (Nat.ltb_spec 2 b);
    destruct (Nat.ltb_spec 5 n); destruct (Nat.ltb_spec 1 r);
    destruct (Nat.ltb_spec 0 b); cbn; split; split; lia.
Qed.

(** X7.  No call lowers the estimate: the counts it is made of only grow. *)
Theorem estimateComplexity_never_decreases :
  forall input this,
    (complexityRank (estimateComplexity this)
     <= complexityRank (estimateComplexity (snd (processThought input this))))%nat.
Proof.
  intros input this. rewrite processThought_state.
  destruct (enrich input this) as [[v|e] s]; [|lia].
  unfold estimateComplexity, afterStore. cbn [thoughtHistory branches].
  rewrite !keys_length, filter_app, !length_app. cbn [List.length].
  remember (if bucketed v
            then match pushToBranch "this.branches[validatedInput.branchId]"
                         (branches this) (branchKey v) v with
                 | Normal buckets => buckets
                 | Throw _ => branches this
                 end
            else branches this) as B eqn:EB.
  assert (Hb : (List.length (branches this) <= List.length B)%nat).
  { subst B. destruct (bucketed v); [|lia]. unfold pushToBranch.
    destruct (getOwn (branches this) (branchKey v)); [apply setOwn_length|].
    destruct (isInherited (branchKey v)); [lia|apply setOwn_length]. }
  clear EB.
  set (n := List.length (thoughtHistory this)).
  set (r := List.length (filter (fun t => truthyBool (isRevision t)) (thoughtHistory this))).
  set (r' := List.length (filter (fun t => truthyBool (isRevision t)) [v])).
  set (b := List.length (branches this)) in *.
  set (b' := List.length B) in *.
  destruct (estimate_rank n r b) as [A2 A1].
  destruct (estimate_rank (n + 1) (r + r') b') as [B2 B1].
  cbv zeta in A2, A1, B2, B1.
  set (c := complexityRank _) in *. set (c' := complexityRank _) in B2, B1 |- *.
  assert (Hc : (c <= 2)%nat).
  { subst c. destruct (if _ : bool then complex else _); cbn; lia. }
  destruct (Nat.le_gt_cases 2 c) as [G|G].
  - apply A2 in G. assert (2 <= c')%nat by (apply B2; lia). lia.
  - destruct (Nat.le_gt_cases 1 c) as [G1|G1]; [|lia].
    apply A1 in G1. assert (1 <= c')%nat by (apply B1; lia). lia.
Qed.

(** *** What the history holds *)

(** X8.  In every state the server can reach, each stored record has passed
    validation (a non-empty text, non-zero numbers), has a total that covers
    its number, carries the keywords of its own text and has a phase. *)
Theorem stored_records_are_validated :
  forall this, reachable this -> Forall wellStored (thoughtHistory this).
Proof.
  induction 1 as [ctx|this ctx _ IH|this input _ IH].
  - constructor.
  - exact IH.
  - rewrite processThought_state.
    destruct (enrich input this) as [[v|e] s] eqn:E; [|exact IH].
    pose proof (enrich_state input this) as Hs. rewrite E in Hs. cbn in Hs. subst s.
    cbn [afterStore thoughtHistory]. apply Forall_app. split; [exact IH|].
    constructor; [|constructor].
    destruct (enrich_Normal _ _ _ _ E)
      as (_ & v0 & Hv & Hth & Hn & Ht & _ & _ & _ & _ & Hp & _ & _ & _ & _ & Hk).
    destruct (validate_Normal _ _ Hv) as (_ & Hne & _ & Hn0 & _ & Ht0 & _).
    unfold wellStored. rewrite Hth, Hn, Ht, Hk, Hp.
    repeat split; auto; try lia. discriminate.
Qed.

(** *** Validation *)

(** X9.  [validateThoughtData] returns a record exactly when the four required
    fields are present with their types (text and numbers neither empty nor
    zero); the record then repeats the four values. *)
Theorem validation_accepts_exactly_the_complete :
  forall input,
    (firstMissing input = None <-> exists v, validateThoughtData input = Normal v)
    /\
    (forall v, validateThoughtData input = Normal v ->
               in_thought input = JString (thought v) /\
               in_thoughtNumber input = JNumber (thoughtNumber v) /\
               in_totalThoughts input = JNumber (totalThoughts v) /\
               in_nextThoughtNeeded input = JBoolean (nextThoughtNeeded v)).
Proof.
  intros input. split; [split|].
  - intros Hnone.
    assert (Hall : forall f, present f input = true).
    { intros f. pose proof (find_none _ _ Hnone f) as H.
      assert (Hin : In f requiredFields) by (destruct f; cbn; auto).
      specialize (H Hin). apply negb_false_iff in H. exact H. }
    pose proof (Hall f_thought) as H1. pose proof (Hall f_thoughtNumber) as H2.
    pose proof (Hall f_totalThoughts) as H3. pose proof (Hall f_nextThoughtNeeded) as H4.
    unfold present in H1, H2, H3, H4. cbn [fieldValue expectedType] in H1, H2, H3, H4.
    rewrite andb_true_r in H4.
    unfold validateThoughtData. rewrite !rejects_as_validate, H1, H2, H3, H4.
    cbn [negb]. eexists. reflexivity.
  - intros [v Hv]. destruct (firstMissing input) as [f|] eqn:E; [|reflexivity].
    rewrite (validate_firstMissing _ _ E) in Hv. discriminate Hv.
  - intros v Hv.
    destruct (validate_Normal _ _ Hv) as (H1 & _ & H2 & _ & H3 & _ & H4 & _).
    auto.
Qed.

(** *** The phase *)

(** X10.  The phase of the request is never replaced: a success body repeats
    it, and without one the body says Planning for thought 1 and Execution for
    every other number. *)
Theorem phase_is_kept_or_defaulted :
  forall input this body this',
    processThought input this = (Success body, this') ->
    (forall p, in_phase input = Some p -> r_phase body = p) /\
    (in_phase input = None ->
     r_phase body =
     if (r_thoughtNumber body =? 1)%Z then Planning else Execution).
Proof.
  intros input this body this' H.
  destruct (processThought_Success _ _ _ _ H) as (v & He & _ & _ & ->).
  destruct (enrich_Normal _ _ _ _ He)
    as (_ & v0 & Hv & _ & Hn & _ & _ & _ & _ & _ & Hp & _).
  destruct (validate_Normal _ _ Hv)
    as (_ & _ & _ & _ & _ & _ & _ & _ & _ & _ & Hp0 & _).
  cbn [respond r_phase r_thoughtNumber]. rewrite Hp, Hn. unfold phaseOf. rewrite Hp0.
  split.
  - intros p E. rewrite E. reflexivity.
  - intros E. rewrite E. reflexivity.
Qed.

(** *** The guidance *)

Lemma validate_derived_absent input v0 :
  validateThoughtData input = Normal v0 ->
  contradictions v0 = None /\ promptAlignment v0 = None /\
  promptRelevance v0 = None /\ driftWarning v0 = None /\
  intelligenceRecommendations v0 = None.
Proof.
  unfold validateThoughtData. intros H.
  repeat match type of H with
         | (if ?c then _ else _) = _ => destruct c; [discriminate H|]
         end.
  inversion H; subst. cbn. repeat split; reflexivity.
Qed.

(** X11.  A success body carries at most two guidance strings; when the prompt
    context is not initialised they can only be the advice to move to
    Verification, which is given exactly when the quotient of the two numbers
    is above 0.75 and the phase is not Verification. *)
Theorem guidance_without_prompt_context :
  forall input this body this',
    processThought input this = (Success body, this') ->
    (List.length (r_strategicGuidance body) <= 2)%nat /\
    (isInitialized (promptContext this) = false ->
     r_strategicGuidance body =
     if negb (Qle_bool (fdiv (inject_Z (r_thoughtNumber body))
                             (inject_Z (r_totalThoughts body))) (3 # 4))
        && negb (phase_eqb (r_phase body) Verification)
     then ["Consider transitioning to the Verification phase to validate your solution"%string]
     else []).
Proof.
  intros input this body this' H.
  destruct (processThought_Success _ _ _ _ H) as (v & He & _ & _ & ->).
  cbn [respond r_strategicGuidance r_thoughtNumber r_totalThoughts r_phase].
  split; [apply firstn_le_length|].
  intros Hinit.
  assert (Hplain : promptAlignment v = None /\ intelligenceRecommendations v = None
                   /\ exists p, phase v = Some p).
  { clear H. unfold enrich, bind, lift, get, ret in He.
    destruct (validateThoughtData input) as [v0|e] eqn:Hv; [|discriminate He].
    destruct (validate_derived_absent _ _ Hv) as (_ & Ha0 & _ & _ & Hr0).
    cbv zeta in He.
    destruct (checkContradictions _ _) as [c|e]; [|discriminate He].
    rewrite Hinit in He. inversion He; subst; clear He.
    destruct (hasContradictions c); destruct (phase v0) eqn:Ep;
      destruct (totalThoughts v0 <? thoughtNumber v0)%Z;
      repeat (progress (cbn; rewrite ?Ep)); repeat split; eauto. }
  destruct Hplain as (Ha & Hr & p & Hp).
  assert (Hnz : (totalThoughts v =? 0)%Z = false).
  { destruct (enrich_Normal _ _ _ _ He) as (_ & v0 & Hv & _ & _ & Ht & _).
    destruct (validate_Normal _ _ Hv) as (_ & _ & _ & Hn0 & _ & Ht0 & _).
    apply Z.eqb_neq. rewrite Ht. lia. }
  unfold provideStrategicGuidance. cbv zeta. rewrite Hnz, Ha, Hr, Hp, !app_nil_r.
  destruct (negb (Qle_bool _ _)); cbn [andb]; [|reflexivity].
  destruct p; reflexivity.
Qed.

End PipelineExtras.

(** ** The other methods *)

Section ToolsFacts.

Lemma spreadSet_is_firstOccurrences arr : spreadSet arr = firstOccurrences arr.
Proof. reflexivity. Qed.

Lemma spreadSet_grows (acc arr : list string) :
  exists rest,
    fold_left (fun seen x => if includes seen x then seen else seen ++ [x]) arr acc
    = acc ++ rest.
Proof.
  revert acc. induction arr as [|x arr IH]; intros acc; cbn.
  - exists []. rewrite app_nil_r. reflexivity.
  - destruct (includes acc x).
    + apply IH.
    + destruct (IH (acc ++ [x])) as [rest ->]. exists (x :: rest).
      rewrite <- app_assoc. reflexivity.
Qed.

Lemma spreadSet_NoDup_id arr : NoDup arr -> spreadSet arr = arr.
Proof.
  induction arr as [|x arr IH] using rev_ind; intros Hnd; [reflexivity|].
  rewrite spreadSet_is_firstOccurrences, firstOccurrences_snoc,
    <- spreadSet_is_firstOccurrences.
  apply NoDup_remove in Hnd. rewrite app_nil_r in Hnd. destruct Hnd as [Hnd Hx].
  rewrite (IH Hnd). apply includes_false in Hx. rewrite Hx. reflexivity.
Qed.

Lemma spreadSet_absorbs (acc arr : list string) :
  (forall x, In x arr -> In x acc) ->
  fold_left (fun seen x => if includes seen x then seen else seen ++ [x]) arr acc = acc.
Proof.
  induction arr as [|x arr IH]; intros H; cbn; [reflexivity|].
  assert (Hx : includes acc x = true) by (apply includes_In; apply H; left; reflexivity).
  rewrite Hx. apply IH. intros y Hy. apply H. right. exact Hy.
Qed.

(** X12.  [setAvailableTools] keeps each tool once: the new list has no
    duplicates, holds exactly the tools known before and the tools given,
    keeps the known tools in front in their order, and giving the same tools
    again changes nothing. *)
Theorem setAvailableTools_is_a_union :
  forall availableTools tools,
    let updated := setAvailableTools availableTools tools in
    NoDup updated /\
    (forall x, In x updated <-> In x availableTools \/ In x tools) /\
    (NoDup availableTools -> exists added, updated = availableTools ++ added) /\
    setAvailableTools updated tools = updated.
Proof.
  intros availableTools tools updated. subst updated. unfold setAvailableTools.
  destruct (firstOccurrences_spec (availableTools ++ tools)) as [Hnd Hin].
  rewrite <- spreadSet_is_firstOccurrences in Hnd, Hin.
  split; [exact Hnd|]. split; [|split].
  - intros x. rewrite Hin, in_app_iff. reflexivity.
  - intros Ha. unfold spreadSet at 1. rewrite fold_left_app.
    change (fold_left _ availableTools []) with (spreadSet availableTools).
    rewrite (spreadSet_NoDup_id _ Ha). apply spreadSet_grows.
  - unfold spreadSet at 1. rewrite fold_left_app.
    change (fold_left _ (spreadSet (availableTools ++ tools)) [])
      with (spreadSet (spreadSet (availableTools ++ tools))).
    rewrite (spreadSet_NoDup_id _ Hnd). apply spreadSet_absorbs.
    intros x Hx. apply Hin. apply in_or_app. right. exact Hx.
Qed.

End ToolsFacts.

Section TextFacts.

Lemma substring_length n s :
  String.length (String.substring 0 n s) = Nat.min n (String.length s).
Proof.
  revert s. induction n as [|n IH]; intros s.
  - destruct s; reflexivity.
  - destruct s as [|c s]; cbn; [reflexivity|]. rewrite IH. reflexivity.
Qed.

Lemma string_length_append a b :
  String.length (a ++ b)%string = (String.length a + String.length b)%nat.
Proof. induction a as [|c a IH]; cbn; [reflexivity|]. rewrite IH. reflexivity. Qed.

Lemma substring_prefix n s : String.prefix (String.substring 0 n s) s = true.
Proof.
  revert s. induction n as [|n IH]; intros s.
  - destruct s; reflexivity.
  - destruct s as [|c s]; cbn; [reflexivity|].
    destruct (ascii_dec c c) as [_|C]; [apply IH|congruence].
Qed.

(** X13.  [truncateText] returns a text that fits as it is; a longer one
    becomes its first [maxLength - 3] code units followed by three dots, which
    fits whenever [maxLength] is at least 3 (and is three dots alone when it
    is smaller). *)
Theorem truncateText_fits :
  forall text maxLength,
    ((Z.of_nat (String.length text) <= maxLength)%Z ->
     truncateText text maxLength = text)
    /\
    ((maxLength < Z.of_nat (String.length text))%Z ->
     exists head,
       truncateText text maxLength = (head ++ "...")%string /\
       String.prefix head text = true /\
       Z.of_nat (String.length head) = Z.max 0 (maxLength - 3))
    /\
    ((3 <= maxLength)%Z ->
     (Z.of_nat (String.length (truncateText text maxLength)) <= maxLength)%Z).
Proof.
  intros text maxLength. unfold truncateText, substringTo.
  destruct (Z.leb_spec (Z.of_nat (String.length text)) maxLength) as [Hfit|Hlong].
  - split; [reflexivity|]. split; [lia|]. intros _. exact Hfit.
  - split; [lia|]. split.
    + intros _. eexists. split; [reflexivity|]. split; [apply substring_prefix|].
      rewrite substring_length. lia.
    + intros H3. rewrite string_length_append, substring_length. cbn [String.length]. lia.
Qed.

End TextFacts.

Section RecentFacts.

Lemma slice_last {A} (count : Z) (arr : list A) :
  (0 < count)%Z ->
  slice (- count) arr = skipn (List.length arr - Z.to_nat count) arr.
Proof.
  intros H. unfold slice.
  destruct (Z.ltb_spec (- count) 0); [|lia]. f_equal. lia.
Qed.

Lemma skipn_min {A} (k : nat) (l : list A) :
  skipn (Nat.min k (List.length l)) l = skipn k l.
Proof.
  destruct (Nat.le_gt_cases k (List.length l)) as [H|H].
  - rewrite Nat.min_l by exact H. reflexivity.
  - rewrite Nat.min_r by lia. rewrite !skipn_all2 by lia. reflexivity.
Qed.

(** What [slice(-count)] selects. *)
Lemma slice_selects {A} (count : Z) (arr : list A) :
  ((0 < count)%Z -> slice (- count) arr = skipn (List.length arr - Z.to_nat count) arr)
  /\ (count = 0%Z -> slice (- count) arr = arr)
  /\ ((count < 0)%Z -> slice (- count) arr = skipn (Z.to_nat (- count)) arr).
Proof.
  split; [apply slice_last|]. split.
  - intros ->. unfold slice. change (- 0 <? 0)%Z with false. cbv iota.
    rewrite Z.min_l by lia. reflexivity.
  - intros H. unfold slice. destruct (Z.ltb_spec (- count) 0); [lia|].
    rewrite <- (skipn_min (Z.to_nat (- count)) arr). f_equal. lia.
Qed.

Lemma Forall2_map_r {A B} (P : A -> B -> Prop) (f : A -> B) l :
  (forall x, P x (f x)) -> Forall2 P l (map f l).
Proof. intros H. induction l as [|x l IH]; cbn; constructor; auto. Qed.

(** X14.  [getRecentThoughts] lists the thoughts that [slice(-count)]
    selects, in their order: for a positive count the last [count] thoughts
    (all of them when there are fewer), for the count 0 every thought, for a
    negative count all but the first [-count].  Each entry carries the number
    of its thought and a summary: the text itself when that has at most 50
    code units, and otherwise its first 50 code units followed by three dots,
    so no summary has more than 53. *)
Theorem getRecentThoughts_lists_the_last :
  forall history count,
    (exists selected,
        ((0 < count)%Z ->
         selected = skipn (List.length history - Z.to_nat count) history) /\
        (count = 0%Z -> selected = history) /\
        ((count < 0)%Z -> selected = skipn (Z.to_nat (- count)) history) /\
        Forall2
          (fun t entry =>
             fst entry = thoughtNumber t /\
             ((String.length (thought t) <= 50)%nat -> snd entry = thought t) /\
             ((50 < String.length (thought t))%nat ->
              exists head,
                snd entry = (head ++ "...")%string /\
                String.prefix head (thought t) = true /\
                String.length head = 50%nat))
          selected (getRecentThoughts history count))
    /\
    ((0 < count)%Z ->
     List.length (getRecentThoughts history count)
     = Nat.min (Z.to_nat count) (List.length history))
    /\
    (forall n summary t,
        nth_error (getRecentThoughts history count) n = Some (t, summary) ->
        (String.length summary <= 53)%nat).
Proof.
  intros history count. unfold getRecentThoughts.
  destruct (slice_selects count history) as (Hpos & Hzero & Hneg).
  split; [|split].
  - exists (slice (- count) history).
    split; [exact Hpos|]. split; [exact Hzero|]. split; [exact Hneg|].
    apply Forall2_map_r. intros t. cbn [fst snd]. split; [reflexivity|].
    destruct (Nat.ltb_spec 50 (String.length (thought t))) as [Hl|Hl].
    + split; [lia|]. intros _. eexists. split; [reflexivity|].
      split; [apply substring_prefix|].
      unfold substringTo. rewrite substring_length. cbn. lia.
    + split; [reflexivity|lia].
  - intros H. rewrite (Hpos H), length_map, length_skipn. lia.
  - intros n summary t H. apply nth_error_In in H. apply in_map_iff in H.
    destruct H as (x & E & _). inversion E; subst.
    destruct (Nat.ltb_spec 50 (String.length (thought x))); [|lia].
    unfold substringTo. rewrite string_length_append, substring_length. cbn. lia.
Qed.

End RecentFacts.

Section ProgressBarFacts.
Local Open Scope Q_scope.


End ProgressBarFacts.

Section QualityBounds.
Context {collaborators : Collaborators}.

(** X16.  [assessThoughtQuality] always attaches a quality and an insight
    value.  The coherence lies between 3 and 8, the depth is 3, 5 or 8, the
    relevance 4 or 5, the score between 3 and 7 and the insight value between
    3 and 9; the feedback is empty exactly when no sub-score was lowered. *)
Theorem assessThoughtQuality_bounds :
  forall t,
    exists q v,
      quality (assessThoughtQuality t) = Some q /\
      insightValue (assessThoughtQuality t) = Some v /\
      (3 <= coherence q <= 8)%Z /\
      (depth q = 3 \/ depth q = 5 \/ depth q = 8)%Z /\
      (relevance q = 4 \/ relevance q = 5)%Z /\
      (3 <= qualityScore q <= 7)%Z /\
      (3 <= v <= 9)%Z /\
      (feedback q = [] <->
       (5 <= coherence q)%Z /\ (5 <= depth q)%Z /\ relevance q = 5%Z).
Proof.
  intros t. unfold assessThoughtQuality.
  assert (Hmin : forall k, (0 < k)%Z ->
            Z.min 8 (5 + k) = 6%Z \/ Z.min 8 (5 + k) = 7%Z \/ Z.min 8 (5 + k) = 8%Z)
    by (intros; lia).
  destruct (Z.ltb_spec 0 (dependencyCount t)) as [Hk|Hk];
    [destruct (Hmin _ Hk) as [-> | [-> | ->]]|destruct (1 <? thoughtNumber t)%Z];
    destruct (wordCount t <? 30)%Z; try destruct (100 <? wordCount t)%Z;
    destruct (phase t) as [[| | |]|]; try destruct (3 <? thoughtNumber t)%Z;
    cbv beta iota zeta; unfold set_insightValue, set_quality;
    cbn [quality insightValue coherence depth relevance qualityScore feedback];
    eexists; eexists; (split; [reflexivity|]); (split; [reflexivity|]);
    cbn [coherence depth relevance qualityScore feedback app];
    (split; [lia|]); (split; [lia|]); (split; [lia|]);
    (split; [vm_compute; split; discriminate|]);
    (split; [vm_compute; split; discriminate|]);
    (split; [intros H; try discriminate H; repeat split; try reflexivity; lia
            |intros (H1 & H2 & H3); try reflexivity; try lia]).
Qed.

End QualityBounds.

Section PhaseFacts.
Local Open Scope Q_scope.

Lemma fdiv_same n : (n <> 0)%Z -> fdiv (inject_Z n) (inject_Z n) = 1.
Proof.
  intros H. unfold fdiv. change 1 with (binary64 1). apply binary64_comp.
  apply Qmult_inv_r. intros E. apply H.
  unfold Qeq in E. cbn in E. lia.
Qed.

Lemma fdiv_at_most (n t a : Z) (b : positive) :
  (0 < t)%Z -> (n * Z.pos b <= a * t)%Z ->
  Qle_bool (fdiv (inject_Z n) (inject_Z t)) (literal (a # b)) = true.
Proof.
  intros Ht H. apply Qle_bool_iff. unfold fdiv, literal. apply binary64_mono.
  apply Qle_shift_div_r.
  - rewrite <- (Zlt_Qlt 0). exact Ht.
  - unfold Qle, Qmult, inject_Z. cbn. lia.
Qed.

(** X17.  [suggestNextPhase] never skips a phase and never goes back: it
    returns the phase of the thought (Execution when it has none) or the phase
    that follows it.  At the last thought ([thoughtNumber = totalThoughts]) it
    returns the following phase; a Planning thought stays in Planning through
    the first fifth of the declared total, an Analysis thought through the
    first two fifths, an Execution thought through the first four fifths. *)
Theorem suggestNextPhase_steps_once :
  forall t,
    (suggestNextPhase t = currentPhase t \/
     suggestNextPhase t = followingPhase (currentPhase t))
    /\
    (phase t <> None -> totalThoughts t <> 0%Z ->
     thoughtNumber t = totalThoughts t ->
     suggestNextPhase t = followingPhase (currentPhase t))
    /\
    ((0 < totalThoughts t)%Z ->
     (phase t = Some Planning ->
      (5 * thoughtNumber t <= totalThoughts t)%Z ->
      suggestNextPhase t = Planning) /\
     (phase t = Some Analysis ->
      (5 * thoughtNumber t <= 2 * totalThoughts t)%Z ->
      suggestNextPhase t = Analysis) /\
     (phase t = Some Execution ->
      (5 * thoughtNumber t <= 4 * totalThoughts t)%Z ->
      suggestNextPhase t = Execution)).
Proof.
  intros t. unfold suggestNextPhase, currentPhase. split; [|split].
  - destruct (phase t) as [[| | |]|]; cbv zeta;
      try (match goal with |- context [if ?b then _ else _] => destruct b end; auto);
      auto.
  - intros Hp Ht Hn. rewrite Hn, (fdiv_same _ Ht).
    apply Z.eqb_neq in Ht. rewrite Ht.
    destruct (phase t) as [[| | |]|]; try reflexivity. congruence.
  - intros Ht.
    assert (E : (totalThoughts t =? 0)%Z = false) by (apply Z.eqb_neq; lia).
    repeat split; intros Hp Hn; rewrite Hp; cbv zeta; rewrite E.
    + rewrite (fdiv_at_most _ _ 2 10 Ht) by lia. reflexivity.
    + rewrite (fdiv_at_most _ _ 4 10 Ht) by lia. reflexivity.
    + rewrite (fdiv_at_most _ _ 8 10 Ht) by lia. reflexivity.
Qed.

End PhaseFacts.

Section DetectFacts.
Context {collaborators : Collaborators}.
Local Arguments extractKeywords : simpl never.

Lemma semanticConnections_sound history newThought n :
  In n (semanticConnections history newThought (extractKeywords (thought newThought))) ->
  exists prev,
    In prev history /\ thoughtNumber prev = n /\
    (2 <= sharedKeywords newThought prev)%nat /\
    ~ In n (explicitDependencies newThought).
Proof.
  unfold semanticConnections. intros H. apply in_flat_map in H.
  destruct H as (prev & Hin & H). exists prev.
  unfold sharedKeywords, explicitDependencies.
  destruct (keywords prev) as [ks|]; [|destruct H].
  destruct (Nat.leb_spec 2 (List.length
              (filter (fun kw => includes (extractKeywords (thought newThought)) kw) ks)));
    cbn [andb] in H; [|destruct H].
  destruct (dependencies newThought) as [deps|].
  - destruct (existsb (Z.eqb (thoughtNumber prev)) deps) eqn:Ex; cbn in H; [destruct H|].
    destruct H as [<-|[]]. repeat split; auto.
    intros Hd. assert (existsb (Z.eqb (thoughtNumber prev)) deps = true).
    { apply existsb_exists. exists (thoughtNumber prev). split; [exact Hd|apply Z.eqb_refl]. }
    congruence.
  - cbn in H. destruct H as [<-|[]]. repeat split; auto.
Qed.

(** X18.  [detectSemanticRelationships] leaves the thought alone while fewer
    than two thoughts are stored.  Otherwise it only appends to the
    dependencies: the explicit ones stay in front, and every number it adds is
    the number of a stored thought that shares two or more keywords with the
    new one and was not an explicit dependency; text and numbers are
    untouched. *)
Theorem detectSemanticRelationships_only_appends :
  forall this newThought,
    ((List.length (thoughtHistory this) < 2)%nat ->
     detectSemanticRelationships this newThought = newThought)
    /\
    (exists added,
        explicitDependencies (detectSemanticRelationships this newThought)
        = explicitDependencies newThought ++ added /\
        forall n, In n added ->
          exists prev,
            In prev (thoughtHistory this) /\ thoughtNumber prev = n /\
            (2 <= sharedKeywords newThought prev)%nat /\
            ~ In n (explicitDependencies newThought))
    /\
    thought (detectSemanticRelationships this newThought) = thought newThought /\
    thoughtNumber (detectSemanticRelationships this newThought) = thoughtNumber newThought.
Proof.
  intros this newThought. unfold detectSemanticRelationships.
  destruct (Nat.ltb_spec (List.length (thoughtHistory this)) 2) as [Hl|Hl].
  - split; [reflexivity|]. split; [|split; reflexivity].
    exists []. rewrite app_nil_r. split; [reflexivity|intros n []].
  - split; [lia|].
    set (kws := extractKeywords (thought newThought)).
    set (nt := set_keywords (Some kws) newThought).
    assert (Hsame : semanticConnections (thoughtHistory this) nt kws
                    = semanticConnections (thoughtHistory this) newThought kws)
      by reflexivity.
    rewrite Hsame.
    pose proof (semanticConnections_sound (thoughtHistory this) newThought) as Hs.
    fold kws in Hs.
    destruct (semanticConnections (thoughtHistory this) newThought kws) as [|c cs].
    + split; [|split; reflexivity].
      exists []. rewrite app_nil_r. split; [reflexivity|intros n []].
    + split; [|split; reflexivity].
      exists (c :: cs). split; [reflexivity|]. intros n Hn. apply Hs. exact Hn.
Qed.

End DetectFacts.

Section KeywordDistinct.

(** X19.  Whatever the text, the keywords [extractKeywords] returns are
    pairwise distinct, and each of them is a word of the lower-cased text,
    stripped of punctuation, that is longer than four characters and is none
    of the five stop words; [__proto__] is never one of them. *)
Theorem extractKeywords_distinct_significant :
  forall text,
    NoDup (extractKeywords text) /\
    forall w, In w (extractKeywords text) ->
      In w (splitWhiteSpace (stripPunctuation (toLowerCase text))) /\
      (4 < String.length w)%nat /\
      ~ In w stopwords /\
      w <> "__proto__"%string.
Proof.
  intros text. unfold extractKeywords.
  set (wordCounts := fold_left countWord (significantWords text) empty).
  assert (Hnd : NoDup (map fst wordCounts))
    by (apply wordCounts_NoDup; constructor).
  assert (Hp : Permutation (map fst (sortEntries (entries wordCounts)))
                 (map fst wordCounts)).
  { apply Permutation_map. rewrite sortEntries_Permutation. apply entries_Permutation. }
  rewrite <- firstn_map. split.
  - apply NoDup_firstn. apply (Permutation_NoDup (Permutation_sym Hp)). exact Hnd.
  - intros w Hw. apply In_firstn in Hw.
    apply (Permutation_in _ Hp) in Hw.
    apply wordCounts_keys in Hw. destruct Hw as [[]|[Hw Hproto]].
    unfold significantWords in Hw.
    apply filter_In in Hw. destruct Hw as [Hw Hstop].
    apply filter_In in Hw. destruct Hw as [Hw Hlen].
    repeat split; [exact Hw| |  |exact Hproto].
    + apply Nat.ltb_lt. exact Hlen.
    + apply includes_false. apply negb_true_iff. exact Hstop.
Qed.

End KeywordDistinct.

Section Adjacency.

Lemma toString_injective a b : Number.toString a = Number.toString b -> a = b.
Proof.
  assert (Hnil : forall z, Z.to_int z <> Decimal.Pos Decimal.Nil /\
                          Z.to_int z <> Decimal.Neg Decimal.Nil).
  { intros [|p|p]; cbn; split; try discriminate;
      intros E; inversion E as [E']; exact (DecimalPos.Unsigned.to_uint_nonnil p E'). }
  unfold Number.toString. intros H.
  apply (f_equal NilZero.int_of_string) in H.
  rewrite !NilZero.isi in H by apply Hnil. inversion H as [E].
  apply DecimalZ.to_int_inj. exact E.
Qed.

Lemma addEdge_connections adjacencyList thoughtNumber dep n :
  connectionsOf (addEdge adjacencyList thoughtNumber dep) n
  = connectionsOf adjacencyList n ++ (if (dep =? n)%Z then [thoughtNumber] else []).
Proof.
  unfold connectionsOf, addEdge.
  destruct (Z.eqb_spec dep n) as [->|Hne].
  - destruct (getOwn adjacencyList (Number.toString n));
      rewrite getOwn_setOwn_eq; reflexivity.
  - assert (Hk : Number.toString n <> Number.toString dep)
      by (intros E; apply toString_injective in E; congruence).
    destruct (getOwn adjacencyList (Number.toString dep));
      rewrite (getOwn_setOwn_neq _ _ _ _ Hk), app_nil_r; reflexivity.
Qed.

Lemma addEdge_wellFormed adjacencyList thoughtNumber dep :
  wellFormed adjacencyList -> wellFormed (addEdge adjacencyList thoughtNumber dep).
Proof.
  intros H k. unfold addEdge.
  destruct (String.eqb_spec k (Number.toString dep)) as [->|Hne].
  - destruct (getOwn adjacencyList (Number.toString dep)) as [[|x r]|];
      rewrite getOwn_setOwn_eq; discriminate.
  - destruct (getOwn adjacencyList (Number.toString dep));
      rewrite (getOwn_setOwn_neq _ _ _ _ Hne); apply H.
Qed.

Lemma addEdges_connections deps adjacencyList thoughtNumber n :
  connectionsOf (fold_left (fun a dep => addEdge a thoughtNumber dep) deps adjacencyList) n
  = connectionsOf adjacencyList n
    ++ flat_map (fun dep => if (dep =? n)%Z then [thoughtNumber] else []) deps.
Proof.
  revert adjacencyList. induction deps as [|d r IH]; cbn; intros adjacencyList.
  - rewrite app_nil_r. reflexivity.
  - rewrite IH, addEdge_connections, <- app_assoc. reflexivity.
Qed.

Lemma addEdges_wellFormed deps adjacencyList thoughtNumber :
  wellFormed adjacencyList ->
  wellFormed (fold_left (fun a dep => addEdge a thoughtNumber dep) deps adjacencyList).
Proof.
  revert adjacencyList. induction deps as [|d r IH]; cbn; intros adjacencyList H;
    [exact H|]. apply IH, addEdge_wellFormed, H.
Qed.

Lemma adjacency_from thoughts adjacencyList n :
  wellFormed adjacencyList ->
  connectionsOf (fold_left addThought thoughts adjacencyList) n
  = connectionsOf adjacencyList n ++ dependents thoughts n
  /\ wellFormed (fold_left addThought thoughts adjacencyList).
Proof.
  revert adjacencyList.
  induction thoughts as [|t r IH]; cbn; intros adjacencyList H.
  - rewrite app_nil_r. auto.
  - assert (Hw : wellFormed (addThought adjacencyList t)).
    { unfold addThought. destruct (dependencies t); [|exact H].
      apply addEdges_wellFormed, H. }
    destruct (IH _ Hw) as [E W]. split; [|exact W].
    rewrite E. unfold addThought at 1.
    destruct (dependencies t) as [deps|]; cbn.
    + rewrite addEdges_connections, <- app_assoc. reflexivity.
    + reflexivity.
Qed.

(** X20.  The adjacency list that [generateDependencyGraph] builds holds,
    under the key of a thought number, exactly the thoughts that declare that
    number as a dependency, in the order of the list and once per declaration;
    a number that no thought depends on has no entry. *)
Theorem adjacency_lists_the_dependents :
  forall thoughts n,
    getOwn (buildAdjacencyList thoughts) (Number.toString n)
    = listed (dependents thoughts n).
Proof.
  intros thoughts n.
  assert (H0 : wellFormed (@empty (list Z))) by (intros k; discriminate).
  destruct (adjacency_from thoughts empty n H0) as [E W].
  fold (buildAdjacencyList thoughts) in E, W.
  unfold connectionsOf in E. cbn [empty getOwn app] in E.
  specialize (W (Number.toString n)).
  destruct (getOwn (buildAdjacencyList thoughts) (Number.toString n)) as [c|].
  - subst c. destruct (dependents thoughts n); [congruence|reflexivity].
  - rewrite <- E. reflexivity.
Qed.

End Adjacency.

Section ToolUsage.
Local Arguments isInherited : simpl never.

Lemma trackTool_counts thought toolUsageStats tool :
  isInherited tool = false ->
  exists stats',
    trackTool thought toolUsageStats tool = Normal stats' /\
    (forall k, k <> tool -> getOwn stats' k = getOwn toolUsageStats k) /\
    usageCount (statsOf stats' tool) = (usageCount (statsOf toolUsageStats tool) + 1)%Z /\
    thoughtsUsedIn (statsOf stats' tool)
    = thoughtsUsedIn (statsOf toolUsageStats tool) ++ [thoughtNumber thought] /\
    (forall p, phaseUsage (statsOf stats' tool) p
               = (phaseUsage (statsOf toolUsageStats tool) p
                  + (if inPhase thought p then 1 else 0))%Z).
Proof.
  intros Hi. unfold trackTool, statsOf, inPhase. rewrite Hi.
  destruct (getOwn toolUsageStats tool) as [stats|];
    (eexists; split; [reflexivity|]);
    (split; [intros k Hk; apply getOwn_setOwn_neq; exact Hk|]);
    rewrite getOwn_setOwn_eq; cbn; repeat split;
    intros p; (destruct (phase thought) as [q|]; [|lia]);
    destruct (phase_eqb q p); lia.
Qed.

Lemma trackTools_counts thought tools :
  (forall tool, In tool tools -> isInherited tool = false) ->
  forall toolUsageStats,
  exists stats',
    trackTools thought toolUsageStats tools = (Normal stats', stats') /\
    forall k,
      usageCount (statsOf stats' k)
      = (usageCount (statsOf toolUsageStats k) + Z.of_nat (uses tools k))%Z /\
      thoughtsUsedIn (statsOf stats' k)
      = thoughtsUsedIn (statsOf toolUsageStats k)
        ++ repeat (thoughtNumber thought) (uses tools k) /\
      forall p, phaseUsage (statsOf stats' k) p
                = (phaseUsage (statsOf toolUsageStats k) p
                   + (if inPhase thought p then Z.of_nat (uses tools k) else 0))%Z.
Proof.
  unfold uses. induction tools as [|tool rest IH]; intros Hi toolUsageStats.
  - exists toolUsageStats. split; [reflexivity|]. intros k. cbn.
    rewrite app_nil_r. repeat split; [lia|].
    intros p. destruct (inPhase thought p); lia.
  - destruct (trackTool_counts thought toolUsageStats tool) as (s1 & E1 & Hother & Hc & Ht & Hp).
    { apply Hi. left. reflexivity. }
    destruct (IH (fun t H => Hi t (or_intror H)) s1) as (s2 & E2 & H2).
    exists s2. split.
    + cbn [trackTools]. rewrite E1. exact E2.
    + intros k. destruct (H2 k) as (Hc2 & Ht2 & Hp2).
      cbn [count_occ]. destruct (string_dec tool k) as [->|Hne].
      * rewrite Hc2, Ht2, Hc, Ht, <- app_assoc. cbn [repeat app].
        repeat split; [lia|].
        intros p. rewrite Hp2, Hp. destruct (inPhase thought p); lia.
      * assert (Es : statsOf s1 k = statsOf toolUsageStats k).
        { unfold statsOf. rewrite Hother by congruence. reflexivity. }
        rewrite Hc2, Ht2, Es. repeat split.
        intros p. rewrite Hp2, Es. reflexivity.
Qed.

Lemma trackTool_noInherited thought toolUsageStats tool stats' :
  noInheritedEntry toolUsageStats ->
  trackTool thought toolUsageStats tool = Normal stats' ->
  noInheritedEntry stats'.
Proof.
  intros Hn E k Hk. unfold trackTool in E.
  destruct (String.eqb_spec k tool) as [->|Hne].
  - rewrite (Hn tool Hk), Hk in E. discriminate E.
  - destruct (getOwn toolUsageStats tool).
    + inversion E; subst. rewrite getOwn_setOwn_neq by exact Hne. apply Hn, Hk.
    + destruct (isInherited tool); [discriminate E|].
      inversion E; subst. rewrite getOwn_setOwn_neq by exact Hne. apply Hn, Hk.
Qed.

Lemma trackTools_inherited thought tools :
  forall toolUsageStats tool,
    noInheritedEntry toolUsageStats ->
    In tool tools -> isInherited tool = true ->
    exists stats',
      trackTools thought toolUsageStats tools
      = (Throw (TypeError "Cannot read properties of undefined (reading 'push')"), stats').
Proof.
  induction tools as [|t rest IH]; intros toolUsageStats tool Hn Hin Hi; [destruct Hin|].
  cbn [trackTools].
  destruct (trackTool thought toolUsageStats t) as [s1|e] eqn:E.
  - destruct Hin as [->|Hin].
    + unfold trackTool in E. rewrite (Hn tool Hi), Hi in E. discriminate E.
    + apply (IH s1 tool); [|exact Hin|exact Hi].
      apply (trackTool_noInherited _ _ _ _ Hn E).
  - unfold trackTool in E. destruct (getOwn toolUsageStats t); [discriminate E|].
    destruct (isInherited t); [|discriminate E].
    inversion E; subst. eexists. reflexivity.
Qed.

(** X21.  [trackToolUsage] counts every use.  When no tool of the thought is
    named like a property that objects inherit, it returns, and afterwards
    each tool has been used as often more as the thought names it: its count
    has grown by that number, the number of the thought has been appended that
    often, and so has the count of the phase of the thought.  Tools the
    thought does not name keep their statistics.  When a tool is named like an
    inherited property ([constructor], [toString], ...) the method throws a
    TypeError instead. *)
Theorem trackToolUsage_counts_every_use :
  forall toolUsageStats thought tools,
    toolsUsed thought = Some tools ->
    ((forall tool, In tool tools -> isInherited tool = false) ->
     exists stats',
       trackToolUsage toolUsageStats thought = (Normal tt, stats') /\
       forall k,
         usageCount (statsOf stats' k)
         = (usageCount (statsOf toolUsageStats k) + Z.of_nat (uses tools k))%Z /\
         thoughtsUsedIn (statsOf stats' k)
         = thoughtsUsedIn (statsOf toolUsageStats k)
           ++ repeat (thoughtNumber thought) (uses tools k) /\
         forall p, phaseUsage (statsOf stats' k) p
                   = (phaseUsage (statsOf toolUsageStats k) p
                      + (if inPhase thought p then Z.of_nat (uses tools k) else 0))%Z)
    /\
    (noInheritedEntry toolUsageStats ->
     forall tool, In tool tools -> isInherited tool = true ->
       exists stats',
         trackToolUsage toolUsageStats thought
         = (Throw (TypeError "Cannot read properties of undefined (reading 'push')"),
            stats')).
Proof.
  intros toolUsageStats thought tools Ht. unfold trackToolUsage. rewrite Ht. split.
  - intros Hi.
    destruct (trackTools_counts thought tools Hi toolUsageStats) as (s' & E & H).
    exists s'. split; [|exact H].
    destruct tools as [|t r]; [|rewrite E; reflexivity].
    cbn in E. inversion E. reflexivity.
  - intros Hn tool Hin Hi.
    destruct (trackTools_inherited thought tools toolUsageStats tool Hn Hin Hi) as (s' & E).
    exists s'. destruct tools as [|t r]; [destruct Hin|]. rewrite E. reflexivity.
Qed.

End ToolUsage.

(** ** The properties at work *)

Lemma success_stores_one_record_witness :
  exists body this' v,
    @processThought quiet (request "x" 2 5) fresh = (Success body, this') /\
    thoughtHistory this' = thoughtHistory fresh ++ [v] /\
    thoughtNumber v = r_thoughtNumber body /\
    totalThoughts v = r_totalThoughts body.
Proof.
  eassert (E : @processThought quiet (request "x" 2 5) fresh = _)
    by (vm_compute; reflexivity).
  destruct (@success_stores_one_record quiet _ _ _ _ E) as (v & Hh & Hn & Ht & _).
  eexists _, _, v.
  split; [exact E|split; [exact Hh|split; [exact Hn|exact Ht]]].
Defined.


Lemma inherited_branch_id_poisons_the_server_witness :
  isError (fst (@processThought quiet (request "y" 2 2) poisoned)) = true /\
  rendersCleanly (thoughtHistory (snd (@processThought quiet (request "y" 2 2) poisoned)))
  = false.
Proof.
  apply (@inherited_branch_id_poisons_the_server quiet (request "y" 2 2) poisoned).
  vm_compute. reflexivity.
Defined.

Lemma inherited_branch_id_is_stored_and_reported_witness :
  exists v,
    @processThought quiet branchNamedConstructor fresh =
    (Failure {| e_error := "this.branches[validatedInput.branchId].push is not a function";
                e_status := "failed" |},
     {| thoughtHistory := thoughtHistory fresh ++ [v];
        branches := branches fresh;
        promptContext := promptContext fresh |}).
Proof.
  eassert (E : fst (@enrich quiet branchNamedConstructor fresh) = _)
    by (vm_compute; reflexivity).
  pose proof (@enrich_state quiet branchNamedConstructor fresh) as Hs.
  destruct (@enrich quiet branchNamedConstructor fresh) as [r s] eqn:He.
  cbn [fst snd] in E, Hs. subst r s.
  eexists.
  apply (@inherited_branch_id_is_stored_and_reported quiet branchNamedConstructor fresh _
           (reachable_new _) He).
  - vm_compute. reflexivity.
  - vm_compute. reflexivity.
Defined.


Lemma stored_records_are_validated_witness :
  Forall wellStored
    (thoughtHistory (@runAll quiet [sortingFirst; sortingSecond] fresh)).
Proof.
  apply (@stored_records_are_validated quiet).
  apply reachable_runAll. apply reachable_new.
Defined.

Lemma validation_accepts_exactly_the_complete_witness :
  firstMissing (request "x" 1 1) = None /\
  in_thoughtNumber (request "x" 1 1) = JNumber (thoughtNumber (validated "x" 1 1)).
Proof.
  split.
  - apply (proj1 (validation_accepts_exactly_the_complete (request "x" 1 1))).
    exists (validated "x" 1 1). reflexivity.
  - apply (proj2 (validation_accepts_exactly_the_complete (request "x" 1 1))
             (validated "x" 1 1)).
    reflexivity.
Defined.

Lemma phase_is_kept_or_defaulted_witness :
  exists body this',
    @processThought quiet (request "x" 2 5) fresh = (Success body, this') /\
    r_phase body = if (r_thoughtNumber body =? 1)%Z then Planning else Execution.
Proof.
  eassert (E : @processThought quiet (request "x" 2 5) fresh = _)
    by (vm_compute; reflexivity).
  pose proof (proj2 (@phase_is_kept_or_defaulted quiet _ _ _ _ E) eq_refl) as H.
  eexists _, _. split; [exact E|exact H].
Defined.

Lemma guidance_without_prompt_context_witness :
  exists body this',
    @processThought quiet (request "x" 2 5) fresh = (Success body, this') /\
    (List.length (r_strategicGuidance body) <= 2)%nat.
Proof.
  eassert (E : @processThought quiet (request "x" 2 5) fresh = _)
    by (vm_compute; reflexivity).
  pose proof (proj1 (@guidance_without_prompt_context quiet _ _ _ _ E)) as H.
  eexists _, _. split; [exact E|exact H].
Defined.

Lemma setAvailableTools_is_a_union_witness :
  exists added,
    setAvailableTools ["search"%string] ["search"; "fetch"]%string
    = ["search"%string] ++ added.
Proof.
  apply (proj1 (proj2 (proj2
           (setAvailableTools_is_a_union ["search"%string] ["search"; "fetch"]%string)))).
  constructor; [intros []|constructor].
Defined.

Lemma truncateText_fits_witness :
  (Z.of_nat (String.length (truncateText "sequential thinking" 10)) <= 10)%Z.
Proof.
  apply (proj2 (proj2 (truncateText_fits "sequential thinking" 10))). lia.
Defined.

Lemma getRecentThoughts_lists_the_last_witness :
  exists selected,
    selected = skipn (List.length chained - Z.to_nat 1) chained /\
    Forall2
      (fun t entry =>
         fst entry = thoughtNumber t /\
         ((String.length (thought t) <= 50)%nat -> snd entry = thought t) /\
         ((50 < String.length (thought t))%nat ->
          exists head,
            snd entry = (head ++ "...")%string /\
            String.prefix head (thought t) = true /\
            String.length head = 50%nat))
      selected (getRecentThoughts chained 1).
Proof.
  destruct (proj1 (getRecentThoughts_lists_the_last chained 1))
    as (selected & Hpos & _ & _ & Hall).
  exists selected. split; [apply Hpos; lia|exact Hall].
Defined.


Lemma suggestNextPhase_steps_once_witness :
  suggestNextPhase planningFirst = Planning.
Proof.
  apply (proj1 (proj2 (proj2 (suggestNextPhase_steps_once planningFirst)) ltac:(cbn; lia))).
  - reflexivity.
  - cbn. lia.
Defined.

Lemma detectSemanticRelationships_only_appends_witness :
  @detectSemanticRelationships quiet fresh thirdValidated = thirdValidated.
Proof.
  apply (proj1 (@detectSemanticRelationships_only_appends quiet fresh thirdValidated)).
  cbn. lia.
Defined.

Lemma extractKeywords_distinct_significant_witness :
  In "sorting"%string (extractKeywords "Sorting, again!") /\
  (4 < String.length "sorting")%nat /\
  ~ In "sorting"%string stopwords.
Proof.
  assert (Hin : In "sorting"%string (extractKeywords "Sorting, again!"))
    by (vm_compute; left; reflexivity).
  destruct (proj2 (extractKeywords_distinct_significant "Sorting, again!")
              "sorting"%string Hin) as (_ & Hl & Hs & _).
  split; [exact Hin|split; [exact Hl|exact Hs]].
Defined.

Lemma trackToolUsage_counts_every_use_witness :
  exists stats',
    trackToolUsage empty searching = (Normal tt, stats') /\
    usageCount (statsOf stats' "search")
    = (usageCount (statsOf empty "search")
       + Z.of_nat (uses ["search"; "fetch"; "search"]%string "search"))%Z.
Proof.
  destruct (proj1 (trackToolUsage_counts_every_use empty searching
                     ["search"; "fetch"; "search"]%string eq_refl))
    as (stats' & E & H).
  - intros tool [<-|[<-|[<-|[]]]]; reflexivity.
  - exists stats'. split; [exact E|]. exact (proj1 (H "search"%string)).
Defined.
